(** * SysClk LWLA driver: the control plane of [hardware/sysclk-lwla/api.c]

    A shallow embedding of the driver entry points of libsigrok's
    sysclk-lwla driver and the properties of its device life cycle,
    configuration encoding and acquisition start/stop protocol.

    Conventions of the embedding.
    - C [int] return codes and [uint64_t] quantities are integers of [Z];
      the only arithmetic on a 64-bit value is the left shift of the probe
      bit, whose wrap-around is written out in [shl64].
    - A pointer that may be [NULL] is an [option]; a structure reached
      through a pointer with a single owner ([sdi->priv], [sdi->conn]) is
      nested in its owner.
    - A function that dereferences a pointer without testing it returns
      [None] where the pointer is [NULL] (the C behaviour is undefined
      there).
    - Calls that leave the translation unit (protocol engine, libusb,
      session bus) are recorded, in order, in a list of [event]s; their
      results are parameters of the development.
    - Logging ([sr_err], [sr_info], [sr_dbg]) has no effect on the state and
      is left out. *)

From Stdlib Require Import ZArith List String Ascii Bool Lia Sorted.
From Stdlib Require Import DecimalString.
Import ListNotations.

Local Open Scope Z_scope.

(** ** Constants of [libsigrok.h] *)

(** Modelled from the spec: the error codes of [libsigrok.h] (not part of
    the driver file).  The spec only requires them to be distinct codes;
    the values are those of the [enum] in the public header. *)
Definition SR_OK : Z := 0.
Definition SR_ERR : Z := -1.
Definition SR_ERR_MALLOC : Z := -2.
Definition SR_ERR_ARG : Z := -3.
Definition SR_ERR_BUG : Z := -4.
Definition SR_ERR_SAMPLERATE : Z := -5.
Definition SR_ERR_NA : Z := -6.
Definition SR_ERR_DEV_CLOSED : Z := -7.

(** Modelled from the spec: the frequency macros of [libsigrok.h]; sample
    rates are in Hz. *)
Definition SR_HZ (n : Z) : Z := n.
Definition SR_KHZ (n : Z) : Z := n * 1000.
Definition SR_MHZ (n : Z) : Z := n * 1000000.

(** Modelled from the spec: the device status of [libsigrok.h],
    [sdi->status]; the states are those of the life cycle of the spec. *)
Inductive sr_status : Type :=
| SR_ST_NOT_FOUND
| SR_ST_INITIALIZING
| SR_ST_INACTIVE
| SR_ST_ACTIVE
| SR_ST_STOPPING.

Definition sr_status_eqb (a b : sr_status) : bool :=
  match a, b with
  | SR_ST_NOT_FOUND, SR_ST_NOT_FOUND
  | SR_ST_INITIALIZING, SR_ST_INITIALIZING
  | SR_ST_INACTIVE, SR_ST_INACTIVE
  | SR_ST_ACTIVE, SR_ST_ACTIVE
  | SR_ST_STOPPING, SR_ST_STOPPING => true
  | _, _ => false
  end.

(** Modelled from the spec: the configuration keys of [libsigrok.h] that
    the driver switches on; every other key value is [SR_CONF_other]. *)
Inductive sr_conf_key : Type :=
| SR_CONF_DEVICE_OPTIONS
| SR_CONF_SAMPLERATE
| SR_CONF_LIMIT_SAMPLES
| SR_CONF_EXTERNAL_CLOCK
| SR_CONF_TRIGGER_TYPE
| SR_CONF_other (k : Z).

(** The [GVariant] payloads the driver reads.  The GLib getters return the
    zero of their type when the variant has another type. *)
Inductive GVariant : Type :=
| GV_uint64 (n : Z)
| GV_boolean (b : bool).

Definition g_variant_get_uint64 (v : GVariant) : Z :=
  match v with GV_uint64 n => n | GV_boolean _ => 0 end.

Definition g_variant_get_boolean (v : GVariant) : bool :=
  match v with GV_boolean b => b | GV_uint64 _ => false end.

(** ** Data model *)

(** Modelled from the spec: [enum] of clock sources of [protocol.h]. *)
Inductive clock_source : Type :=
| CLOCK_SOURCE_NONE
| CLOCK_SOURCE_INT
| CLOCK_SOURCE_EXT_RISE
| CLOCK_SOURCE_EXT_FALL.

(** Modelled from the spec: the acquisition session of [protocol.h] is an
    opaque handle; it is identified by its address. *)
Record acquisition_state : Type := { acq_addr : Z }.

(** Modelled from the spec: the connection handle libusb gives for an open
    device, identified by its address. *)
Record libusb_device_handle : Type := { hdl_addr : Z }.

(** Modelled from the spec: the fields of [struct dev_context]
    ([protocol.h]) that the driver file reads or writes. *)
Record dev_context : Type := {
  samplerate : Z;
  limit_samples : Z;
  selected_clock_source : clock_source;
  channel_mask : Z;
  trigger_mask : Z;
  trigger_edge_mask : Z;
  trigger_values : Z;
  acquisition : option acquisition_state;
  stopping_in_progress : bool;
  transfer_error : bool
}.

(** Modelled from the spec: the channel spec, [struct sr_probe] of
    [libsigrok.h].  A C string is the characters before its terminator;
    [trigger = None] is the [NULL] pointer. *)
Record sr_probe : Type := {
  index : Z;
  enabled : bool;
  name : string;
  trigger : option string
}.

(** Modelled from the spec: [struct sr_usb_dev_inst] of
    [libsigrok-internal.h], of which the driver reads the handle. *)
Record sr_usb_dev_inst : Type := {
  devhdl : option libusb_device_handle
}.

(** Modelled from the spec: the device record, [struct sr_dev_inst] of
    [libsigrok.h].  An element of [probes] is the [data] pointer of a list
    node, which the driver tests against [NULL]. *)
Record sr_dev_inst : Type := {
  status : sr_status;
  priv : option dev_context;
  conn : sr_usb_dev_inst;
  probes : list (option sr_probe)
}.

(** Modelled from the spec: [struct drv_context] of
    [libsigrok-internal.h], the driver's private data ([di->priv]). *)
Record drv_context : Type := { sr_ctx : Z }.

(** Field updates. *)
Definition set_samplerate (d : dev_context) (v : Z) : dev_context :=
  {| samplerate := v; limit_samples := limit_samples d;
     selected_clock_source := selected_clock_source d;
     channel_mask := channel_mask d; trigger_mask := trigger_mask d;
     trigger_edge_mask := trigger_edge_mask d;
     trigger_values := trigger_values d; acquisition := acquisition d;
     stopping_in_progress := stopping_in_progress d;
     transfer_error := transfer_error d |}.

Definition set_limit_samples (d : dev_context) (v : Z) : dev_context :=
  {| samplerate := samplerate d; limit_samples := v;
     selected_clock_source := selected_clock_source d;
     channel_mask := channel_mask d; trigger_mask := trigger_mask d;
     trigger_edge_mask := trigger_edge_mask d;
     trigger_values := trigger_values d; acquisition := acquisition d;
     stopping_in_progress := stopping_in_progress d;
     transfer_error := transfer_error d |}.

Definition set_selected_clock_source (d : dev_context) (v : clock_source)
  : dev_context :=
  {| samplerate := samplerate d; limit_samples := limit_samples d;
     selected_clock_source := v;
     channel_mask := channel_mask d; trigger_mask := trigger_mask d;
     trigger_edge_mask := trigger_edge_mask d;
     trigger_values := trigger_values d; acquisition := acquisition d;
     stopping_in_progress := stopping_in_progress d;
     transfer_error := transfer_error d |}.

Definition set_channel_mask (d : dev_context) (v : Z) : dev_context :=
  {| samplerate := samplerate d; limit_samples := limit_samples d;
     selected_clock_source := selected_clock_source d;
     channel_mask := v; trigger_mask := trigger_mask d;
     trigger_edge_mask := trigger_edge_mask d;
     trigger_values := trigger_values d; acquisition := acquisition d;
     stopping_in_progress := stopping_in_progress d;
     transfer_error := transfer_error d |}.

Definition set_trigger_mask (d : dev_context) (v : Z) : dev_context :=
  {| samplerate := samplerate d; limit_samples := limit_samples d;
     selected_clock_source := selected_clock_source d;
     channel_mask := channel_mask d; trigger_mask := v;
     trigger_edge_mask := trigger_edge_mask d;
     trigger_values := trigger_values d; acquisition := acquisition d;
     stopping_in_progress := stopping_in_progress d;
     transfer_error := transfer_error d |}.

Definition set_trigger_edge_mask (d : dev_context) (v : Z) : dev_context :=
  {| samplerate := samplerate d; limit_samples := limit_samples d;
     selected_clock_source := selected_clock_source d;
     channel_mask := channel_mask d; trigger_mask := trigger_mask d;
     trigger_edge_mask := v;
     trigger_values := trigger_values d; acquisition := acquisition d;
     stopping_in_progress := stopping_in_progress d;
     transfer_error := transfer_error d |}.

Definition set_trigger_values (d : dev_context) (v : Z) : dev_context :=
  {| samplerate := samplerate d; limit_samples := limit_samples d;
     selected_clock_source := selected_clock_source d;
     channel_mask := channel_mask d; trigger_mask := trigger_mask d;
     trigger_edge_mask := trigger_edge_mask d;
     trigger_values := v; acquisition := acquisition d;
     stopping_in_progress := stopping_in_progress d;
     transfer_error := transfer_error d |}.

Definition set_acquisition (d : dev_context) (v : option acquisition_state)
  : dev_context :=
  {| samplerate := samplerate d; limit_samples := limit_samples d;
     selected_clock_source := selected_clock_source d;
     channel_mask := channel_mask d; trigger_mask := trigger_mask d;
     trigger_edge_mask := trigger_edge_mask d;
     trigger_values := trigger_values d; acquisition := v;
     stopping_in_progress := stopping_in_progress d;
     transfer_error := transfer_error d |}.

Definition set_stopping_in_progress (d : dev_context) (v : bool)
  : dev_context :=
  {| samplerate := samplerate d; limit_samples := limit_samples d;
     selected_clock_source := selected_clock_source d;
     channel_mask := channel_mask d; trigger_mask := trigger_mask d;
     trigger_edge_mask := trigger_edge_mask d;
     trigger_values := trigger_values d; acquisition := acquisition d;
     stopping_in_progress := v;
     transfer_error := transfer_error d |}.

Definition set_transfer_error (d : dev_context) (v : bool) : dev_context :=
  {| samplerate := samplerate d; limit_samples := limit_samples d;
     selected_clock_source := selected_clock_source d;
     channel_mask := channel_mask d; trigger_mask := trigger_mask d;
     trigger_edge_mask := trigger_edge_mask d;
     trigger_values := trigger_values d; acquisition := acquisition d;
     stopping_in_progress := stopping_in_progress d;
     transfer_error := v |}.

Definition set_status (sdi : sr_dev_inst) (v : sr_status) : sr_dev_inst :=
  {| status := v; priv := priv sdi; conn := conn sdi; probes := probes sdi |}.

Definition set_priv (sdi : sr_dev_inst) (v : dev_context) : sr_dev_inst :=
  {| status := status sdi; priv := Some v; conn := conn sdi;
     probes := probes sdi |}.

Definition set_conn (sdi : sr_dev_inst) (v : sr_usb_dev_inst) : sr_dev_inst :=
  {| status := status sdi; priv := priv sdi; conn := v;
     probes := probes sdi |}.

(** Calls that leave the driver file, in the order they are made. *)
Inductive event : Type :=
| Ev_alloc_acquisition_state (r : option acquisition_state)
| Ev_free_acquisition_state (a : acquisition_state)
| Ev_setup_acquisition
| Ev_start_acquisition
| Ev_set_clock_source
| Ev_release_interface (h : libusb_device_handle)
| Ev_usb_close (h : libusb_device_handle)
| Ev_usb_source_add
| Ev_send_df_header.

(** ** The sample-rate table *)

Definition samplerates : list Z :=
  [ SR_MHZ 125; SR_MHZ 100;
    SR_MHZ 50;  SR_MHZ 20;  SR_MHZ 10;
    SR_MHZ 5;   SR_MHZ 2;   SR_MHZ 1;
    SR_KHZ 500; SR_KHZ 200; SR_KHZ 100;
    SR_KHZ 50;  SR_KHZ 20;  SR_KHZ 10;
    SR_KHZ 5;   SR_KHZ 2;   SR_KHZ 1;
    SR_HZ 500;  SR_HZ 200;  SR_HZ 100 ].

(** [G_N_ELEMENTS(samplerates)] *)
Definition G_N_ELEMENTS {A : Type} (l : list A) : nat := List.length l.

(** The bounds of the supported set as the spec words them: the least and
    the greatest element, wherever they stand in the list. *)
Definition supported_max (l : list Z) : Z := fold_right Z.max 0 l.
Definition supported_min (l : list Z) : Z :=
  fold_right Z.min (supported_max l) l.

(** ** C strings *)

Definition NUL : ascii := Ascii.zero.

(** [s[i]] for [i] up to the length of [s]: past the last character stands
    the terminator. *)
Definition char_at (s : string) (i : nat) : ascii :=
  match String.get i s with
  | Some c => c
  | None => NUL
  end.

(** [strlen]: the number of characters before the first [NUL]. *)
Fixpoint strlen (s : string) : nat :=
  match s with
  | EmptyString => O
  | String c rest => if Ascii.eqb c NUL then O else S (strlen rest)
  end.

(** ** The driver entry points *)

(** One trip through the body of a loop either goes on to the next
    iteration with the state it built or leaves the function. *)
Inductive loop_ctl : Type :=
| Continue (d : dev_context)
| Return (ret : Z) (d : dev_context).

(** [x << n] on [uint64_t]. *)
Definition shl64 (x : Z) (n : Z) : Z := Z.shiftl x n mod 2 ^ 64.

Section Driver.

(** [NUM_PROBES] of [protocol.h], the number of channels of the device;
    the header is not part of the driver file, so the number is a
    parameter. *)
Variable NUM_PROBES : nat.

(** [di->priv]; [NULL] until the driver is initialised. *)
Variable di_priv : option drv_context.

(** The protocol engine ([protocol.c]).  Each function takes the device
    instance through a pointer to [const], so it may rewrite the device
    context the instance points to but not the instance. *)
Variable lwla_alloc_acquisition_state : option acquisition_state.
Variable lwla_setup_acquisition : sr_dev_inst -> Z * dev_context.
Variable lwla_start_acquisition : sr_dev_inst -> Z * dev_context.
Variable lwla_set_clock_source : sr_dev_inst -> Z * dev_context.

(** The [switch] on [probe->trigger[0]], with its two fall-throughs. *)
Definition trigger_switch (devc : dev_context) (c : ascii) (probe_bit : Z)
  : loop_ctl :=
  if Ascii.eqb c "1" then
    Continue (set_trigger_values devc (Z.lor (trigger_values devc) probe_bit))
  else if Ascii.eqb c "0" then
    Continue devc
  else if Ascii.eqb c "r" then
    let devc := set_trigger_values devc
                  (Z.lor (trigger_values devc) probe_bit) in
    Continue (set_trigger_edge_mask devc
                (Z.lor (trigger_edge_mask devc) probe_bit))
  else if Ascii.eqb c "f" then
    Continue (set_trigger_edge_mask devc
                (Z.lor (trigger_edge_mask devc) probe_bit))
  else
    Return SR_ERR devc.

(** The body of the loop of [configure_probes] after the limit test. *)
Definition probe_body (devc : dev_context) (probe : option sr_probe)
    (probe_bit : Z) : loop_ctl :=
  match probe with
  | None => Continue devc
  | Some p =>
      if negb (enabled p) then Continue devc
      else
        let devc := set_channel_mask devc
                      (Z.lor (channel_mask devc) probe_bit) in
        match trigger p with
        | None => Continue devc
        | Some t =>
            if Ascii.eqb (char_at t 0) NUL then Continue devc
            else if negb (Ascii.eqb (char_at t 1) NUL) then Return SR_ERR devc
            else
              let devc := set_trigger_mask devc
                            (Z.lor (trigger_mask devc) probe_bit) in
              trigger_switch devc (char_at t 0) probe_bit
        end
  end.

(** The [for] loop: [node] walks the list, [probe_bit] is shifted left
    once per node. *)
Fixpoint configure_probes_loop (devc : dev_context)
    (node : list (option sr_probe)) (probe_bit : Z) : Z * dev_context :=
  match node with
  | [] => (SR_OK, devc)
  | probe :: next =>
      if probe_bit >=? shl64 1 (Z.of_nat NUM_PROBES) then (SR_ERR, devc)
      else
        match probe_body devc probe probe_bit with
        | Return ret d => (ret, d)
        | Continue d => configure_probes_loop d next (shl64 probe_bit 1)
        end
  end.

(** The four assignments that open [configure_probes]. *)
Definition clear_masks (devc : dev_context) : dev_context :=
  set_trigger_values
    (set_trigger_edge_mask
       (set_trigger_mask (set_channel_mask devc 0) 0) 0) 0.

Definition configure_probes (sdi : sr_dev_inst)
  : option (Z * sr_dev_inst) :=
  match priv sdi with
  | None => None
  | Some devc =>
      let '(ret, devc) :=
        configure_probes_loop (clear_masks devc) (probes sdi) 1 in
      Some (ret, set_priv sdi devc)
  end.

Definition config_set (key : sr_conf_key) (data : GVariant)
    (sdi : sr_dev_inst) : Z * sr_dev_inst * list event :=
  match priv sdi with
  | None => (SR_ERR_DEV_CLOSED, sdi, [])
  | Some devc =>
      match key with
      | SR_CONF_SAMPLERATE =>
          let rate := g_variant_get_uint64 data in
          if (rate >? nth 0 samplerates 0)
             || (rate <? nth (G_N_ELEMENTS samplerates - 1) samplerates 0)
          then (SR_ERR_SAMPLERATE, sdi, [])
          else (SR_OK, set_priv sdi (set_samplerate devc rate), [])
      | SR_CONF_LIMIT_SAMPLES =>
          (SR_OK,
           set_priv sdi (set_limit_samples devc (g_variant_get_uint64 data)),
           [])
      | SR_CONF_EXTERNAL_CLOCK =>
          let devc :=
            set_selected_clock_source devc
              (if g_variant_get_boolean data then CLOCK_SOURCE_EXT_RISE
               else CLOCK_SOURCE_INT) in
          let sdi := set_priv sdi devc in
          if sr_status_eqb (status sdi) SR_ST_ACTIVE then
            let '(ret, devc) := lwla_set_clock_source sdi in
            (ret, set_priv sdi devc, [Ev_set_clock_source])
          else (SR_OK, sdi, [])
      | _ => (SR_ERR_NA, sdi, [])
      end
  end.

Definition dev_close (sdi : sr_dev_inst)
  : option (Z * sr_dev_inst * list event) :=
  match di_priv with
  | None => Some (SR_ERR, sdi, [])
  | Some _ =>
      match devhdl (conn sdi) with
      | None => Some (SR_OK, sdi, [])
      | Some h =>
          match priv sdi with
          | None => None
          | Some devc =>
              let devc := set_selected_clock_source devc CLOCK_SOURCE_NONE in
              let '(_, devc) := lwla_set_clock_source (set_priv sdi devc) in
              let sdi := set_priv sdi devc in
              let sdi := set_conn sdi {| devhdl := None |} in
              let sdi := set_status sdi SR_ST_INACTIVE in
              Some (SR_OK, sdi,
                    [Ev_set_clock_source; Ev_release_interface h;
                     Ev_usb_close h])
          end
      end
  end.

Definition dev_acquisition_start (sdi : sr_dev_inst)
  : option (Z * sr_dev_inst * list event) :=
  if negb (sr_status_eqb (status sdi) SR_ST_ACTIVE) then
    Some (SR_ERR_DEV_CLOSED, sdi, [])
  else
    match priv sdi with
    | None => None
    | Some devc =>
        match acquisition devc with
        | Some _ => Some (SR_ERR, sdi, [])
        | None =>
            let acq := lwla_alloc_acquisition_state in
            match acq with
            | None => Some (SR_ERR_MALLOC, sdi, [Ev_alloc_acquisition_state acq])
            | Some a =>
                let devc := set_stopping_in_progress devc false in
                let devc := set_transfer_error devc false in
                match configure_probes (set_priv sdi devc) with
                | None => None
                | Some (ret, sdi) =>
                    if negb (ret =? SR_OK) then
                      Some (ret, sdi,
                            [Ev_alloc_acquisition_state acq;
                             Ev_free_acquisition_state a])
                    else
                      match priv sdi with
                      | None => None
                      | Some devc =>
                          let devc := set_acquisition devc acq in
                          let '(ret, devc) :=
                            lwla_setup_acquisition (set_priv sdi devc) in
                          if negb (ret =? SR_OK) then
                            let devc := set_acquisition devc None in
                            Some (ret, set_priv sdi devc,
                                  [Ev_alloc_acquisition_state acq;
                                   Ev_setup_acquisition;
                                   Ev_free_acquisition_state a])
                          else
                            let '(ret, devc) :=
                              lwla_start_acquisition (set_priv sdi devc) in
                            if negb (ret =? SR_OK) then
                              let devc := set_acquisition devc None in
                              Some (ret, set_priv sdi devc,
                                    [Ev_alloc_acquisition_state acq;
                                     Ev_setup_acquisition;
                                     Ev_start_acquisition;
                                     Ev_free_acquisition_state a])
                            else
                              match di_priv with
                              | None => None
                              | Some drvc =>
                                  Some (SR_OK, set_priv sdi devc,
                                        [Ev_alloc_acquisition_state acq;
                                         Ev_setup_acquisition;
                                         Ev_start_acquisition;
                                         Ev_usb_source_add;
                                         Ev_send_df_header])
                              end
                      end
                end
            end
        end
    end.

Definition dev_acquisition_stop (sdi : sr_dev_inst)
  : Z * sr_dev_inst * list event :=
  if negb (sr_status_eqb (status sdi) SR_ST_ACTIVE) then
    (SR_ERR_DEV_CLOSED, sdi, [])
  else
    (SR_OK, set_status sdi SR_ST_STOPPING, []).

End Driver.

(** ** Vocabulary of the properties *)

(** The trigger string of a channel spec, as the spec words it: present
    when it has at least one character, accepted when it is one of the four
    symbols and nothing more. *)
Definition is_supported_symbol (c : ascii) : bool :=
  Ascii.eqb c "0" || Ascii.eqb c "1" || Ascii.eqb c "r" || Ascii.eqb c "f".

Definition is_edge_symbol (c : ascii) : bool :=
  Ascii.eqb c "r" || Ascii.eqb c "f".

Definition is_value_symbol (c : ascii) : bool :=
  Ascii.eqb c "1" || Ascii.eqb c "r".

Definition trigger_char (p : sr_probe) : ascii :=
  match trigger p with
  | Some t => char_at t 0
  | None => NUL
  end.

Definition trigger_present (p : sr_probe) : bool :=
  match trigger p with
  | Some t => negb (Nat.eqb (strlen t) 0)
  | None => false
  end.

Definition trigger_accepted (p : sr_probe) : bool :=
  match trigger p with
  | Some t => Nat.eqb (strlen t) 1 && is_supported_symbol (char_at t 0)
  | None => false
  end.

(** A channel spec whose trigger, if there is one, is a single supported
    symbol. *)
Definition trigger_well_formed (o : option sr_probe) : Prop :=
  match o with
  | Some p => trigger_present p = true -> trigger_accepted p = true
  | None => True
  end.

(** What one list entry contributes to each mask at its bit position. *)
Definition chan_bit (o : option sr_probe) : bool :=
  match o with
  | Some p => enabled p
  | None => false
  end.

Definition trig_bit (o : option sr_probe) : bool :=
  match o with
  | Some p => enabled p && trigger_accepted p
  | None => false
  end.

Definition edge_bit (o : option sr_probe) : bool :=
  match o with
  | Some p =>
      enabled p && trigger_accepted p && is_edge_symbol (trigger_char p)
  | None => false
  end.

Definition value_bit (o : option sr_probe) : bool :=
  match o with
  | Some p =>
      enabled p && trigger_accepted p && is_value_symbol (trigger_char p)
  | None => false
  end.

Definition bit_at (f : option sr_probe -> bool)
    (node : list (option sr_probe)) (k : nat) : bool :=
  match nth_error node k with
  | Some o => f o
  | None => false
  end.

(** [m |= probe_bit], done or not. *)
Definition or_bit (m probe_bit : Z) (f : bool) : Z :=
  if f then Z.lor m probe_bit else m.

(** Bitwise inclusion of masks. *)
Definition mask_subset (a b : Z) : Prop := Z.land a b = a.

(** The device context [d] with the four masks of [m]. *)
Definition with_masks (d m : dev_context) : dev_context :=
  set_trigger_values
    (set_trigger_edge_mask
       (set_trigger_mask
          (set_channel_mask d (channel_mask m)) (trigger_mask m))
       (trigger_edge_mask m)) (trigger_values m).

Definition map_ctl (f : dev_context -> dev_context) (c : loop_ctl)
  : loop_ctl :=
  match c with
  | Continue d => Continue (f d)
  | Return r d => Return r (f d)
  end.

(** A device without an open connection handle is inactive. *)
Definition handle_invariant (sdi : sr_dev_inst) : Prop :=
  devhdl (conn sdi) = None -> status sdi = SR_ST_INACTIVE.

(** A list entry that is disabled (or empty) and has no trigger. *)
Definition idle_entry (o : option sr_probe) : Prop :=
  match o with
  | Some p => enabled p = false /\ trigger_present p = false
  | None => True
  end.

(** ** Sample devices *)

(** A context as [scan] allocates it: every field zero. *)
Definition fresh_devc : dev_context :=
  {| samplerate := 0; limit_samples := 0;
     selected_clock_source := CLOCK_SOURCE_NONE;
     channel_mask := 0; trigger_mask := 0; trigger_edge_mask := 0;
     trigger_values := 0; acquisition := None;
     stopping_in_progress := false; transfer_error := false |}.

Definition mk_probe (i : Z) (en : bool) (t : option string) : sr_probe :=
  {| index := i; enabled := en; name := "CH"; trigger := t |}.

(** The three channel specs of the spec's scenario. *)
Definition scenario_probes : list (option sr_probe) :=
  [ Some (mk_probe 0 true (Some "r"%string));
    Some (mk_probe 1 true (Some ""%string));
    Some (mk_probe 2 false None) ].

Definition mk_sdi (st : sr_status) (d : dev_context)
    (h : option libusb_device_handle) (ps : list (option sr_probe))
  : sr_dev_inst :=
  {| status := st; priv := Some d; conn := {| devhdl := h |}; probes := ps |}.

(** A context that carries masks from an earlier acquisition. *)
Definition used_devc : dev_context :=
  with_masks (set_samplerate fresh_devc (SR_MHZ 100))
    {| samplerate := 0; limit_samples := 0;
       selected_clock_source := CLOCK_SOURCE_INT;
       channel_mask := 12; trigger_mask := 4; trigger_edge_mask := 4;
       trigger_values := 0; acquisition := None;
       stopping_in_progress := false; transfer_error := false |}.

(** Four channel specs, the last one disabled and without trigger. *)
Definition four_probes : list (option sr_probe) :=
  [ Some (mk_probe 0 true (Some "r"%string));
    Some (mk_probe 1 true None);
    Some (mk_probe 2 false None);
    Some (mk_probe 3 false None) ].

Definition sample_acq : acquisition_state := {| acq_addr := 4096 |}.
Definition sample_hdl : libusb_device_handle := {| hdl_addr := 8192 |}.
Definition sample_drvc : drv_context := {| sr_ctx := 16 |}.

(** A protocol engine step that leaves the context alone and returns
    [ret]. *)
Definition engine_returns (ret : Z) (sdi : sr_dev_inst) : Z * dev_context :=
  (ret, match priv sdi with Some d => d | None => fresh_devc end).

(** Devices for the examples: closed, open and active, active with a
    session attached, and active with one channel spec too many for three
    channels. *)
Definition closed_sdi : sr_dev_inst :=
  mk_sdi SR_ST_INACTIVE fresh_devc None scenario_probes.

Definition active_sdi : sr_dev_inst :=
  mk_sdi SR_ST_ACTIVE fresh_devc (Some sample_hdl) scenario_probes.

Definition busy_sdi : sr_dev_inst :=
  mk_sdi SR_ST_ACTIVE (set_acquisition fresh_devc (Some sample_acq))
    (Some sample_hdl) scenario_probes.

Definition over_limit_sdi : sr_dev_inst :=
  mk_sdi SR_ST_ACTIVE used_devc (Some sample_hdl) four_probes.

(** One channel with the two-stage trigger "rf", enabled and disabled. *)
Definition two_stage_probe (en : bool) : sr_probe :=
  mk_probe 0 en (Some "rf"%string).

Definition two_stage_sdi (en : bool) : sr_dev_inst :=
  mk_sdi SR_ST_ACTIVE fresh_devc (Some sample_hdl)
    [Some (two_stage_probe en)].

(** The fresh context with the masks of the scenario. *)
Definition scenario_devc : dev_context :=
  set_trigger_values
    (set_trigger_edge_mask
       (set_trigger_mask (set_channel_mask fresh_devc 3) 1) 1) 1.

(** ** Discovery, opening and the configuration queries *)

(** Modelled from the spec: the probe types of [libsigrok.h]. *)
Inductive sr_probe_type : Type :=
| SR_PROBE_LOGIC
| SR_PROBE_ANALOG.

(** Calls that [scan] and [dev_open] make outside the driver file. *)
Inductive bus_event : Type :=
| Ev_usb_dev_inst_free (usb : sr_usb_dev_inst)
| Ev_free_dev_context
| Ev_usb_open
| Ev_claim_interface (h : option libusb_device_handle)
| Ev_init_device.

(** One device [sr_usb_find] has found, with the outcome of the two
    allocations [scan] makes for it. *)
Record usb_node : Type := {
  node_usb : sr_usb_dev_inst;
  devc_alloc_ok : bool;
  sdi_alloc_ok : bool
}.

(** What [config_list] stores in [*data]. *)
Inductive config_listing : Type :=
| CL_int32_array (l : list sr_conf_key)
| CL_samplerates (l : list Z)
| CL_string (s : string).

Section Discovery.

Variable NUM_PROBES : nat.
Variable di_priv : option drv_context.

(** [DEFAULT_SAMPLERATE] and [TRIGGER_TYPES] of [protocol.h],
    [SR_CONF_LOGIC_ANALYZER] of [libsigrok.h] and the integer value of each
    clock source: the headers are not part of the driver file. *)
Variable DEFAULT_SAMPLERATE : Z.
Variable TRIGGER_TYPES : string.
Variable SR_CONF_LOGIC_ANALYZER : sr_conf_key.
Variable clock_source_rank : clock_source -> Z.

(** What the call [g_ascii_formatd(name, sizeof name, ..., i)] leaves in the
    buffer [name]; GLib is not part of the repository, and the driver does
    not look at the result of the call. *)
Variable probe_name : Z -> string.

(** [sr_probe_new] of the library: a new probe, or [NULL]. *)
Variable sr_probe_new : Z -> sr_probe_type -> bool -> string -> option sr_probe.

(** [sr_usb_open] writes the handle into the USB instance;
    [libusb_claim_interface] takes the handle; [lwla_init_device] takes the
    device instance through a pointer to [const]. *)
Variable sr_usb_open : sr_usb_dev_inst -> Z * sr_usb_dev_inst.
Variable libusb_claim_interface : option libusb_device_handle -> Z.
Variable lwla_init_device : sr_dev_inst -> Z * dev_context.

(** The loop of [gen_probe_list]: [i] counts down to 1 and each probe is
    put in front of the list. *)
Fixpoint gen_probe_list_loop (i : nat) (lst : list (option sr_probe))
  : list (option sr_probe) :=
  match i with
  | O => lst
  | S i' =>
      let probe :=
        sr_probe_new (Z.of_nat (S i') - 1) SR_PROBE_LOGIC true
          (probe_name (Z.of_nat (S i'))) in
      gen_probe_list_loop i' (probe :: lst)
  end.

Definition gen_probe_list (num_probes : Z) : list (option sr_probe) :=
  gen_probe_list_loop (Z.to_nat num_probes) [].

(** The device instance [scan] registers for a USB device; the index,
    vendor and model strings, driver and instance type it also stores are
    not fields of the record. *)
Definition scanned_sdi (usb : sr_usb_dev_inst) : sr_dev_inst :=
  {| status := SR_ST_INACTIVE;
     priv := Some fresh_devc;
     conn := usb;
     probes := gen_probe_list (Z.of_nat NUM_PROBES) |}.

(** The loop of [scan] over the devices found: the registry
    [drvc->instances] and the list returned grow together. *)
Fixpoint scan_loop (node : list usb_node)
    (instances devices : list sr_dev_inst)
  : list sr_dev_inst * list sr_dev_inst * list bus_event :=
  match node with
  | [] => (instances, devices, [])
  | n :: next =>
      if negb (devc_alloc_ok n) then
        let '(i, d, ev) := scan_loop next instances devices in
        (i, d, Ev_usb_dev_inst_free (node_usb n) :: ev)
      else if negb (sdi_alloc_ok n) then
        let '(i, d, ev) := scan_loop next instances devices in
        (i, d,
         Ev_free_dev_context :: Ev_usb_dev_inst_free (node_usb n) :: ev)
      else
        let sdi := scanned_sdi (node_usb n) in
        scan_loop next (instances ++ [sdi]) (devices ++ [sdi])
  end.

(** [scan]: the registry it leaves, the list it returns and the calls it
    makes, for the devices [usb_devices] that [sr_usb_find] returns. *)
Definition scan (usb_devices : list usb_node)
  : option (list sr_dev_inst * list sr_dev_inst * list bus_event) :=
  match di_priv with
  | None => None
  | Some drvc => Some (scan_loop usb_devices [] [])
  end.

Definition dev_open (sdi : sr_dev_inst)
  : option (Z * sr_dev_inst * list bus_event) :=
  match di_priv with
  | None => Some (SR_ERR, sdi, [])
  | Some drvc =>
      let '(ret, usb) := sr_usb_open (conn sdi) in
      let sdi := set_conn sdi usb in
      if negb (ret =? SR_OK) then Some (ret, sdi, [Ev_usb_open])
      else
        let ret := libusb_claim_interface (devhdl usb) in
        if ret <? 0 then
          Some (SR_ERR, sdi, [Ev_usb_open; Ev_claim_interface (devhdl usb)])
        else
          let sdi := set_status sdi SR_ST_INITIALIZING in
          match priv sdi with
          | None => None
          | Some devc =>
              let devc :=
                if samplerate devc =? 0
                then set_samplerate devc DEFAULT_SAMPLERATE
                else devc in
              let '(ret, devc) := lwla_init_device (set_priv sdi devc) in
              let sdi := set_priv sdi devc in
              let sdi :=
                if ret =? SR_OK then set_status sdi SR_ST_ACTIVE else sdi in
              Some (ret, sdi,
                    [Ev_usb_open; Ev_claim_interface (devhdl usb);
                     Ev_init_device])
          end
  end.

(** [config_get]; the second component is the value stored in [*data]. *)
Definition config_get (key : sr_conf_key) (sdi : option sr_dev_inst)
  : option (Z * option GVariant) :=
  match sdi with
  | None => Some (SR_ERR_ARG, None)
  | Some sdi =>
      match key with
      | SR_CONF_SAMPLERATE =>
          match priv sdi with
          | None => None
          | Some devc => Some (SR_OK, Some (GV_uint64 (samplerate devc)))
          end
      | SR_CONF_LIMIT_SAMPLES =>
          match priv sdi with
          | None => None
          | Some devc => Some (SR_OK, Some (GV_uint64 (limit_samples devc)))
          end
      | SR_CONF_EXTERNAL_CLOCK =>
          match priv sdi with
          | None => None
          | Some devc =>
              Some (SR_OK,
                    Some (GV_boolean
                            (clock_source_rank (selected_clock_source devc)
                             >=? clock_source_rank CLOCK_SOURCE_EXT_RISE)))
          end
      | _ => Some (SR_ERR_NA, None)
      end
  end.

Definition hwcaps : list sr_conf_key :=
  [ SR_CONF_LOGIC_ANALYZER;
    SR_CONF_SAMPLERATE;
    SR_CONF_EXTERNAL_CLOCK;
    SR_CONF_TRIGGER_TYPE;
    SR_CONF_LIMIT_SAMPLES ].

Definition config_list (key : sr_conf_key) : Z * option config_listing :=
  match key with
  | SR_CONF_DEVICE_OPTIONS => (SR_OK, Some (CL_int32_array hwcaps))
  | SR_CONF_SAMPLERATE => (SR_OK, Some (CL_samplerates samplerates))
  | SR_CONF_TRIGGER_TYPE => (SR_OK, Some (CL_string TRIGGER_TYPES))
  | _ => (SR_ERR_NA, None)
  end.

End Discovery.

(** ** Vocabulary of the further properties *)

(** The four masks fit [n] channels and are nested: edge and value bits
    inside the trigger mask, trigger bits inside the channel mask. *)
Definition masks_nested (n : nat) (d : dev_context) : Prop :=
  0 <= channel_mask d < 2 ^ Z.of_nat n
  /\ 0 <= trigger_mask d < 2 ^ Z.of_nat n
  /\ 0 <= trigger_edge_mask d < 2 ^ Z.of_nat n
  /\ 0 <= trigger_values d < 2 ^ Z.of_nat n
  /\ mask_subset (trigger_edge_mask d) (trigger_mask d)
  /\ mask_subset (trigger_values d) (trigger_mask d)
  /\ mask_subset (trigger_mask d) (channel_mask d).

(** The request [gen_probe_list] makes for the entry at position [k]. *)
Definition nth_probe (probe_name : Z -> string)
    (sr_probe_new : Z -> sr_probe_type -> bool -> string -> option sr_probe)
    (k : nat) : option sr_probe :=
  sr_probe_new (Z.of_nat k) SR_PROBE_LOGIC true (probe_name (Z.of_nat (S k))).

(** A device found for which [scan] gets both allocations, and the frees
    [scan] makes for a device found. *)
Definition node_registered (n : usb_node) : bool :=
  devc_alloc_ok n && sdi_alloc_ok n.

Definition node_released (n : usb_node) : list bus_event :=
  if negb (devc_alloc_ok n) then [Ev_usb_dev_inst_free (node_usb n)]
  else if negb (sdi_alloc_ok n) then
    [Ev_free_dev_context; Ev_usb_dev_inst_free (node_usb n)]
  else [].

(** The part of the context that belongs to the acquisition: the four
    masks, the session and the two flags. *)
Definition acquisition_fields (d : dev_context)
  : Z * Z * Z * Z * option acquisition_state * bool * bool :=
  (channel_mask d, trigger_mask d, trigger_edge_mask d, trigger_values d,
   acquisition d, stopping_in_progress d, transfer_error d).

(** ** Sample environment *)

(** A library that always gives the probe asked for, a bus on which the
    device opens and its interface is claimed, and the order of the clock
    sources with the external ones last. *)
Definition sample_probe_new (idx : Z) (ty : sr_probe_type) (en : bool)
    (nm : string) : option sr_probe :=
  Some {| index := idx; enabled := en; name := nm; trigger := None |}.

Definition sample_probe_name (i : Z) : string :=
  "CH" ++ DecimalString.NilZero.string_of_int (Z.to_int i).

Definition sample_usb_open (usb : sr_usb_dev_inst)
  : Z * sr_usb_dev_inst :=
  (SR_OK, {| devhdl := Some sample_hdl |}).

Definition sample_claim_interface (h : option libusb_device_handle) : Z := 0.

Definition sample_clock_rank (c : clock_source) : Z :=
  match c with
  | CLOCK_SOURCE_NONE => 0
  | CLOCK_SOURCE_INT => 1
  | CLOCK_SOURCE_EXT_RISE => 2
  | CLOCK_SOURCE_EXT_FALL => 3
  end.

(** Three devices found: one registered, one for which the context is not
    allocated, one for which the device instance is not. *)
Definition sample_nodes : list usb_node :=
  [ {| node_usb := {| devhdl := None |};
       devc_alloc_ok := true; sdi_alloc_ok := true |};
    {| node_usb := {| devhdl := None |};
       devc_alloc_ok := false; sdi_alloc_ok := true |};
    {| node_usb := {| devhdl := None |};
       devc_alloc_ok := true; sdi_alloc_ok := false |} ].

(** The device [scan] registers on three channels. *)
Definition scanned_sample : sr_dev_inst :=
  scanned_sdi 3 sample_probe_name sample_probe_new {| devhdl := None |}.

(** The active sample device once its acquisition is being stopped. *)
Definition stopping_sdi : sr_dev_inst := set_status busy_sdi SR_ST_STOPPING.

(** Closes the cases of a statement about a return code and a status. *)
Ltac settle_cases :=
  repeat split; unfold not; intros; cbn [In] in *;
  repeat match goal with
         | H : _ = _ \/ _ |- _ => destruct H
         end;
  try reflexivity; try assumption; try discriminate; try congruence;
  try tauto; auto.

(** ** Vocabulary of the revised properties *)

(** Two list entries that are the same, or that are both skipped by the
    loop of [configure_probes] (a [NULL] entry or a disabled channel, with
    whatever trigger). *)
Definition same_unless_disabled (o o' : option sr_probe) : Prop :=
  o = o' \/ (chan_bit o = false /\ chan_bit o' = false).

(** Two enabled channels, the first with the two-stage trigger "rf", the
    second with the trigger "r"; and the same two in the other order. *)
Definition abort_first_sdi : sr_dev_inst :=
  mk_sdi SR_ST_ACTIVE fresh_devc (Some sample_hdl)
    [Some (two_stage_probe true); Some (mk_probe 1 true (Some "r"%string))].

Definition abort_second_sdi : sr_dev_inst :=
  mk_sdi SR_ST_ACTIVE fresh_devc (Some sample_hdl)
    [Some (mk_probe 0 true (Some "r"%string));
     Some (mk_probe 1 true (Some "rf"%string))].

(** What the driver relies on of [sr_usb_open]: when it returns [SR_OK]
    the USB instance holds the handle of the open device, and when it
    fails it has left the handle of the instance as it was. *)
Definition usb_open_contract
    (sr_usb_open : sr_usb_dev_inst -> Z * sr_usb_dev_inst) : Prop :=
  forall usb : sr_usb_dev_inst,
    (fst (sr_usb_open usb) = SR_OK -> devhdl (snd (sr_usb_open usb)) <> None)
    /\ (fst (sr_usb_open usb) <> SR_OK ->
        devhdl (snd (sr_usb_open usb)) = devhdl usb).

(** The devices of the driver: those [scan] returns, and those an entry
    point of the driver returns for one of them, whatever the library, the
    bus and the protocol engine answer at each call ([sr_usb_open] within
    its contract); between the calls the client may edit the channel
    list. *)
Inductive reachable (NUM_PROBES : nat) (di_priv : option drv_context)
    (DEFAULT_SAMPLERATE : Z) : sr_dev_inst -> Prop :=
| reach_scan :
    forall (probe_name : Z -> string)
           (sr_probe_new : Z -> sr_probe_type -> bool -> string
                           -> option sr_probe)
           (usb_devices : list usb_node)
           (instances devices : list sr_dev_inst) (ev : list bus_event)
           (sdi : sr_dev_inst),
      scan NUM_PROBES di_priv probe_name sr_probe_new usb_devices =
        Some (instances, devices, ev) ->
      In sdi devices ->
      reachable NUM_PROBES di_priv DEFAULT_SAMPLERATE sdi
| reach_open :
    forall (sr_usb_open : sr_usb_dev_inst -> Z * sr_usb_dev_inst)
           (libusb_claim_interface : option libusb_device_handle -> Z)
           (lwla_init_device : sr_dev_inst -> Z * dev_context)
           (sdi sdi' : sr_dev_inst) (ret : Z) (ev : list bus_event),
      usb_open_contract sr_usb_open ->
      reachable NUM_PROBES di_priv DEFAULT_SAMPLERATE sdi ->
      dev_open di_priv DEFAULT_SAMPLERATE sr_usb_open libusb_claim_interface
        lwla_init_device sdi = Some (ret, sdi', ev) ->
      reachable NUM_PROBES di_priv DEFAULT_SAMPLERATE sdi'
| reach_close :
    forall (lwla_set_clock_source : sr_dev_inst -> Z * dev_context)
           (sdi sdi' : sr_dev_inst) (ret : Z) (ev : list event),
      reachable NUM_PROBES di_priv DEFAULT_SAMPLERATE sdi ->
      dev_close di_priv lwla_set_clock_source sdi = Some (ret, sdi', ev) ->
      reachable NUM_PROBES di_priv DEFAULT_SAMPLERATE sdi'
| reach_config_set :
    forall (lwla_set_clock_source : sr_dev_inst -> Z * dev_context)
           (key : sr_conf_key) (data : GVariant)
           (sdi sdi' : sr_dev_inst) (ret : Z) (ev : list event),
      reachable NUM_PROBES di_priv DEFAULT_SAMPLERATE sdi ->
      config_set lwla_set_clock_source key data sdi = (ret, sdi', ev) ->
      reachable NUM_PROBES di_priv DEFAULT_SAMPLERATE sdi'
| reach_start :
    forall (lwla_alloc_acquisition_state : option acquisition_state)
           (lwla_setup_acquisition lwla_start_acquisition
              : sr_dev_inst -> Z * dev_context)
           (sdi sdi' : sr_dev_inst) (ret : Z) (ev : list event),
      reachable NUM_PROBES di_priv DEFAULT_SAMPLERATE sdi ->
      dev_acquisition_start NUM_PROBES di_priv lwla_alloc_acquisition_state
        lwla_setup_acquisition lwla_start_acquisition sdi =
        Some (ret, sdi', ev) ->
      reachable NUM_PROBES di_priv DEFAULT_SAMPLERATE sdi'
| reach_stop :
    forall (sdi sdi' : sr_dev_inst) (ret : Z) (ev : list event),
      reachable NUM_PROBES di_priv DEFAULT_SAMPLERATE sdi ->
      dev_acquisition_stop sdi = (ret, sdi', ev) ->
      reachable NUM_PROBES di_priv DEFAULT_SAMPLERATE sdi'
| reach_probes :
    forall (sdi : sr_dev_inst) (ps : list (option sr_probe)),
      reachable NUM_PROBES di_priv DEFAULT_SAMPLERATE sdi ->
      reachable NUM_PROBES di_priv DEFAULT_SAMPLERATE
        {| status := status sdi; priv := priv sdi; conn := conn sdi;
           probes := ps |}.

(** The scanned sample device after [dev_open] on the sample bus. *)
Definition opened_sample : sr_dev_inst :=
  {| status := SR_ST_ACTIVE;
     priv := Some (set_samplerate fresh_devc (SR_MHZ 125));
     conn := {| devhdl := Some sample_hdl |};
     probes := probes scanned_sample |}.

(** ** Properties of the trigger-state compilation *)

Lemma strlen_zero (t : string) :
  Nat.eqb (strlen t) 0 = Ascii.eqb (char_at t 0) NUL.
Proof.
  destruct t as [|c rest]; [reflexivity|].
  unfold char_at; simpl.
  destruct (Ascii.eqb c NUL); reflexivity.
Qed.

Lemma strlen_one (t : string) :
  Nat.eqb (strlen t) 1 =
  negb (Ascii.eqb (char_at t 0) NUL) && Ascii.eqb (char_at t 1) NUL.
Proof.
  destruct t as [|c rest]; [reflexivity|].
  unfold char_at; simpl.
  destruct (Ascii.eqb c NUL); [reflexivity|].
  simpl. fold (char_at rest 0). rewrite <- strlen_zero.
  reflexivity.
Qed.

Lemma supported_symbol_not_NUL (c : ascii) :
  is_supported_symbol c = true -> Ascii.eqb c NUL = false.
Proof.
  unfold is_supported_symbol; intros H.
  destruct (Ascii.eqb_spec c NUL) as [->|]; [discriminate H|reflexivity].
Qed.

Lemma testbit_or_bit (m : Z) (i j : nat) (f : bool) :
  Z.testbit (or_bit m (2 ^ Z.of_nat i) f) (Z.of_nat j) =
  Z.testbit m (Z.of_nat j) || (f && Nat.eqb i j).
Proof.
  unfold or_bit; destruct f; simpl.
  - rewrite Z.lor_spec, Z.pow2_bits_eqb by lia.
    destruct (Nat.eqb_spec i j), (Z.eqb_spec (Z.of_nat i) (Z.of_nat j));
      try reflexivity; lia.
  - now rewrite orb_false_r.
Qed.

Lemma mask_subset_bits (a b : Z) :
  (forall j : nat, Z.testbit a (Z.of_nat j) = true ->
                   Z.testbit b (Z.of_nat j) = true) ->
  mask_subset a b.
Proof.
  intros H. apply Z.bits_inj'; intros n Hn.
  rewrite Z.land_spec.
  specialize (H (Z.to_nat n)). rewrite Z2Nat.id in H by exact Hn.
  destruct (Z.testbit a n); [rewrite H; reflexivity | reflexivity].
Qed.

(** Every update of a mask commutes with the replacement of the masks, and
    none touches another field. *)
Lemma trigger_switch_with_masks (d m : dev_context) (c : ascii) (b : Z) :
  trigger_switch (with_masks d m) c b =
  map_ctl (with_masks d) (trigger_switch m c b).
Proof.
  unfold trigger_switch.
  repeat match goal with |- context [if ?x then _ else _] => destruct x end;
    reflexivity.
Qed.

Lemma probe_body_with_masks (d m : dev_context) (o : option sr_probe) (b : Z) :
  probe_body (with_masks d m) o b = map_ctl (with_masks d) (probe_body m o b).
Proof.
  unfold probe_body.
  destruct o as [p|]; [|reflexivity].
  destruct (enabled p); [|reflexivity]. cbn [negb].
  destruct (trigger p) as [t|]; [|reflexivity].
  destruct (Ascii.eqb (char_at t 0) NUL); [reflexivity|].
  destruct (Ascii.eqb (char_at t 1) NUL); [|reflexivity]. cbn [negb].
  rewrite <- trigger_switch_with_masks. reflexivity.
Qed.

Lemma with_masks_self (d : dev_context) : with_masks d d = d.
Proof. destruct d; reflexivity. Qed.

Lemma with_masks_twice (d m m' : dev_context) :
  with_masks (with_masks d m) m' = with_masks d m'.
Proof. reflexivity. Qed.

(** A [return] inside the loop body always carries [SR_ERR]. *)
Lemma trigger_switch_spec (d : dev_context) (c : ascii) (b : Z) :
  trigger_switch d c b =
  if is_supported_symbol c then
    Continue
      (set_trigger_edge_mask
         (set_trigger_values d (or_bit (trigger_values d) b (is_value_symbol c)))
         (or_bit (trigger_edge_mask d) b (is_edge_symbol c)))
  else Return SR_ERR d.
Proof.
  unfold trigger_switch, is_supported_symbol, is_value_symbol, is_edge_symbol.
  destruct (Ascii.eqb_spec c "1") as [->|]; [destruct d; reflexivity|].
  destruct (Ascii.eqb_spec c "0") as [->|]; [destruct d; reflexivity|].
  destruct (Ascii.eqb_spec c "r") as [->|]; [destruct d; reflexivity|].
  destruct (Ascii.eqb_spec c "f") as [->|]; [destruct d; reflexivity|].
  reflexivity.
Qed.

(** The loop body in terms of the vocabulary: it leaves with [SR_ERR] on an
    enabled channel whose trigger is present and not accepted, and
    otherwise ors the probe bit into each mask the entry contributes to. *)
Lemma probe_body_spec (d : dev_context) (o : option sr_probe) (b : Z) :
  probe_body d o b =
  match o with
  | Some p =>
      if enabled p && trigger_present p && negb (trigger_accepted p) then
        Return SR_ERR
          (set_trigger_mask
             (set_channel_mask d (Z.lor (channel_mask d) b))
             (or_bit (trigger_mask d) b
                (Nat.eqb (strlen (match trigger p with
                                  | Some t => t | None => EmptyString end)) 1)))
      else
        Continue
          (with_masks d
             {| samplerate := 0; limit_samples := 0;
                selected_clock_source := CLOCK_SOURCE_NONE;
                channel_mask := or_bit (channel_mask d) b (chan_bit o);
                trigger_mask := or_bit (trigger_mask d) b (trig_bit o);
                trigger_edge_mask :=
                  or_bit (trigger_edge_mask d) b (edge_bit o);
                trigger_values := or_bit (trigger_values d) b (value_bit o);
                acquisition := None; stopping_in_progress := false;
                transfer_error := false |})
  | None => Continue d
  end.
Proof.
  destruct o as [p|]; [|reflexivity].
  unfold probe_body, chan_bit, trig_bit, edge_bit, value_bit,
    trigger_present, trigger_accepted, trigger_char.
  destruct (enabled p); cbn [negb andb];
    [|destruct d; reflexivity].
  destruct (trigger p) as [t|]; [|destruct d; reflexivity].
  rewrite strlen_zero, strlen_one.
  destruct (Ascii.eqb (char_at t 0) NUL) eqn:E0; cbn [negb andb];
    [destruct d; reflexivity|].
  destruct (Ascii.eqb (char_at t 1) NUL) eqn:E1; cbn [negb andb];
    [|destruct d; reflexivity].
  rewrite trigger_switch_spec.
  destruct (is_supported_symbol (char_at t 0)); cbn [negb andb];
    destruct d; reflexivity.
Qed.

Lemma bit_at_cons (f : option sr_probe -> bool) (o : option sr_probe)
    (next : list (option sr_probe)) (i j : nat) :
  (i <=? j)%nat && bit_at f (o :: next) (j - i) =
  (f o && Nat.eqb i j) || ((S i <=? j)%nat && bit_at f next (j - S i)).
Proof.
  unfold bit_at.
  destruct (Nat.leb_spec i j) as [Hle|Hlt]; cbn [andb].
  - destruct (Nat.eqb_spec i j) as [->|Hne].
    + rewrite Nat.sub_diag. cbn [nth_error].
      destruct (Nat.leb_spec (S j) j); [lia|].
      cbn [andb]. now rewrite andb_true_r, orb_false_r.
    + replace (j - i)%nat with (S (j - S i)) by lia. cbn [nth_error].
      destruct (Nat.leb_spec (S i) j); [|lia].
      now rewrite andb_false_r.
  - destruct (Nat.eqb_spec i j); [lia|].
    destruct (Nat.leb_spec (S i) j); [lia|].
    now rewrite andb_false_r.
Qed.

Section Compilation.

Variable NUM_PROBES : nat.

(** The shift [(uint64_t)1 << NUM_PROBES] is defined, and the limit fits
    64 bits, only below 64 channels. *)
Hypothesis NUM_PROBES_lt_64 : (NUM_PROBES < 64)%nat.

Lemma limit_test (i : nat) :
  (i <= NUM_PROBES)%nat ->
  (2 ^ Z.of_nat i >=? shl64 1 (Z.of_nat NUM_PROBES)) =
  Nat.eqb i NUM_PROBES.
Proof.
  intros Hi. unfold shl64.
  rewrite Z.shiftl_1_l, Z.mod_small
    by (split; [apply Z.pow_nonneg; lia | apply Z.pow_lt_mono_r; lia]).
  destruct (Nat.eqb_spec i NUM_PROBES) as [->|Hne].
  - apply Z.geb_le. lia.
  - destruct (Z.geb_spec (2 ^ Z.of_nat i) (2 ^ Z.of_nat NUM_PROBES))
      as [H|H]; [|reflexivity].
    apply Z.pow_le_mono_r_iff in H; lia.
Qed.

Lemma next_probe_bit (i : nat) :
  (i < NUM_PROBES)%nat ->
  shl64 (2 ^ Z.of_nat i) 1 = 2 ^ Z.of_nat (S i).
Proof.
  intros Hi. unfold shl64.
  rewrite Z.shiftl_mul_pow2 by lia.
  rewrite <- Z.pow_add_r by lia.
  replace (Z.of_nat i + 1) with (Z.of_nat (S i)) by lia.
  apply Z.mod_small.
  split; [apply Z.pow_nonneg; lia | apply Z.pow_lt_mono_r; lia].
Qed.

(** The compilation reads and writes the four masks only. *)
Lemma loop_with_masks (node : list (option sr_probe)) :
  forall (d m : dev_context) (b : Z),
    configure_probes_loop NUM_PROBES (with_masks d m) node b =
    (fst (configure_probes_loop NUM_PROBES m node b), with_masks d (snd (configure_probes_loop NUM_PROBES m node b))).
Proof.
  induction node as [|probe next IH]; intros d m b; cbn [configure_probes_loop].
  - reflexivity.
  - destruct (b >=? shl64 1 (Z.of_nat NUM_PROBES)); [reflexivity|].
    rewrite probe_body_with_masks.
    destruct (probe_body m probe b) as [d1|r d1]; cbn [map_ctl].
    + apply IH.
    + reflexivity.
Qed.

(** Past the limit the configure_probes_loop NUM_PROBES returns [SR_ERR] at the node in position
    [NUM_PROBES], with the state the nodes before it have built. *)
Lemma loop_too_many (node : list (option sr_probe)) :
  forall (d : dev_context) (i : nat),
    (i <= NUM_PROBES)%nat ->
    (NUM_PROBES < i + List.length node)%nat ->
    configure_probes_loop NUM_PROBES d node (2 ^ Z.of_nat i) =
    (SR_ERR, snd (configure_probes_loop NUM_PROBES d (firstn (NUM_PROBES - i) node) (2 ^ Z.of_nat i))).
Proof.
  induction node as [|probe next IH]; intros d i Hi Hlen;
    cbn [List.length] in Hlen.
  - lia.
  - cbn [configure_probes_loop]. rewrite limit_test by exact Hi.
    destruct (Nat.eqb_spec i NUM_PROBES) as [->|Hne].
    + rewrite Nat.sub_diag. reflexivity.
    + replace (NUM_PROBES - i)%nat with (S (NUM_PROBES - S i)) by lia.
      cbn [firstn configure_probes_loop].
      rewrite limit_test by exact Hi.
      destruct (Nat.eqb_spec i NUM_PROBES) as [|_]; [contradiction|].
      rewrite probe_body_spec.
      destruct probe as [p|].
      * destruct (enabled p && trigger_present p && negb (trigger_accepted p)).
        -- reflexivity.
        -- rewrite next_probe_bit by lia. apply IH; lia.
      * rewrite next_probe_bit by lia. apply IH; lia.
Qed.

Lemma loop_success_length (node : list (option sr_probe))
    (d d' : dev_context) (i : nat) :
  (i <= NUM_PROBES)%nat ->
  configure_probes_loop NUM_PROBES d node (2 ^ Z.of_nat i) = (SR_OK, d') ->
  (i + List.length node <= NUM_PROBES)%nat.
Proof.
  intros Hi Hok.
  destruct (Nat.leb_spec (i + List.length node) NUM_PROBES) as [H|H];
    [exact H|].
  rewrite (loop_too_many node d i Hi H) in Hok. discriminate Hok.
Qed.

(** An enabled channel with a trigger that is present and not accepted
    makes the configure_probes_loop NUM_PROBES fail, wherever it stands. *)
Lemma loop_bad_trigger (node : list (option sr_probe)) :
  forall (d : dev_context) (i k : nat) (p : sr_probe),
    (i <= NUM_PROBES)%nat ->
    nth_error node k = Some (Some p) ->
    enabled p = true ->
    trigger_present p = true ->
    trigger_accepted p = false ->
    fst (configure_probes_loop NUM_PROBES d node (2 ^ Z.of_nat i)) = SR_ERR.
Proof.
  induction node as [|probe next IH]; intros d i k p Hi Hk He Hp Ha.
  - destruct k; discriminate Hk.
  - cbn [configure_probes_loop]. rewrite limit_test by exact Hi.
    destruct (Nat.eqb_spec i NUM_PROBES) as [|Hne]; [reflexivity|].
    rewrite probe_body_spec.
    destruct k as [|k]; cbn [nth_error] in Hk.
    + injection Hk as ->. rewrite He, Hp, Ha. reflexivity.
    + destruct probe as [q|].
      * destruct (enabled q && trigger_present q && negb (trigger_accepted q)).
        -- reflexivity.
        -- rewrite next_probe_bit by lia. apply (IH _ (S i) k p); auto; lia.
      * rewrite next_probe_bit by lia. apply (IH _ (S i) k p); auto; lia.
Qed.

(** Within the limit and with well-formed triggers on the enabled
    channels the configure_probes_loop NUM_PROBES runs to its end. *)
Lemma loop_ok (node : list (option sr_probe)) :
  forall (d : dev_context) (i : nat),
    (i + List.length node <= NUM_PROBES)%nat ->
    Forall (fun o => chan_bit o = true -> trigger_well_formed o) node ->
    fst (configure_probes_loop NUM_PROBES d node (2 ^ Z.of_nat i)) = SR_OK.
Proof.
  induction node as [|probe next IH]; intros d i Hlen Hwf;
    cbn [List.length] in Hlen.
  - reflexivity.
  - cbn [configure_probes_loop]. rewrite limit_test by lia.
    destruct (Nat.eqb_spec i NUM_PROBES) as [|Hne]; [lia|].
    inversion Hwf as [|o l Ho Hnext]; subst.
    rewrite probe_body_spec.
    destruct probe as [p|].
    + cbn [chan_bit trigger_well_formed] in Ho.
      destruct (enabled p) eqn:He; cbn [andb].
      * destruct (trigger_present p) eqn:Hp; cbn [andb].
        -- rewrite (Ho eq_refl eq_refl). cbn [negb].
           rewrite next_probe_bit by lia. apply IH; [lia|exact Hnext].
        -- rewrite next_probe_bit by lia. apply IH; [lia|exact Hnext].
      * rewrite next_probe_bit by lia. apply IH; [lia|exact Hnext].
    + rewrite next_probe_bit by lia. apply IH; [lia|exact Hnext].
Qed.

(** Bit [j] of each mask after a successful run: the bit it had before,
    or the contribution of the list entry that stands at position [j]. *)
Lemma loop_bits (node : list (option sr_probe)) :
  forall (d d' : dev_context) (i : nat),
    (i <= NUM_PROBES)%nat ->
    configure_probes_loop NUM_PROBES d node (2 ^ Z.of_nat i) = (SR_OK, d') ->
    forall j : nat,
      Z.testbit (channel_mask d') (Z.of_nat j) =
        Z.testbit (channel_mask d) (Z.of_nat j)
        || ((i <=? j)%nat && bit_at chan_bit node (j - i))
      /\ Z.testbit (trigger_mask d') (Z.of_nat j) =
        Z.testbit (trigger_mask d) (Z.of_nat j)
        || ((i <=? j)%nat && bit_at trig_bit node (j - i))
      /\ Z.testbit (trigger_edge_mask d') (Z.of_nat j) =
        Z.testbit (trigger_edge_mask d) (Z.of_nat j)
        || ((i <=? j)%nat && bit_at edge_bit node (j - i))
      /\ Z.testbit (trigger_values d') (Z.of_nat j) =
        Z.testbit (trigger_values d) (Z.of_nat j)
        || ((i <=? j)%nat && bit_at value_bit node (j - i)).
Proof.
  induction node as [|probe next IH]; intros d d' i Hi Hrun j.
  - cbn [configure_probes_loop] in Hrun. injection Hrun as <-.
    unfold bit_at. destruct (j - i)%nat; cbn [nth_error];
      rewrite !andb_false_r, !orb_false_r; auto.
  - cbn [configure_probes_loop] in Hrun.
    rewrite limit_test in Hrun by exact Hi.
    destruct (Nat.eqb_spec i NUM_PROBES) as [|Hne]; [discriminate Hrun|].
    rewrite probe_body_spec in Hrun.
    rewrite !bit_at_cons.
    destruct probe as [p|].
    + destruct (enabled p && trigger_present p && negb (trigger_accepted p));
        [discriminate Hrun|].
      rewrite next_probe_bit in Hrun by lia.
      destruct (IH _ _ (S i) ltac:(lia) Hrun j) as (Hc & Ht & He & Hv).
      rewrite Hc, Ht, He, Hv. cbn [with_masks set_trigger_values
        set_trigger_edge_mask set_trigger_mask set_channel_mask
        channel_mask trigger_mask trigger_edge_mask trigger_values].
      rewrite !testbit_or_bit, !orb_assoc. auto.
    + rewrite next_probe_bit in Hrun by lia.
      destruct (IH _ _ (S i) ltac:(lia) Hrun j) as (Hc & Ht & He & Hv).
      rewrite Hc, Ht, He, Hv. cbn [chan_bit trig_bit edge_bit value_bit andb orb].
      auto.
Qed.

(** [configure_probes] on a device that has a context, in terms of the
    loop. *)
Lemma configure_probes_unfold (sdi : sr_dev_inst) (devc : dev_context) :
  priv sdi = Some devc ->
  configure_probes NUM_PROBES sdi =
  Some (fst (configure_probes_loop NUM_PROBES (clear_masks devc)
               (probes sdi) 1),
        set_priv sdi
          (snd (configure_probes_loop NUM_PROBES (clear_masks devc)
                  (probes sdi) 1))).
Proof.
  intros Hp. unfold configure_probes. rewrite Hp.
  destruct (configure_probes_loop NUM_PROBES (clear_masks devc) (probes sdi) 1).
  reflexivity.
Qed.

(** The masks a compilation leaves do not depend on the context it
    started from. *)
Lemma loop_from_any_context (d1 d2 : dev_context)
    (node : list (option sr_probe)) :
  configure_probes_loop NUM_PROBES (clear_masks d1) node 1 =
  (fst (configure_probes_loop NUM_PROBES (clear_masks d2) node 1),
   with_masks d1
     (snd (configure_probes_loop NUM_PROBES (clear_masks d2) node 1))).
Proof.
  change (clear_masks d1) with (with_masks d1 (clear_masks d2)).
  apply loop_with_masks.
Qed.

(** C10. The test against the channel limit looks at the position in the
    list only and comes before the look at the entry: at the position
    [NUM_PROBES] the loop returns [SR_ERR] whatever the entry is, so every
    list with more than [NUM_PROBES] entries fails to compile, also when
    the entries past the limit are disabled and have no trigger. *)
Theorem limit_checked_before_enabled :
  (forall (d : dev_context) (probe : option sr_probe)
          (next : list (option sr_probe)),
      configure_probes_loop NUM_PROBES d (probe :: next)
        (shl64 1 (Z.of_nat NUM_PROBES)) = (SR_ERR, d))
  /\ (forall (sdi : sr_dev_inst) (devc : dev_context),
        priv sdi = Some devc ->
        (NUM_PROBES < List.length (probes sdi))%nat ->
        exists sdi', configure_probes NUM_PROBES sdi = Some (SR_ERR, sdi'))
  /\ (forall (sdi : sr_dev_inst) (devc : dev_context)
             (within beyond : list (option sr_probe)),
        priv sdi = Some devc ->
        probes sdi = within ++ beyond ->
        List.length within = NUM_PROBES ->
        beyond <> [] ->
        Forall idle_entry beyond ->
        exists sdi', configure_probes NUM_PROBES sdi = Some (SR_ERR, sdi')).
Proof.
  assert (Hgen : forall (sdi : sr_dev_inst) (devc : dev_context),
             priv sdi = Some devc ->
             (NUM_PROBES < List.length (probes sdi))%nat ->
             exists sdi', configure_probes NUM_PROBES sdi = Some (SR_ERR, sdi')).
  { intros sdi devc Hp Hlen.
    rewrite (configure_probes_unfold sdi devc Hp).
    change 1 with (2 ^ Z.of_nat 0).
    rewrite loop_too_many by lia.
    eexists; reflexivity. }
  split; [|split].
  - intros d probe next. cbn [configure_probes_loop].
    rewrite Z.geb_leb, Z.leb_refl. reflexivity.
  - exact Hgen.
  - intros sdi devc within beyond Hp Hsplit Hlen Hne _.
    apply (Hgen sdi devc Hp).
    rewrite Hsplit, length_app. destruct beyond; [contradiction|].
    cbn [List.length]. lia.
Qed.

(** C1, as the code has it.  A list with more than [NUM_PROBES] entries
    makes [configure_probes] return [SR_ERR], the one code it has for every
    failure.  The masks of the context are not kept: they are cleared on
    entry and hold, on return, what the compilation of the first
    [NUM_PROBES] entries left in them.  The fields of the context other
    than the four masks are unchanged. *)
Theorem too_many_channels_state (sdi : sr_dev_inst) (devc : dev_context) :
  priv sdi = Some devc ->
  (NUM_PROBES < List.length (probes sdi))%nat ->
  exists devc',
    configure_probes NUM_PROBES sdi = Some (SR_ERR, set_priv sdi devc')
    /\ devc' = snd (configure_probes_loop NUM_PROBES (clear_masks devc)
                      (firstn NUM_PROBES (probes sdi)) 1)
    /\ with_masks devc' devc = devc.
Proof.
  intros Hp Hlen.
  rewrite (configure_probes_unfold sdi devc Hp).
  change 1 with (2 ^ Z.of_nat 0).
  rewrite loop_too_many by lia.
  rewrite Nat.sub_0_r. cbn [fst snd].
  eexists; split; [reflexivity|split; [reflexivity|]].
  change (clear_masks devc) with (with_masks devc (clear_masks devc)).
  rewrite loop_with_masks. cbn [snd].
  rewrite with_masks_twice. apply with_masks_self.
Qed.

(** An entry the loop skips leaves the state as it is, trigger or not. *)
Lemma probe_body_not_enabled (d : dev_context) (o : option sr_probe)
    (b : Z) :
  chan_bit o = false -> probe_body d o b = Continue d.
Proof.
  destruct o as [p|]; cbn [chan_bit probe_body]; [|reflexivity].
  intros ->. reflexivity.
Qed.

Lemma loop_ignores_disabled (node node' : list (option sr_probe)) :
  Forall2 same_unless_disabled node node' ->
  forall (d : dev_context) (b : Z),
    configure_probes_loop NUM_PROBES d node b =
    configure_probes_loop NUM_PROBES d node' b.
Proof.
  induction 1 as [|o o' l l' Ho Hl IH]; intros d b;
    cbn [configure_probes_loop]; [reflexivity|].
  destruct (b >=? shl64 1 (Z.of_nat NUM_PROBES)); [reflexivity|].
  destruct Ho as [->|[Ho Ho']].
  - destruct (probe_body d o' b); [apply IH|reflexivity].
  - rewrite (probe_body_not_enabled d o b Ho),
      (probe_body_not_enabled d o' b Ho').
    apply IH.
Qed.

(** A prefix of the list that compiles hands its state and the next probe
    bit to the rest of the list. *)
Lemma loop_app (pre : list (option sr_probe)) :
  forall (d : dev_context) (j : nat) (rest : list (option sr_probe)),
    (j <= NUM_PROBES)%nat ->
    fst (configure_probes_loop NUM_PROBES d pre (2 ^ Z.of_nat j)) = SR_OK ->
    configure_probes_loop NUM_PROBES d (pre ++ rest) (2 ^ Z.of_nat j) =
    configure_probes_loop NUM_PROBES
      (snd (configure_probes_loop NUM_PROBES d pre (2 ^ Z.of_nat j)))
      rest (2 ^ Z.of_nat (j + List.length pre)).
Proof.
  induction pre as [|probe next IH]; intros d j rest Hj Hok.
  - cbn [app configure_probes_loop snd List.length].
    rewrite Nat.add_0_r. reflexivity.
  - cbn [app configure_probes_loop List.length] in *.
    rewrite limit_test in * by exact Hj.
    destruct (Nat.eqb_spec j NUM_PROBES) as [|Hne]; [discriminate Hok|].
    assert (Hret : forall r d1,
               probe_body d probe (2 ^ Z.of_nat j) = Return r d1 ->
               r = SR_ERR).
    { intros r d1. rewrite probe_body_spec. destruct probe as [p|].
      - destruct (enabled p && trigger_present p && negb (trigger_accepted p));
          intros E; [injection E as <- _; reflexivity|discriminate E].
      - discriminate. }
    destruct (probe_body d probe (2 ^ Z.of_nat j)) as [d1|r d1].
    + rewrite next_probe_bit in * by lia.
      rewrite (IH d1 (S j) rest ltac:(lia) Hok).
      replace (S j + List.length next)%nat
        with (j + S (List.length next))%nat by lia.
      reflexivity.
    + rewrite (Hret r d1 eq_refl) in Hok. discriminate Hok.
Qed.

(** The loop started at position [j] leaves the bits below [j] alone,
    whatever it returns. *)
Lemma loop_low_bits (node : list (option sr_probe)) :
  forall (d : dev_context) (j k : nat),
    (j <= NUM_PROBES)%nat ->
    (k < j)%nat ->
    let d' := snd (configure_probes_loop NUM_PROBES d node (2 ^ Z.of_nat j)) in
    Z.testbit (channel_mask d') (Z.of_nat k) =
      Z.testbit (channel_mask d) (Z.of_nat k)
    /\ Z.testbit (trigger_mask d') (Z.of_nat k) =
       Z.testbit (trigger_mask d) (Z.of_nat k)
    /\ Z.testbit (trigger_edge_mask d') (Z.of_nat k) =
       Z.testbit (trigger_edge_mask d) (Z.of_nat k)
    /\ Z.testbit (trigger_values d') (Z.of_nat k) =
       Z.testbit (trigger_values d) (Z.of_nat k).
Proof.
  induction node as [|probe next IH]; intros d j k Hj Hk;
    cbn [configure_probes_loop].
  - cbn. auto.
  - rewrite limit_test by exact Hj.
    destruct (Nat.eqb_spec j NUM_PROBES) as [|Hne]; [cbn; auto|].
    assert (Hjk : Nat.eqb j k = false) by (apply Nat.eqb_neq; lia).
    rewrite probe_body_spec. destruct probe as [p|].
    + destruct (enabled p && trigger_present p && negb (trigger_accepted p)).
      * cbn [snd channel_mask trigger_mask trigger_edge_mask trigger_values
             set_trigger_mask set_channel_mask].
        change (Z.lor (channel_mask d) (2 ^ Z.of_nat j))
          with (or_bit (channel_mask d) (2 ^ Z.of_nat j) true).
        rewrite !testbit_or_bit, Hjk, !andb_false_r, !orb_false_r. auto.
      * rewrite next_probe_bit by lia. cbn zeta.
        destruct (IH (with_masks d
                        {| samplerate := 0; limit_samples := 0;
                           selected_clock_source := CLOCK_SOURCE_NONE;
                           channel_mask :=
                             or_bit (channel_mask d) (2 ^ Z.of_nat j)
                               (chan_bit (Some p));
                           trigger_mask :=
                             or_bit (trigger_mask d) (2 ^ Z.of_nat j)
                               (trig_bit (Some p));
                           trigger_edge_mask :=
                             or_bit (trigger_edge_mask d) (2 ^ Z.of_nat j)
                               (edge_bit (Some p));
                           trigger_values :=
                             or_bit (trigger_values d) (2 ^ Z.of_nat j)
                               (value_bit (Some p));
                           acquisition := None;
                           stopping_in_progress := false;
                           transfer_error := false |})
                   (S j) k ltac:(lia) ltac:(lia)) as (Hc & Ht & He & Hv).
        rewrite Hc, Ht, He, Hv.
        cbn [with_masks set_trigger_values set_trigger_edge_mask
             set_trigger_mask set_channel_mask
             channel_mask trigger_mask trigger_edge_mask trigger_values].
        rewrite !testbit_or_bit, Hjk, !andb_false_r, !orb_false_r. auto.
    + rewrite next_probe_bit by lia.
      apply (IH d (S j) k); lia.
Qed.

(** C3, as the code has it.  The trigger string of an enabled channel, when
    it is not empty, has to be one symbol of 0, 1, r, f: a longer string
    and any other single symbol make the compilation fail.  The trigger of
    a disabled channel is not looked at: two lists that differ only in
    entries the loop skips (disabled or [NULL], with whatever trigger)
    compile to the same return value and the same masks.  After a
    successful compilation an enabled channel at position [k] with a
    trigger has its channel bit and its trigger bit [k] set, its edge bit
    set exactly for r and f and its value bit set exactly for 1 and r; the
    same bits stand after a compilation that failed at a later position,
    that is whenever [k] is below the limit and no enabled channel before
    [k] has a rejected trigger.  On a device of three channels the list of
    the scenario gives the masks 3, 1, 1, 1. *)
Theorem trigger_symbol_encoding :
  (forall (sdi : sr_dev_inst) (devc : dev_context) (k : nat) (p : sr_probe)
          (t : string),
      priv sdi = Some devc ->
      nth_error (probes sdi) k = Some (Some p) ->
      enabled p = true ->
      trigger p = Some t ->
      strlen t <> 0%nat ->
      (1 < strlen t)%nat \/ is_supported_symbol (char_at t 0) = false ->
      exists sdi', configure_probes NUM_PROBES sdi = Some (SR_ERR, sdi'))
  /\ (forall (sdi sdi' : sr_dev_inst) (devc' : dev_context) (k : nat)
             (p : sr_probe) (t : string),
        configure_probes NUM_PROBES sdi = Some (SR_OK, sdi') ->
        priv sdi' = Some devc' ->
        nth_error (probes sdi) k = Some (Some p) ->
        enabled p = true ->
        trigger p = Some t ->
        strlen t <> 0%nat ->
        strlen t = 1%nat
        /\ is_supported_symbol (char_at t 0) = true
        /\ Z.testbit (channel_mask devc') (Z.of_nat k) = true
        /\ Z.testbit (trigger_mask devc') (Z.of_nat k) = true
        /\ Z.testbit (trigger_edge_mask devc') (Z.of_nat k) =
           is_edge_symbol (char_at t 0)
        /\ Z.testbit (trigger_values devc') (Z.of_nat k) =
           is_value_symbol (char_at t 0))
  /\ (forall (st : sr_status) (d : dev_context)
             (h : option libusb_device_handle),
        exists d',
          configure_probes 3 (mk_sdi st d h scenario_probes) =
          Some (SR_OK, mk_sdi st d' h scenario_probes)
          /\ channel_mask d' = 3
          /\ trigger_mask d' = 1
          /\ trigger_edge_mask d' = 1
          /\ trigger_values d' = 1)
  /\ (forall (sdi1 sdi2 : sr_dev_inst) (devc : dev_context),
        priv sdi1 = Some devc ->
        priv sdi2 = Some devc ->
        Forall2 same_unless_disabled (probes sdi1) (probes sdi2) ->
        exists ret devc',
          configure_probes NUM_PROBES sdi1 = Some (ret, set_priv sdi1 devc')
          /\ configure_probes NUM_PROBES sdi2 =
             Some (ret, set_priv sdi2 devc'))
  /\ (forall (sdi sdi' : sr_dev_inst) (devc' : dev_context) (ret : Z)
             (k : nat) (p : sr_probe) (t : string),
        configure_probes NUM_PROBES sdi = Some (ret, sdi') ->
        priv sdi' = Some devc' ->
        nth_error (probes sdi) k = Some (Some p) ->
        enabled p = true ->
        trigger p = Some t ->
        strlen t = 1%nat ->
        is_supported_symbol (char_at t 0) = true ->
        (k < NUM_PROBES)%nat ->
        Forall (fun o => chan_bit o = true -> trigger_well_formed o)
          (firstn k (probes sdi)) ->
        Z.testbit (channel_mask devc') (Z.of_nat k) = true
        /\ Z.testbit (trigger_mask devc') (Z.of_nat k) = true
        /\ Z.testbit (trigger_edge_mask devc') (Z.of_nat k) =
           is_edge_symbol (char_at t 0)
        /\ Z.testbit (trigger_values devc') (Z.of_nat k) =
           is_value_symbol (char_at t 0)).
Proof.
  split; [|split; [|split; [|split]]].
  - intros sdi devc k p t Hp Hk He Ht Hlen Hbad.
    rewrite (configure_probes_unfold sdi devc Hp).
    assert (Hpres : trigger_present p = true).
    { unfold trigger_present. rewrite Ht.
      destruct (Nat.eqb_spec (strlen t) 0); [contradiction|reflexivity]. }
    assert (Hacc : trigger_accepted p = false).
    { unfold trigger_accepted. rewrite Ht.
      destruct Hbad as [Hlong| ->]; [|apply andb_false_r].
      destruct (Nat.eqb_spec (strlen t) 1); [lia|reflexivity]. }
    pose proof (loop_bad_trigger (probes sdi) (clear_masks devc) 0 k p
                  ltac:(lia) Hk He Hpres Hacc) as Hfail.
    change (2 ^ Z.of_nat 0) with 1 in Hfail.
    rewrite Hfail. eexists; reflexivity.
  - intros sdi sdi' devc' k p t Hrun Hp' Hk He Ht Hlen.
    unfold configure_probes in Hrun.
    destruct (priv sdi) as [devc|]; [|discriminate Hrun].
    destruct (configure_probes_loop NUM_PROBES (clear_masks devc)
                (probes sdi) 1) as [ret d1] eqn:Hloop.
    injection Hrun as -> <-. cbn [priv set_priv] in Hp'.
    injection Hp' as ->.
    assert (Hpres : trigger_present p = true).
    { unfold trigger_present. rewrite Ht.
      destruct (Nat.eqb_spec (strlen t) 0); [contradiction|reflexivity]. }
    assert (Hacc : trigger_accepted p = true).
    { destruct (trigger_accepted p) eqn:Hacc; [reflexivity|].
      pose proof (loop_bad_trigger (probes sdi) (clear_masks devc) 0 k p
                    ltac:(lia) Hk He Hpres Hacc) as Hfail.
      change (2 ^ Z.of_nat 0) with 1 in Hfail.
      rewrite Hloop in Hfail. discriminate Hfail. }
    change 1 with (2 ^ Z.of_nat 0) in Hloop.
    destruct (loop_bits (probes sdi) _ _ 0 ltac:(lia) Hloop k)
      as (Hc & Htm & Hem & Hv).
    rewrite Hc, Htm, Hem, Hv.
    cbn [clear_masks set_trigger_values set_trigger_edge_mask
         set_trigger_mask set_channel_mask
         channel_mask trigger_mask trigger_edge_mask trigger_values].
    rewrite Z.testbit_0_l. cbn [orb Nat.leb andb].
    rewrite Nat.sub_0_r. unfold bit_at. rewrite Hk.
    cbn [chan_bit trig_bit edge_bit value_bit].
    rewrite He, Hacc. unfold trigger_char. rewrite Ht. cbn [andb].
    unfold trigger_accepted in Hacc. rewrite Ht in Hacc.
    apply andb_prop in Hacc. destruct Hacc as [H1 Hs].
    apply Nat.eqb_eq in H1. auto 8.
  - intros st d h. eexists. split.
    + destruct d; reflexivity.
    + repeat split.
  - intros sdi1 sdi2 devc Hp1 Hp2 Hsame.
    rewrite (configure_probes_unfold sdi1 devc Hp1),
      (configure_probes_unfold sdi2 devc Hp2).
    rewrite (loop_ignores_disabled _ _ Hsame).
    eexists. eexists. split; reflexivity.
  - intros sdi sdi' devc' ret k p t Hrun Hp' Hk He Ht Hlen Hsym Hlim Hpre.
    unfold configure_probes in Hrun.
    destruct (priv sdi) as [devc|]; [|discriminate Hrun].
    destruct (nth_error_split _ _ Hk) as (pre & post & Hsplit & Hlenpre).
    assert (Hfirst : firstn k (probes sdi) = pre).
    { rewrite Hsplit, <- Hlenpre, firstn_app, Nat.sub_diag, firstn_all.
      cbn [firstn]. apply app_nil_r. }
    rewrite Hfirst in Hpre.
    assert (Hok : fst (configure_probes_loop NUM_PROBES (clear_masks devc)
                         pre (2 ^ Z.of_nat 0)) = SR_OK)
      by (apply loop_ok; [lia|exact Hpre]).
    rewrite Hsplit in Hrun. change 1 with (2 ^ Z.of_nat 0) in Hrun.
    rewrite (loop_app pre _ 0 _ ltac:(lia) Hok) in Hrun.
    destruct (configure_probes_loop NUM_PROBES (clear_masks devc) pre
                (2 ^ Z.of_nat 0)) as [r0 dk] eqn:Hloop.
    cbn [fst snd] in *. subst r0.
    pose proof (loop_bits pre _ _ 0 ltac:(lia) Hloop k) as Bk.
    assert (Hnone : forall f, bit_at f pre (k - 0) = false).
    { intros f. unfold bit_at. rewrite Nat.sub_0_r.
      rewrite (proj2 (nth_error_None pre k)) by lia. reflexivity. }
    rewrite !Hnone in Bk.
    cbn [clear_masks set_trigger_values set_trigger_edge_mask
         set_trigger_mask set_channel_mask
         channel_mask trigger_mask trigger_edge_mask trigger_values] in Bk.
    rewrite !Z.testbit_0_l, !andb_false_r in Bk. cbn [orb] in Bk.
    destruct Bk as (Bc & Bt & Be & Bv).
    rewrite Nat.add_0_l, Hlenpre in Hrun.
    cbn [configure_probes_loop] in Hrun.
    rewrite limit_test in Hrun by lia.
    destruct (Nat.eqb_spec k NUM_PROBES) as [|_]; [lia|].
    rewrite probe_body_spec in Hrun.
    assert (Hacc : trigger_accepted p = true).
    { unfold trigger_accepted. rewrite Ht, Hlen, Hsym. reflexivity. }
    rewrite He, Hacc in Hrun. cbn [negb andb] in Hrun.
    rewrite andb_false_r in Hrun.
    rewrite next_probe_bit in Hrun by lia.
    match type of Hrun with
    | context [configure_probes_loop _ ?d1 post _] =>
        destruct (loop_low_bits post d1 (S k) k ltac:(lia) ltac:(lia))
          as (Lc & Lt & Le & Lv);
        destruct (configure_probes_loop NUM_PROBES d1 post
                    (2 ^ Z.of_nat (S k))) as [r d']
    end.
    injection Hrun as _ <-. cbn [priv set_priv] in Hp'. injection Hp' as <-.
    cbn [snd] in Lc, Lt, Le, Lv. rewrite Lc, Lt, Le, Lv.
    cbn [with_masks set_trigger_values set_trigger_edge_mask
         set_trigger_mask set_channel_mask
         channel_mask trigger_mask trigger_edge_mask trigger_values].
    rewrite !testbit_or_bit, Bc, Bt, Be, Bv, Nat.eqb_refl.
    cbn [chan_bit trig_bit edge_bit value_bit orb].
    rewrite He, Hacc. unfold trigger_char. rewrite Ht.
    cbn [andb]. rewrite !andb_true_r. auto.
Qed.

(** C4.  A list of at most [NUM_PROBES] channel specs whose triggers, where
    there is one, are single supported symbols compiles with [SR_OK]; the
    masks it leaves are nested, edge mask inside trigger mask inside
    channel mask; compiling again gives the same context, and the masks
    are the same from whatever context the compilation starts. *)
Theorem compiled_masks_nested (sdi : sr_dev_inst) (devc : dev_context) :
  priv sdi = Some devc ->
  (List.length (probes sdi) <= NUM_PROBES)%nat ->
  Forall trigger_well_formed (probes sdi) ->
  exists devc',
    configure_probes NUM_PROBES sdi = Some (SR_OK, set_priv sdi devc')
    /\ Z.land (trigger_edge_mask devc') (trigger_mask devc') =
       trigger_edge_mask devc'
    /\ Z.land (trigger_mask devc') (channel_mask devc') = trigger_mask devc'
    /\ configure_probes NUM_PROBES (set_priv sdi devc') =
       Some (SR_OK, set_priv sdi devc')
    /\ (forall (sdi2 : sr_dev_inst) (devc2 : dev_context),
           priv sdi2 = Some devc2 ->
           probes sdi2 = probes sdi ->
           exists devc2',
             configure_probes NUM_PROBES sdi2 =
               Some (SR_OK, set_priv sdi2 devc2')
             /\ channel_mask devc2' = channel_mask devc'
             /\ trigger_mask devc2' = trigger_mask devc'
             /\ trigger_edge_mask devc2' = trigger_edge_mask devc'
             /\ trigger_values devc2' = trigger_values devc').
Proof.
  intros Hp Hlen Hwf.
  rewrite (configure_probes_unfold sdi devc Hp).
  assert (Hok : fst (configure_probes_loop NUM_PROBES (clear_masks devc)
                       (probes sdi) 1) = SR_OK).
  { change 1 with (2 ^ Z.of_nat 0). apply loop_ok; [lia|].
    eapply Forall_impl; [|exact Hwf]. auto. }
  destruct (configure_probes_loop NUM_PROBES (clear_masks devc)
              (probes sdi) 1) as [ret d1] eqn:Hloop.
  cbn [fst snd] in *. subst ret.
  exists d1. split; [reflexivity|].
  pose proof Hloop as Hbits. change 1 with (2 ^ Z.of_nat 0) in Hbits.
  pose proof (loop_bits (probes sdi) _ _ 0 ltac:(lia) Hbits) as B.
  split; [|split; [|split]].
  - apply mask_subset_bits. intros j.
    destruct (B j) as (_ & -> & -> & _).
    cbn [clear_masks set_trigger_values set_trigger_edge_mask
         set_trigger_mask set_channel_mask trigger_mask trigger_edge_mask].
    rewrite Z.testbit_0_l. cbn [orb Nat.leb andb].
    unfold bit_at. destruct (nth_error (probes sdi) (j - 0)) as [[p|]|];
      cbn [edge_bit trig_bit]; try discriminate.
    intros H. apply andb_prop in H. tauto.
  - apply mask_subset_bits. intros j.
    destruct (B j) as (-> & -> & _).
    cbn [clear_masks set_trigger_values set_trigger_edge_mask
         set_trigger_mask set_channel_mask trigger_mask channel_mask].
    rewrite Z.testbit_0_l. cbn [orb Nat.leb andb].
    unfold bit_at. destruct (nth_error (probes sdi) (j - 0)) as [[p|]|];
      cbn [chan_bit trig_bit]; try discriminate.
    intros H. apply andb_prop in H. tauto.
  - rewrite (configure_probes_unfold (set_priv sdi d1) d1 eq_refl).
    cbn [probes set_priv].
    rewrite (loop_from_any_context d1 devc), Hloop. cbn [fst snd].
    rewrite with_masks_self. reflexivity.
  - intros sdi2 devc2 Hp2 Hprobes.
    rewrite (configure_probes_unfold sdi2 devc2 Hp2), Hprobes.
    rewrite (loop_from_any_context devc2 devc), Hloop. cbn [fst snd].
    eexists. split; [reflexivity|]. repeat split.
Qed.

End Compilation.

(** ** Properties of the configuration and of the life cycle *)

(** The table is in descending order: its first entry is the greatest
    supported rate and its last entry the least. *)
Lemma samplerates_bounds :
  nth 0 samplerates 0 = supported_max samplerates
  /\ nth (G_N_ELEMENTS samplerates - 1) samplerates 0 =
     supported_min samplerates.
Proof. split; reflexivity. Qed.

Lemma samplerates_descending : StronglySorted Z.gt samplerates.
Proof. repeat constructor. Qed.

Lemma sr_status_eqb_eq (a b : sr_status) :
  sr_status_eqb a b = true <-> a = b.
Proof. destruct a, b; cbn; split; congruence. Qed.

Lemma set_priv_same (sdi : sr_dev_inst) (devc : dev_context) :
  priv sdi = Some devc -> set_priv sdi devc = sdi.
Proof. destruct sdi; cbn; intros ->; reflexivity. Qed.

Section Lifecycle.

Variable NUM_PROBES : nat.
Variable di_priv : option drv_context.
Variable lwla_alloc_acquisition_state : option acquisition_state.
Variable lwla_setup_acquisition : sr_dev_inst -> Z * dev_context.
Variable lwla_start_acquisition : sr_dev_inst -> Z * dev_context.
Variable lwla_set_clock_source : sr_dev_inst -> Z * dev_context.

(** C2.  Setting the sample rate of a device that has a context succeeds,
    and stores the rate, exactly when the rate lies between the least and
    the greatest entry of the table; a rate between two entries is taken
    (150 Hz is in no entry); outside the bounds the call returns
    [SR_ERR_SAMPLERATE] and leaves the device as it was. *)
Theorem samplerate_range_check (sdi : sr_dev_inst) (devc : dev_context)
    (r : Z) :
  priv sdi = Some devc ->
  let res := config_set lwla_set_clock_source SR_CONF_SAMPLERATE
               (GV_uint64 r) sdi in
  (supported_min samplerates <= r <= supported_max samplerates ->
   res = (SR_OK, set_priv sdi (set_samplerate devc r), []))
  /\ (~ supported_min samplerates <= r <= supported_max samplerates ->
      res = (SR_ERR_SAMPLERATE, sdi, []))
  /\ (fst (fst res) = SR_OK
      /\ option_map samplerate (priv (snd (fst res))) = Some r
      <-> supported_min samplerates <= r <= supported_max samplerates)
  /\ (exists r0,
         ~ In r0 samplerates
         /\ supported_min samplerates <= r0 <= supported_max samplerates).
Proof.
  clear NUM_PROBES di_priv lwla_alloc_acquisition_state
    lwla_setup_acquisition lwla_start_acquisition.
  intros Hp res.
  assert (Hin : supported_min samplerates <= r <= supported_max samplerates ->
                res = (SR_OK, set_priv sdi (set_samplerate devc r), [])).
  { intros [Hlo Hhi]. subst res. unfold config_set. rewrite Hp.
    cbn [g_variant_get_uint64].
    destruct samplerates_bounds as [-> ->].
    destruct (Z.gtb_spec r (supported_max samplerates)); [lia|].
    destruct (Z.ltb_spec r (supported_min samplerates)); [lia|].
    reflexivity. }
  assert (Hout : ~ supported_min samplerates <= r <= supported_max samplerates ->
                 res = (SR_ERR_SAMPLERATE, sdi, [])).
  { intros Hn. subst res. unfold config_set. rewrite Hp.
    cbn [g_variant_get_uint64].
    destruct samplerates_bounds as [-> ->].
    destruct (Z.gtb_spec r (supported_max samplerates)); [reflexivity|].
    destruct (Z.ltb_spec r (supported_min samplerates)); [reflexivity|].
    lia. }
  split; [exact Hin|split; [exact Hout|split]].
  - split.
    + intros [Hret _].
      destruct (Z_le_dec (supported_min samplerates) r) as [Hlo|Hlo];
        [destruct (Z_le_dec r (supported_max samplerates)) as [Hhi|Hhi]|];
        [split; assumption| |];
        rewrite Hout in Hret by lia; discriminate Hret.
    + intros Hr. rewrite (Hin Hr). split; reflexivity.
  - exists 150. split.
    + cbv. intuition discriminate.
    + cbv. split; discriminate.
Qed.

(** C6.  On a device that is not [SR_ST_ACTIVE] the start of an acquisition
    returns [SR_ERR_DEV_CLOSED] with no call made (no session is
    allocated) and the device, its context and its status as they were. *)
Theorem start_requires_active (sdi : sr_dev_inst) :
  status sdi <> SR_ST_ACTIVE ->
  dev_acquisition_start NUM_PROBES di_priv lwla_alloc_acquisition_state
    lwla_setup_acquisition lwla_start_acquisition sdi =
  Some (SR_ERR_DEV_CLOSED, sdi, []).
Proof.
  intros Hst. unfold dev_acquisition_start.
  destruct (sr_status_eqb (status sdi) SR_ST_ACTIVE) eqn:E; [|reflexivity].
  apply sr_status_eqb_eq in E. contradiction.
Qed.

(** C5.  On a device whose context holds a session the start of an
    acquisition fails: with [SR_ERR] when the device is active, with
    [SR_ERR_DEV_CLOSED] when it is not.  No call is made, so no session is
    allocated, and the device is returned as it was, the session it holds
    included. *)
Theorem start_rejects_second_session (sdi : sr_dev_inst)
    (devc : dev_context) (a : acquisition_state) :
  priv sdi = Some devc ->
  acquisition devc = Some a ->
  exists ret,
    dev_acquisition_start NUM_PROBES di_priv lwla_alloc_acquisition_state
      lwla_setup_acquisition lwla_start_acquisition sdi =
    Some (ret, sdi, [])
    /\ ret <> SR_OK
    /\ (status sdi = SR_ST_ACTIVE -> ret = SR_ERR)
    /\ (status sdi <> SR_ST_ACTIVE -> ret = SR_ERR_DEV_CLOSED).
Proof.
  intros Hp Ha. unfold dev_acquisition_start.
  destruct (sr_status_eqb (status sdi) SR_ST_ACTIVE) eqn:E; cbn [negb].
  - apply sr_status_eqb_eq in E. rewrite Hp, Ha.
    exists SR_ERR. repeat split; [discriminate|contradiction].
  - exists SR_ERR_DEV_CLOSED. repeat split; [discriminate|].
    intros H. apply sr_status_eqb_eq in H. congruence.
Qed.

(** C7.  An active device without a session, for which the allocation and
    the compilation of the channel list succeed: when the set-up step or,
    after it, the start step of the protocol engine returns a code other
    than [SR_OK], the start of the acquisition returns that code, the
    context holds no session, the session just allocated is freed by the
    last call made, the device is not registered with the event loop, and
    the status is still [SR_ST_ACTIVE]. *)
Theorem start_failure_releases_session (sdi sdi1 : sr_dev_inst)
    (devc devc1 : dev_context) (a : acquisition_state) :
  status sdi = SR_ST_ACTIVE ->
  priv sdi = Some devc ->
  acquisition devc = None ->
  lwla_alloc_acquisition_state = Some a ->
  configure_probes NUM_PROBES
    (set_priv sdi
       (set_transfer_error (set_stopping_in_progress devc false) false)) =
  Some (SR_OK, sdi1) ->
  priv sdi1 = Some devc1 ->
  let setup :=
    lwla_setup_acquisition
      (set_priv sdi1 (set_acquisition devc1 (Some a))) in
  let start := lwla_start_acquisition (set_priv sdi1 (snd setup)) in
  fst setup <> SR_OK \/ fst start <> SR_OK ->
  exists ret sdi' devc' ev,
    dev_acquisition_start NUM_PROBES di_priv lwla_alloc_acquisition_state
      lwla_setup_acquisition lwla_start_acquisition sdi =
    Some (ret, sdi', ev)
    /\ ret = (if fst setup =? SR_OK then fst start else fst setup)
    /\ ret <> SR_OK
    /\ status sdi' = SR_ST_ACTIVE
    /\ priv sdi' = Some devc'
    /\ acquisition devc' = None
    /\ last ev Ev_send_df_header = Ev_free_acquisition_state a
    /\ ~ In Ev_usb_source_add ev.
Proof.
  clear lwla_set_clock_source.
  intros Hst Hp Hacq Halloc Hcfg Hp1 setup start Hfail.
  assert (Hst1 : status sdi1 = SR_ST_ACTIVE).
  { unfold configure_probes in Hcfg. cbn [priv set_priv] in Hcfg.
    destruct (configure_probes_loop _ _ _ _) in Hcfg.
    injection Hcfg as _ <-. exact Hst. }
  unfold dev_acquisition_start.
  rewrite Hst, Hp, Hacq, Halloc. cbn [sr_status_eqb negb].
  rewrite Hcfg. cbn [Z.eqb SR_OK negb]. rewrite Hp1.
  fold setup. destruct setup as [r1 d1] eqn:Esetup. cbn [fst snd] in *.
  destruct (Z.eqb_spec r1 SR_OK) as [Hr1|Hr1]; cbn [negb].
  - fold start. destruct start as [r2 d2] eqn:Estart. cbn [fst snd] in *.
    destruct (Z.eqb_spec r2 SR_OK) as [Hr2|Hr2]; cbn [negb];
      [destruct Hfail; contradiction|].
    exists r2, (set_priv sdi1 (set_acquisition d2 None)),
      (set_acquisition d2 None). eexists.
    split; [reflexivity|].
    repeat split; auto.
    cbn. intuition discriminate.
  - exists r1, (set_priv sdi1 (set_acquisition d1 None)),
      (set_acquisition d1 None). eexists.
    split; [reflexivity|].
    repeat split; auto.
    cbn. intuition discriminate.
Qed.

(** C8.  On an active device the stop of an acquisition returns [SR_OK]
    with the status set to [SR_ST_STOPPING] and nothing else changed: the
    context (session, masks, flags) is the same and no call is made, so
    the session is not released.  On a device that is not active it
    returns [SR_ERR_DEV_CLOSED] and changes nothing. *)
Theorem stop_changes_status_only (sdi : sr_dev_inst) :
  (status sdi = SR_ST_ACTIVE ->
   exists sdi',
     dev_acquisition_stop sdi = (SR_OK, sdi', [])
     /\ status sdi' = SR_ST_STOPPING
     /\ priv sdi' = priv sdi
     /\ conn sdi' = conn sdi
     /\ probes sdi' = probes sdi)
  /\ (status sdi <> SR_ST_ACTIVE ->
      dev_acquisition_stop sdi = (SR_ERR_DEV_CLOSED, sdi, [])).
Proof.
  unfold dev_acquisition_stop. split.
  - intros ->. cbn [sr_status_eqb negb].
    eexists. split; [reflexivity|]. repeat split.
  - intros Hst.
    destruct (sr_status_eqb (status sdi) SR_ST_ACTIVE) eqn:E; [|reflexivity].
    apply sr_status_eqb_eq in E. contradiction.
Qed.

(** Closing twice, from the relation between handle and status.  With the
    driver initialised, on a device that has a context and
    that is inactive whenever it has no open handle, closing twice in a row
    gives [SR_OK] both times and the status [SR_ST_INACTIVE] after each
    call; the second call finds no handle, makes no call and changes
    nothing. *)
Theorem close_twice (sdi : sr_dev_inst) (devc : dev_context)
    (drvc : drv_context) :
  di_priv = Some drvc ->
  priv sdi = Some devc ->
  handle_invariant sdi ->
  exists sdi1 ev1,
    dev_close di_priv lwla_set_clock_source sdi = Some (SR_OK, sdi1, ev1)
    /\ status sdi1 = SR_ST_INACTIVE
    /\ devhdl (conn sdi1) = None
    /\ dev_close di_priv lwla_set_clock_source sdi1 = Some (SR_OK, sdi1, []).
Proof.
  intros Hdrv Hp Hinv. unfold dev_close at 1. rewrite Hdrv, Hp.
  destruct (devhdl (conn sdi)) as [h|] eqn:Eh.
  - destruct (lwla_set_clock_source _) as [r d1].
    eexists. eexists. split; [reflexivity|].
    repeat split.
  - exists sdi, []. split; [reflexivity|].
    repeat split; auto.
    unfold dev_close. rewrite Eh. reflexivity.
Qed.

(** A device as [scan] registers it is inactive and has no handle, and
    every entry point keeps [handle_invariant]. *)
Lemma handle_invariant_scan (d : dev_context)
    (ps : list (option sr_probe)) :
  handle_invariant (mk_sdi SR_ST_INACTIVE d None ps).
Proof. intros _. reflexivity. Qed.

Lemma handle_invariant_close (sdi sdi' : sr_dev_inst) (ret : Z)
    (ev : list event) :
  handle_invariant sdi ->
  dev_close di_priv lwla_set_clock_source sdi = Some (ret, sdi', ev) ->
  handle_invariant sdi'.
Proof.
  unfold dev_close. intros Hinv Hrun.
  destruct di_priv; [|injection Hrun as _ <- _; exact Hinv].
  destruct (devhdl (conn sdi)); [|injection Hrun as _ <- _; exact Hinv].
  destruct (priv sdi); [|discriminate Hrun].
  destruct (lwla_set_clock_source _).
  injection Hrun as _ <- _. intros _. reflexivity.
Qed.

Lemma handle_invariant_stop (sdi : sr_dev_inst) :
  handle_invariant sdi ->
  handle_invariant (snd (fst (dev_acquisition_stop sdi))).
Proof.
  unfold dev_acquisition_stop, handle_invariant. intros Hinv.
  destruct (sr_status_eqb (status sdi) SR_ST_ACTIVE) eqn:E; cbn; [|exact Hinv].
  apply sr_status_eqb_eq in E. intros Hh. specialize (Hinv Hh). congruence.
Qed.

Lemma handle_invariant_config_set (key : sr_conf_key) (data : GVariant)
    (sdi : sr_dev_inst) :
  handle_invariant sdi ->
  handle_invariant
    (snd (fst (config_set lwla_set_clock_source key data sdi))).
Proof.
  unfold config_set, handle_invariant. intros Hinv.
  destruct (priv sdi); [|exact Hinv].
  destruct key; cbn [fst snd]; try exact Hinv.
  - destruct (_ || _); exact Hinv.
  - cbn [status set_priv].
    destruct (sr_status_eqb (status sdi) SR_ST_ACTIVE);
      [destruct (lwla_set_clock_source _)|]; exact Hinv.
Qed.

Lemma configure_probes_frame (sdi sdi' : sr_dev_inst) (ret : Z) :
  configure_probes NUM_PROBES sdi = Some (ret, sdi') ->
  status sdi' = status sdi /\ conn sdi' = conn sdi.
Proof.
  unfold configure_probes. destruct (priv sdi); [|discriminate].
  destruct (configure_probes_loop _ _ _ _).
  intros H. injection H as _ <-. split; reflexivity.
Qed.

Lemma handle_invariant_start (sdi sdi' : sr_dev_inst) (ret : Z)
    (ev : list event) :
  handle_invariant sdi ->
  dev_acquisition_start NUM_PROBES di_priv lwla_alloc_acquisition_state
    lwla_setup_acquisition lwla_start_acquisition sdi = Some (ret, sdi', ev) ->
  handle_invariant sdi'.
Proof.
  intros Hinv Hrun.
  assert (Hsame : status sdi' = status sdi /\ conn sdi' = conn sdi).
  { unfold dev_acquisition_start in Hrun.
    destruct (negb _); [injection Hrun as _ <- _; auto|].
    destruct (priv sdi) as [devc|]; [|discriminate Hrun].
    destruct (acquisition devc); [injection Hrun as _ <- _; auto|].
    destruct lwla_alloc_acquisition_state as [a|];
      [|injection Hrun as _ <- _; auto].
    destruct (configure_probes _ _) as [[r sdi1]|] eqn:Hcfg;
      [|discriminate Hrun].
    apply configure_probes_frame in Hcfg. cbn [status conn set_priv] in Hcfg.
    destruct (negb (r =? SR_OK)); [injection Hrun as _ <- _; exact Hcfg|].
    destruct (priv sdi1) as [devc1|]; [|discriminate Hrun].
    destruct (lwla_setup_acquisition _) as [r1 d1].
    destruct (negb (r1 =? SR_OK)); [injection Hrun as _ <- _; exact Hcfg|].
    destruct (lwla_start_acquisition _) as [r2 d2].
    destruct (negb (r2 =? SR_OK)); [injection Hrun as _ <- _; exact Hcfg|].
    destruct di_priv; [|discriminate Hrun].
    injection Hrun as _ <- _. exact Hcfg. }
  destruct Hsame as [Hs Hc]. unfold handle_invariant. rewrite Hs, Hc.
  exact Hinv.
Qed.

End Lifecycle.

(** ** Instances on the sample devices *)

(** Four channel specs for three channels, the fourth disabled and
    without trigger. *)
Lemma limit_checked_before_enabled_witness :
  (3 < 64)%nat
  /\ (List.length (firstn 3 four_probes) = 3)%nat
  /\ Forall idle_entry (skipn 3 four_probes)
  /\ exists sdi', configure_probes 3 over_limit_sdi = Some (SR_ERR, sdi').
Proof.
  assert (H64 : (3 < 64)%nat) by lia.
  assert (Hidle : Forall idle_entry (skipn 3 four_probes)).
  { repeat constructor. }
  repeat split; [exact H64 | exact Hidle |].
  destruct (limit_checked_before_enabled 3 H64) as (_ & _ & H).
  apply (H over_limit_sdi used_devc (firstn 3 four_probes)
           (skipn 3 four_probes)).
  - reflexivity.
  - reflexivity.
  - reflexivity.
  - discriminate.
  - exact Hidle.
Defined.

Lemma too_many_channels_state_witness :
  (3 < 64)%nat
  /\ (3 < List.length (probes over_limit_sdi))%nat
  /\ exists devc',
      configure_probes 3 over_limit_sdi =
        Some (SR_ERR, set_priv over_limit_sdi devc')
      /\ devc' = snd (configure_probes_loop 3 (clear_masks used_devc)
                        (firstn 3 (probes over_limit_sdi)) 1)
      /\ with_masks devc' used_devc = used_devc.
Proof.
  assert (H64 : (3 < 64)%nat) by lia.
  assert (Hlen : (3 < List.length (probes over_limit_sdi))%nat)
    by (simpl; lia).
  repeat split; [exact H64 | exact Hlen |].
  apply (too_many_channels_state 3 H64 over_limit_sdi used_devc);
    [reflexivity | exact Hlen].
Defined.

(** Against C1 as the spec words it: four channel specs on three channels
    fail, and the masks 12, 4, 4, 0 the context held are gone; it holds
    the masks 3, 1, 1, 1 of the first three specs. *)
Lemma too_many_channels_not_atomic :
  (3 < List.length (probes over_limit_sdi))%nat
  /\ priv over_limit_sdi = Some used_devc
  /\ (channel_mask used_devc, trigger_mask used_devc,
      trigger_edge_mask used_devc, trigger_values used_devc) = (12, 4, 4, 0)
  /\ exists devc',
      configure_probes 3 over_limit_sdi =
        Some (SR_ERR, set_priv over_limit_sdi devc')
      /\ (channel_mask devc', trigger_mask devc',
          trigger_edge_mask devc', trigger_values devc') = (3, 1, 1, 1)
      /\ channel_mask devc' <> channel_mask used_devc.
Proof.
  split; [simpl; lia|]. split; [reflexivity|]. split; [reflexivity|].
  eexists. split; [reflexivity|]. split; [reflexivity|].
  cbn. discriminate.
Qed.

(** An enabled channel with the trigger "rf" fails the compilation; the
    first channel of the scenario, enabled with the trigger "r", has the
    bits of a rising edge; a disabled channel compiles the same with the
    trigger "rf" and without a trigger; and the bits of a channel stand
    when the compilation fails at the channel after it. *)
Lemma trigger_symbol_encoding_witness :
  (exists sdi',
      configure_probes 3 (two_stage_sdi true) = Some (SR_ERR, sdi'))
  /\ (exists devc',
         configure_probes 3 active_sdi = Some (SR_OK, set_priv active_sdi devc')
         /\ Z.testbit (trigger_mask devc') 0 = true
         /\ Z.testbit (trigger_edge_mask devc') 0 = true
         /\ Z.testbit (trigger_values devc') 0 = true)
  /\ (exists ret devc',
         configure_probes 3 (two_stage_sdi false) =
           Some (ret, set_priv (two_stage_sdi false) devc')
         /\ configure_probes 3
              (mk_sdi SR_ST_ACTIVE fresh_devc (Some sample_hdl)
                 [Some (mk_probe 0 false None)]) =
            Some (ret,
                  set_priv
                    (mk_sdi SR_ST_ACTIVE fresh_devc (Some sample_hdl)
                       [Some (mk_probe 0 false None)]) devc'))
  /\ (configure_probes 3 abort_second_sdi =
        Some (SR_ERR, set_priv abort_second_sdi scenario_devc)
      /\ Z.testbit (channel_mask scenario_devc) 0 = true
      /\ Z.testbit (trigger_mask scenario_devc) 0 = true
      /\ Z.testbit (trigger_edge_mask scenario_devc) 0 = true
      /\ Z.testbit (trigger_values scenario_devc) 0 = true).
Proof.
  assert (H64 : (3 < 64)%nat) by lia.
  destruct (trigger_symbol_encoding 3 H64)
    as (Hbad & Hgood & _ & Hskip & Hreached).
  split; [|split; [|split]].
  - apply (Hbad (two_stage_sdi true) fresh_devc 0%nat (two_stage_probe true)
             "rf"%string).
    + reflexivity.
    + reflexivity.
    + reflexivity.
    + reflexivity.
    + simpl; lia.
    + left. simpl; lia.
  - assert (Hrun : configure_probes 3 active_sdi =
                   Some (SR_OK, set_priv active_sdi scenario_devc))
      by reflexivity.
    destruct (Hgood active_sdi _ scenario_devc 0%nat
                (mk_probe 0 true (Some "r"%string)) "r"%string
                Hrun eq_refl eq_refl eq_refl eq_refl ltac:(simpl; lia))
      as (_ & _ & _ & Ht & He & Hv).
    exists scenario_devc. split; [exact Hrun|].
    exact (conj Ht (conj He Hv)).
  - apply (Hskip (two_stage_sdi false)
             (mk_sdi SR_ST_ACTIVE fresh_devc (Some sample_hdl)
                [Some (mk_probe 0 false None)])
             fresh_devc eq_refl eq_refl).
    constructor; [|constructor].
    right. split; reflexivity.
  - assert (Hrun : configure_probes 3 abort_second_sdi =
                   Some (SR_ERR, set_priv abort_second_sdi scenario_devc))
      by reflexivity.
    split; [exact Hrun|].
    apply (Hreached abort_second_sdi _ scenario_devc SR_ERR 0%nat
             (mk_probe 0 true (Some "r"%string)) "r"%string
             Hrun eq_refl eq_refl eq_refl eq_refl eq_refl eq_refl
             ltac:(lia)).
    constructor.
Defined.

(** Against C3 as the spec words it: the trigger "rf" has two characters,
    and on a disabled channel it does not make the compilation fail. *)
Lemma disabled_trigger_not_checked :
  nth_error (probes (two_stage_sdi false)) 0 = Some (Some (two_stage_probe false))
  /\ trigger (two_stage_probe false) = Some "rf"%string
  /\ strlen "rf" = 2%nat
  /\ configure_probes 3 (two_stage_sdi false) =
     Some (SR_OK, two_stage_sdi false).
Proof. repeat split. Qed.

(** Against C3 as the spec words it, twice.  A disabled channel with the
    two-character trigger "rf" does not make the compilation fail.  And an
    enabled channel with the accepted trigger "r" at position 1 has no
    trigger bit when the compilation has failed at position 0. *)
Lemma trigger_rule_counterexamples :
  (nth_error (probes (two_stage_sdi false)) 0 =
     Some (Some (two_stage_probe false))
   /\ trigger (two_stage_probe false) = Some "rf"%string
   /\ strlen "rf" = 2%nat
   /\ configure_probes 3 (two_stage_sdi false) =
      Some (SR_OK, two_stage_sdi false))
  /\ (nth_error (probes abort_first_sdi) 1 =
        Some (Some (mk_probe 1 true (Some "r"%string)))
      /\ is_supported_symbol "r" = true
      /\ configure_probes 3 abort_first_sdi =
         Some (SR_ERR,
               set_priv abort_first_sdi (set_channel_mask fresh_devc 1))
      /\ Z.testbit (trigger_mask (set_channel_mask fresh_devc 1)) 1 = false
      /\ Z.testbit (channel_mask (set_channel_mask fresh_devc 1)) 1 = false).
Proof. repeat split. Qed.

Lemma compiled_masks_nested_witness :
  (3 < 64)%nat
  /\ (List.length (probes active_sdi) <= 3)%nat
  /\ Forall trigger_well_formed (probes active_sdi)
  /\ exists devc',
      configure_probes 3 active_sdi = Some (SR_OK, set_priv active_sdi devc')
      /\ Z.land (trigger_edge_mask devc') (trigger_mask devc') =
         trigger_edge_mask devc'
      /\ Z.land (trigger_mask devc') (channel_mask devc') = trigger_mask devc'.
Proof.
  assert (H64 : (3 < 64)%nat) by lia.
  assert (Hlen : (List.length (probes active_sdi) <= 3)%nat) by (simpl; lia).
  assert (Hwf : Forall trigger_well_formed (probes active_sdi)).
  { repeat constructor; cbn; discriminate. }
  repeat split; [exact H64 | exact Hlen | exact Hwf |].
  destruct (compiled_masks_nested 3 H64 active_sdi fresh_devc eq_refl Hlen Hwf)
    as (devc' & Hrun & He & Ht & _).
  exists devc'. exact (conj Hrun (conj He Ht)).
Defined.

Lemma samplerate_range_check_witness :
  priv closed_sdi = Some fresh_devc
  /\ config_set (engine_returns SR_OK) SR_CONF_SAMPLERATE (GV_uint64 150)
       closed_sdi =
     (SR_OK, set_priv closed_sdi (set_samplerate fresh_devc 150), []).
Proof.
  split; [reflexivity|].
  apply (samplerate_range_check (engine_returns SR_OK) closed_sdi fresh_devc
           150 eq_refl).
  cbv. split; discriminate.
Defined.

Lemma start_requires_active_witness :
  status closed_sdi <> SR_ST_ACTIVE
  /\ dev_acquisition_start 3 (Some sample_drvc) (Some sample_acq)
       (engine_returns SR_OK) (engine_returns SR_OK) closed_sdi =
     Some (SR_ERR_DEV_CLOSED, closed_sdi, []).
Proof.
  assert (H : status closed_sdi <> SR_ST_ACTIVE) by (simpl; discriminate).
  split; [exact H|].
  apply (start_requires_active 3 (Some sample_drvc) (Some sample_acq)
           (engine_returns SR_OK) (engine_returns SR_OK) closed_sdi H).
Defined.

Lemma start_rejects_second_session_witness :
  exists ret,
    dev_acquisition_start 3 (Some sample_drvc)
      (Some {| acq_addr := 4100 |})
      (engine_returns SR_OK) (engine_returns SR_OK) busy_sdi =
    Some (ret, busy_sdi, [])
    /\ ret <> SR_OK.
Proof.
  destruct (start_rejects_second_session 3 (Some sample_drvc)
              (Some {| acq_addr := 4100 |})
              (engine_returns SR_OK) (engine_returns SR_OK)
              busy_sdi (set_acquisition fresh_devc (Some sample_acq))
              sample_acq eq_refl eq_refl)
    as (ret & Hrun & Hret & _).
  exists ret. exact (conj Hrun Hret).
Defined.

(** The set-up step fails with [SR_ERR] on the active sample device. *)
Lemma start_failure_releases_session_witness :
  exists ret sdi' devc' ev,
    dev_acquisition_start 3 (Some sample_drvc) (Some sample_acq)
      (engine_returns SR_ERR) (engine_returns SR_OK) active_sdi =
    Some (ret, sdi', ev)
    /\ ret = SR_ERR
    /\ status sdi' = SR_ST_ACTIVE
    /\ priv sdi' = Some devc'
    /\ acquisition devc' = None.
Proof.
  assert (Hcfg : configure_probes 3
            (set_priv active_sdi
               (set_transfer_error
                  (set_stopping_in_progress fresh_devc false) false)) =
          Some (SR_OK, set_priv active_sdi scenario_devc)).
  { vm_compute. reflexivity. }
  assert (Hfail :
    fst (engine_returns SR_ERR
           (set_priv (set_priv active_sdi scenario_devc)
              (set_acquisition scenario_devc (Some sample_acq)))) <> SR_OK
    \/ fst (engine_returns SR_OK
              (set_priv (set_priv active_sdi scenario_devc)
                 (snd (engine_returns SR_ERR
                         (set_priv (set_priv active_sdi scenario_devc)
                            (set_acquisition scenario_devc
                               (Some sample_acq))))))) <> SR_OK).
  { left. cbn. discriminate. }
  pose proof (start_failure_releases_session 3 (Some sample_drvc)
              (Some sample_acq) (engine_returns SR_ERR) (engine_returns SR_OK)
              active_sdi (set_priv active_sdi scenario_devc)
              fresh_devc scenario_devc sample_acq
              eq_refl eq_refl eq_refl eq_refl Hcfg eq_refl Hfail) as H.
  destruct H
    as (ret & sdi' & devc' & ev & Hrun & Hret & _ & Hst & Hp & Ha & _).
  exists ret, sdi', devc', ev.
  exact (conj Hrun (conj Hret (conj Hst (conj Hp Ha)))).
Defined.

Lemma stop_changes_status_only_witness :
  (exists sdi',
      dev_acquisition_stop busy_sdi = (SR_OK, sdi', [])
      /\ status sdi' = SR_ST_STOPPING
      /\ priv sdi' = priv busy_sdi)
  /\ dev_acquisition_stop closed_sdi = (SR_ERR_DEV_CLOSED, closed_sdi, []).
Proof.
  split.
  - destruct (proj1 (stop_changes_status_only busy_sdi) eq_refl)
      as (sdi' & Hrun & Hst & Hp & _).
    exists sdi'. exact (conj Hrun (conj Hst Hp)).
  - apply (proj2 (stop_changes_status_only closed_sdi)).
    simpl; discriminate.
Defined.

Lemma close_twice_witness :
  handle_invariant active_sdi
  /\ exists sdi1 ev1,
      dev_close (Some sample_drvc) (engine_returns SR_OK) active_sdi =
        Some (SR_OK, sdi1, ev1)
      /\ status sdi1 = SR_ST_INACTIVE
      /\ devhdl (conn sdi1) = None
      /\ dev_close (Some sample_drvc) (engine_returns SR_OK) sdi1 =
         Some (SR_OK, sdi1, []).
Proof.
  assert (Hinv : handle_invariant active_sdi).
  { unfold handle_invariant. simpl. discriminate. }
  split; [exact Hinv|].
  apply (close_twice (Some sample_drvc) (engine_returns SR_OK) active_sdi
           fresh_devc sample_drvc eq_refl eq_refl Hinv).
Defined.

(** ** Further properties of the trigger-state compilation *)

Lemma mask_subset_or_bit (a b x : Z) (fa fb : bool) :
  mask_subset a b ->
  (fa = true -> fb = true) ->
  mask_subset (or_bit a x fa) (or_bit b x fb).
Proof.
  unfold mask_subset, or_bit. intros Hab Hf.
  destruct fa, fb; try (specialize (Hf eq_refl); discriminate Hf).
  - apply Z.bits_inj'; intros n Hn.
    assert (Hn' := f_equal (fun z => Z.testbit z n) Hab). cbn beta in Hn'.
    rewrite Z.land_spec in Hn'.
    rewrite Z.land_spec, !Z.lor_spec.
    destruct (Z.testbit a n), (Z.testbit b n), (Z.testbit x n);
      try reflexivity; discriminate Hn'.
  - apply Z.bits_inj'; intros n Hn.
    assert (Hn' := f_equal (fun z => Z.testbit z n) Hab). cbn beta in Hn'.
    rewrite Z.land_spec in Hn'.
    rewrite Z.land_spec, !Z.lor_spec.
    destruct (Z.testbit a n), (Z.testbit b n), (Z.testbit x n);
      try reflexivity; discriminate Hn'.
  - exact Hab.
Qed.

Lemma or_bit_bound (m : Z) (i n : nat) (f : bool) :
  0 <= m < 2 ^ Z.of_nat n ->
  (i < n)%nat ->
  0 <= or_bit m (2 ^ Z.of_nat i) f < 2 ^ Z.of_nat n.
Proof.
  intros [Hlo Hhi] Hi. unfold or_bit. destruct f; [|split; assumption].
  assert (Hp : 0 < 2 ^ Z.of_nat i) by (apply Z.pow_pos_nonneg; lia).
  split.
  - apply Z.lor_nonneg. split; lia.
  - destruct (Z.eq_dec m 0) as [->|Hm].
    + rewrite Z.lor_0_l. apply Z.pow_lt_mono_r; lia.
    + apply Z.log2_lt_pow2.
      * assert (0 <= Z.lor m (2 ^ Z.of_nat i)) by (apply Z.lor_nonneg; lia).
        assert (Z.lor m (2 ^ Z.of_nat i) <> 0).
        { intros E. apply Z.lor_eq_0_iff in E. lia. }
        lia.
      * rewrite Z.log2_lor by lia.
        rewrite Z.log2_pow2 by lia.
        apply Z.max_lub_lt; [|lia].
        apply Z.log2_lt_pow2; lia.
Qed.

Lemma trig_bit_chan_bit (o : option sr_probe) :
  trig_bit o = true -> chan_bit o = true.
Proof.
  destruct o as [p|]; cbn; [|discriminate].
  intros H. apply andb_prop in H. tauto.
Qed.

Lemma edge_bit_trig_bit (o : option sr_probe) :
  edge_bit o = true -> trig_bit o = true.
Proof.
  destruct o as [p|]; cbn; [|discriminate].
  intros H. apply andb_prop in H. tauto.
Qed.

Lemma value_bit_trig_bit (o : option sr_probe) :
  value_bit o = true -> trig_bit o = true.
Proof.
  destruct o as [p|]; cbn; [|discriminate].
  intros H. apply andb_prop in H. tauto.
Qed.

Section MoreCompilation.

Variable NUM_PROBES : nat.
Hypothesis NUM_PROBES_lt_64 : (NUM_PROBES < 64)%nat.

(** The return value of the loop is [SR_OK] or [SR_ERR]. *)
Lemma loop_ret (node : list (option sr_probe)) :
  forall (d : dev_context) (b : Z),
    fst (configure_probes_loop NUM_PROBES d node b) = SR_OK
    \/ fst (configure_probes_loop NUM_PROBES d node b) = SR_ERR.
Proof.
  clear NUM_PROBES_lt_64.
  induction node as [|probe next IH]; intros d b; cbn [configure_probes_loop].
  - left; reflexivity.
  - destruct (b >=? shl64 1 (Z.of_nat NUM_PROBES)); [right; reflexivity|].
    rewrite probe_body_spec. destruct probe as [p|].
    + destruct (enabled p && trigger_present p && negb (trigger_accepted p));
        [right; reflexivity|apply IH].
    + apply IH.
Qed.

Lemma masks_nested_or_bits (d d' : dev_context) (i : nat)
    (fc ft fe fv : bool) :
  masks_nested NUM_PROBES d ->
  (i < NUM_PROBES)%nat ->
  (ft = true -> fc = true) ->
  (fe = true -> ft = true) ->
  (fv = true -> ft = true) ->
  channel_mask d' = or_bit (channel_mask d) (2 ^ Z.of_nat i) fc ->
  trigger_mask d' = or_bit (trigger_mask d) (2 ^ Z.of_nat i) ft ->
  trigger_edge_mask d' = or_bit (trigger_edge_mask d) (2 ^ Z.of_nat i) fe ->
  trigger_values d' = or_bit (trigger_values d) (2 ^ Z.of_nat i) fv ->
  masks_nested NUM_PROBES d'.
Proof.
  clear NUM_PROBES_lt_64.
  intros (Bc & Bt & Be & Bv & Set' & Svt & Stc) Hi Htc Het Hvt Ec Et Ee Ev.
  unfold masks_nested. rewrite Ec, Et, Ee, Ev.
  split; [apply or_bit_bound; assumption|].
  split; [apply or_bit_bound; assumption|].
  split; [apply or_bit_bound; assumption|].
  split; [apply or_bit_bound; assumption|].
  split; [apply mask_subset_or_bit; assumption|].
  split; apply mask_subset_or_bit; assumption.
Qed.

(** Every step of the loop keeps the masks below [2 ^ NUM_PROBES] and
    nested, also the step that leaves with [SR_ERR]. *)
Lemma loop_keeps_masks_nested (node : list (option sr_probe)) :
  forall (d : dev_context) (i : nat),
    (i <= NUM_PROBES)%nat ->
    masks_nested NUM_PROBES d ->
    masks_nested NUM_PROBES
      (snd (configure_probes_loop NUM_PROBES d node (2 ^ Z.of_nat i))).
Proof.
  induction node as [|probe next IH]; intros d i Hi Hd;
    cbn [configure_probes_loop].
  - exact Hd.
  - rewrite (limit_test NUM_PROBES NUM_PROBES_lt_64) by exact Hi.
    destruct (Nat.eqb_spec i NUM_PROBES) as [|Hne]; [exact Hd|].
    assert (Hlt : (i < NUM_PROBES)%nat) by lia.
    rewrite probe_body_spec. destruct probe as [p|].
    + destruct (enabled p && trigger_present p && negb (trigger_accepted p)).
      * cbn [snd].
        eapply (masks_nested_or_bits d _ i true
                  (Nat.eqb (strlen match trigger p with
                                   | Some t => t
                                   | None => EmptyString
                                   end) 1)
                  false false Hd Hlt);
          [reflexivity | discriminate | discriminate | reflexivity ..].
      * rewrite (next_probe_bit NUM_PROBES NUM_PROBES_lt_64) by exact Hlt.
        apply IH; [lia|].
        eapply (masks_nested_or_bits d _ i _ _ _ _ Hd Hlt
                  (trig_bit_chan_bit (Some p))
                  (edge_bit_trig_bit (Some p))
                  (value_bit_trig_bit (Some p))); reflexivity.
    + rewrite (next_probe_bit NUM_PROBES NUM_PROBES_lt_64) by exact Hlt.
      apply IH; [lia|exact Hd].
Qed.

Lemma clear_masks_nested (d : dev_context) :
  masks_nested NUM_PROBES (clear_masks d).
Proof.
  clear NUM_PROBES_lt_64.
  assert (0 < 2 ^ Z.of_nat NUM_PROBES) by (apply Z.pow_pos_nonneg; lia).
  unfold masks_nested, mask_subset. cbn. repeat split; lia.
Qed.

(** The loop runs to its end exactly on a list within the limit whose
    enabled entries have well-formed triggers. *)
Lemma configure_probes_loop_ok_iff (node : list (option sr_probe))
    (d : dev_context) :
  fst (configure_probes_loop NUM_PROBES d node 1) = SR_OK <->
  (List.length node <= NUM_PROBES)%nat
  /\ Forall (fun o => chan_bit o = true -> trigger_well_formed o) node.
Proof.
  split.
  - intros Hok.
    destruct (configure_probes_loop NUM_PROBES d node 1) as [ret d1] eqn:Hloop.
    cbn [fst] in Hok. subst ret.
    change 1 with (2 ^ Z.of_nat 0) in Hloop.
    split.
    + apply (loop_success_length NUM_PROBES NUM_PROBES_lt_64 _ _ _ 0%nat
               ltac:(lia) Hloop).
    + apply Forall_forall. intros o Hin Hen.
      destruct o as [p|]; [|exact I].
      cbn [chan_bit] in Hen. cbn [trigger_well_formed]. intros Hpres.
      destruct (trigger_accepted p) eqn:Hacc; [reflexivity|].
      apply In_nth_error in Hin. destruct Hin as [k Hk].
      pose proof (loop_bad_trigger NUM_PROBES NUM_PROBES_lt_64 node
                    d 0 k p ltac:(lia) Hk Hen Hpres Hacc) as Hfail.
      rewrite Hloop in Hfail. discriminate Hfail.
  - intros [Hlen Hwf]. change 1 with (2 ^ Z.of_nat 0).
    apply (loop_ok NUM_PROBES NUM_PROBES_lt_64); [lia|exact Hwf].
Qed.

(** X1.  [configure_probes] returns [SR_OK] or [SR_ERR] and nothing else,
    and it returns [SR_OK] exactly when the list has at most [NUM_PROBES]
    entries and every enabled entry has no trigger or a single supported
    symbol. *)
Theorem configure_probes_ok_iff (sdi : sr_dev_inst) (devc : dev_context) :
  priv sdi = Some devc ->
  exists ret sdi',
    configure_probes NUM_PROBES sdi = Some (ret, sdi')
    /\ (ret = SR_OK \/ ret = SR_ERR)
    /\ (ret = SR_OK <->
        (List.length (probes sdi) <= NUM_PROBES)%nat
        /\ Forall (fun o => chan_bit o = true -> trigger_well_formed o)
             (probes sdi)).
Proof.
  intros Hp. rewrite (configure_probes_unfold NUM_PROBES sdi devc Hp).
  eexists. eexists. split; [reflexivity|].
  split; [apply loop_ret|].
  cbn [fst]. apply configure_probes_loop_ok_iff.
Qed.

(** X2.  After a successful compilation bit [k] of the channel mask is set
    exactly when entry [k] of the list is an enabled channel, bit [k] of
    the trigger mask exactly when that channel has an accepted trigger,
    bit [k] of the edge mask exactly when the symbol is r or f, and bit [k]
    of the trigger values exactly when it is 1 or r; the bits past the end
    of the list are clear. *)
Theorem compiled_mask_bits (sdi sdi' : sr_dev_inst) (devc' : dev_context) :
  configure_probes NUM_PROBES sdi = Some (SR_OK, sdi') ->
  priv sdi' = Some devc' ->
  forall k : nat,
    Z.testbit (channel_mask devc') (Z.of_nat k) =
      bit_at chan_bit (probes sdi) k
    /\ Z.testbit (trigger_mask devc') (Z.of_nat k) =
       bit_at trig_bit (probes sdi) k
    /\ Z.testbit (trigger_edge_mask devc') (Z.of_nat k) =
       bit_at edge_bit (probes sdi) k
    /\ Z.testbit (trigger_values devc') (Z.of_nat k) =
       bit_at value_bit (probes sdi) k.
Proof.
  intros Hrun Hp' k.
  unfold configure_probes in Hrun.
  destruct (priv sdi) as [devc|]; [|discriminate Hrun].
  destruct (configure_probes_loop NUM_PROBES (clear_masks devc)
              (probes sdi) 1) as [ret d1] eqn:Hloop.
  injection Hrun as -> <-. cbn [priv set_priv] in Hp'. injection Hp' as ->.
  change 1 with (2 ^ Z.of_nat 0) in Hloop.
  destruct (loop_bits NUM_PROBES NUM_PROBES_lt_64 (probes sdi) _ _ 0
              ltac:(lia) Hloop k) as (Hc & Ht & He & Hv).
  rewrite Hc, Ht, He, Hv.
  cbn [clear_masks set_trigger_values set_trigger_edge_mask
       set_trigger_mask set_channel_mask
       channel_mask trigger_mask trigger_edge_mask trigger_values].
  rewrite Z.testbit_0_l, Nat.sub_0_r. cbn [orb Nat.leb andb]. auto.
Qed.

(** X3.  Whatever [configure_probes] returns, [SR_ERR] included, the masks
    it leaves in the context are non-negative and below [2 ^ NUM_PROBES]
    (no bit at or past the channel limit is ever set), the edge mask and
    the trigger values are inside the trigger mask, and the trigger mask is
    inside the channel mask. *)
Theorem configure_probes_masks_nested (sdi sdi' : sr_dev_inst)
    (devc' : dev_context) (ret : Z) :
  configure_probes NUM_PROBES sdi = Some (ret, sdi') ->
  priv sdi' = Some devc' ->
  0 <= channel_mask devc' < 2 ^ Z.of_nat NUM_PROBES
  /\ 0 <= trigger_mask devc' < 2 ^ Z.of_nat NUM_PROBES
  /\ 0 <= trigger_edge_mask devc' < 2 ^ Z.of_nat NUM_PROBES
  /\ 0 <= trigger_values devc' < 2 ^ Z.of_nat NUM_PROBES
  /\ Z.land (trigger_edge_mask devc') (trigger_mask devc') =
     trigger_edge_mask devc'
  /\ Z.land (trigger_values devc') (trigger_mask devc') =
     trigger_values devc'
  /\ Z.land (trigger_mask devc') (channel_mask devc') = trigger_mask devc'.
Proof.
  intros Hrun Hp'.
  unfold configure_probes in Hrun.
  destruct (priv sdi) as [devc|]; [|discriminate Hrun].
  pose proof (loop_keeps_masks_nested (probes sdi) (clear_masks devc) 0
                ltac:(lia) (clear_masks_nested devc)) as Hinv.
  change (2 ^ Z.of_nat 0) with 1 in Hinv.
  destruct (configure_probes_loop NUM_PROBES (clear_masks devc)
              (probes sdi) 1) as [r d1].
  injection Hrun as _ <-. cbn [priv set_priv] in Hp'. injection Hp' as <-.
  exact Hinv.
Qed.

End MoreCompilation.

(** X4.  [configure_probes] writes the four masks and nothing else: the
    status, the connection and the channel list of the device and the
    sample rate, sample limit, clock source, session and flags of its
    context are, whatever it returns, what they were. *)
Theorem configure_probes_writes_masks_only (NUM_PROBES : nat)
    (sdi sdi' : sr_dev_inst) (devc : dev_context) (ret : Z) :
  priv sdi = Some devc ->
  configure_probes NUM_PROBES sdi = Some (ret, sdi') ->
  exists devc',
    priv sdi' = Some devc'
    /\ status sdi' = status sdi
    /\ conn sdi' = conn sdi
    /\ probes sdi' = probes sdi
    /\ samplerate devc' = samplerate devc
    /\ limit_samples devc' = limit_samples devc
    /\ selected_clock_source devc' = selected_clock_source devc
    /\ acquisition devc' = acquisition devc
    /\ stopping_in_progress devc' = stopping_in_progress devc
    /\ transfer_error devc' = transfer_error devc.
Proof.
  intros Hp Hrun. unfold configure_probes in Hrun. rewrite Hp in Hrun.
  change (clear_masks devc) with (with_masks devc (clear_masks devc)) in Hrun.
  rewrite loop_with_masks in Hrun.
  injection Hrun as _ <-.
  eexists. split; [reflexivity|]. repeat split.
Qed.

(** ** Properties of discovery *)

Section MoreDiscovery.

Variable NUM_PROBES : nat.
Variable di_priv : option drv_context.
Variable probe_name : Z -> string.
Variable sr_probe_new : Z -> sr_probe_type -> bool -> string -> option sr_probe.

(** The probe [gen_probe_list] asks for at position [k]. *)
Lemma gen_probe_list_loop_map (i : nat) :
  forall lst : list (option sr_probe),
    gen_probe_list_loop probe_name sr_probe_new i lst =
    map (nth_probe probe_name sr_probe_new) (seq 0 i) ++ lst.
Proof.
  induction i as [|i IH]; intros lst; cbn [gen_probe_list_loop].
  - reflexivity.
  - rewrite IH, seq_S, map_app, <- app_assoc. cbn [map app Nat.add].
    unfold nth_probe.
    replace (Z.of_nat (S i) - 1) with (Z.of_nat i) by lia.
    reflexivity.
Qed.

(** X5.  [gen_probe_list n] has [n] entries (none for [n <= 0]) in channel
    order, although the loop counts down: entry [k] is the probe asked of
    [sr_probe_new] with index [k], logic type, enabled, and the name
    formatted for the number [k + 1]. *)
Theorem gen_probe_list_in_order (num_probes : Z) :
  List.length (gen_probe_list probe_name sr_probe_new num_probes) =
    Z.to_nat num_probes
  /\ (forall k : nat,
        (k < Z.to_nat num_probes)%nat ->
        nth_error (gen_probe_list probe_name sr_probe_new num_probes) k =
        Some (sr_probe_new (Z.of_nat k) SR_PROBE_LOGIC true
                (probe_name (Z.of_nat k + 1))))
  /\ (num_probes <= 0 ->
      gen_probe_list probe_name sr_probe_new num_probes = []).
Proof.
  unfold gen_probe_list. rewrite gen_probe_list_loop_map, app_nil_r.
  split; [|split].
  - now rewrite length_map, length_seq.
  - intros k Hk.
    rewrite nth_error_map, nth_error_seq.
    destruct (Nat.ltb_spec k (Z.to_nat num_probes)); [|lia].
    cbn [option_map Nat.add]. unfold nth_probe.
    replace (Z.of_nat (S k)) with (Z.of_nat k + 1) by lia.
    reflexivity.
  - intros Hle. replace (Z.to_nat num_probes) with 0%nat by lia.
    reflexivity.
Qed.

(** The loop of [scan] with the lists it starts from. *)
Lemma scan_loop_map (node : list usb_node) :
  forall instances devices : list sr_dev_inst,
    scan_loop NUM_PROBES probe_name sr_probe_new node instances devices =
    (instances
       ++ map (fun n =>
                 scanned_sdi NUM_PROBES probe_name sr_probe_new (node_usb n))
            (filter node_registered node),
     devices
       ++ map (fun n =>
                 scanned_sdi NUM_PROBES probe_name sr_probe_new (node_usb n))
            (filter node_registered node),
     flat_map node_released node).
Proof.
  induction node as [|n next IH]; intros instances devices;
    cbn [scan_loop filter flat_map map].
  - now rewrite !app_nil_r.
  - destruct (devc_alloc_ok n) eqn:E1; destruct (sdi_alloc_ok n) eqn:E2;
      (assert (Hr : node_registered n = devc_alloc_ok n && sdi_alloc_ok n)
         by reflexivity);
      (assert (Hf : node_released n =
                    if negb (devc_alloc_ok n)
                    then [Ev_usb_dev_inst_free (node_usb n)]
                    else if negb (sdi_alloc_ok n)
                         then [Ev_free_dev_context;
                               Ev_usb_dev_inst_free (node_usb n)]
                         else []) by reflexivity);
      rewrite Hr, Hf, E1, E2; cbn [negb andb]; rewrite IH;
      cbn [map app]; rewrite <- ?app_assoc; reflexivity.
Qed.

(** X6.  With the driver initialised, [scan] returns one device instance
    for each USB device for which both allocations succeed, in the order
    the devices were found, and leaves the same list in the registry; the
    USB instance of every other device is freed, after the context when
    only the context was allocated. *)
Theorem scan_registers_found_devices (drvc : drv_context)
    (usb_devices : list usb_node) :
  di_priv = Some drvc ->
  exists devices,
    scan NUM_PROBES di_priv probe_name sr_probe_new usb_devices =
    Some (devices, devices, flat_map node_released usb_devices)
    /\ devices =
       map (fun n =>
              scanned_sdi NUM_PROBES probe_name sr_probe_new (node_usb n))
         (filter node_registered usb_devices)
    /\ (List.length devices <= List.length usb_devices)%nat.
Proof.
  intros Hdrv. unfold scan. rewrite Hdrv, scan_loop_map. cbn [app].
  eexists. split; [reflexivity|]. split; [reflexivity|].
  rewrite length_map. apply filter_length_le.
Qed.

(** X7.  Every device instance [scan] returns is inactive with a zeroed
    context, so that until it is opened the start and the stop of an
    acquisition both return [SR_ERR_DEV_CLOSED], make no call and leave it
    as it is. *)
Theorem scanned_device_is_closed
    (usb_devices : list usb_node) (instances devices : list sr_dev_inst)
    (ev : list bus_event) (sdi : sr_dev_inst)
    (lwla_alloc_acquisition_state : option acquisition_state)
    (lwla_setup_acquisition lwla_start_acquisition
       : sr_dev_inst -> Z * dev_context) :
  scan NUM_PROBES di_priv probe_name sr_probe_new usb_devices =
    Some (instances, devices, ev) ->
  In sdi devices ->
  status sdi = SR_ST_INACTIVE
  /\ priv sdi = Some fresh_devc
  /\ List.length (probes sdi) = NUM_PROBES
  /\ dev_acquisition_start NUM_PROBES di_priv lwla_alloc_acquisition_state
       lwla_setup_acquisition lwla_start_acquisition sdi =
     Some (SR_ERR_DEV_CLOSED, sdi, [])
  /\ dev_acquisition_stop sdi = (SR_ERR_DEV_CLOSED, sdi, []).
Proof.
  unfold scan. destruct di_priv as [d|]; [|discriminate].
  rewrite scan_loop_map. cbn [app]. intros Hscan Hin.
  injection Hscan as _ <- _.
  apply in_map_iff in Hin. destruct Hin as (n & <- & _).
  split; [reflexivity|]. split; [reflexivity|].
  split.
  - cbn [probes scanned_sdi]. unfold gen_probe_list.
    rewrite gen_probe_list_loop_map, app_nil_r, length_map, length_seq.
    apply Nat2Z.id.
  - split; reflexivity.
Qed.

End MoreDiscovery.

Section FreshDevice.

Variable NUM_PROBES : nat.
Hypothesis NUM_PROBES_lt_64 : (NUM_PROBES < 64)%nat.
Variable probe_name : Z -> string.
Variable sr_probe_new : Z -> sr_probe_type -> bool -> string -> option sr_probe.

(** What the library promises of [sr_probe_new]: a probe it returns has
    the enabled flag it was given and no trigger. *)
Hypothesis sr_probe_new_fields :
  forall (idx : Z) (ty : sr_probe_type) (en : bool) (nm : string)
         (p : sr_probe),
    sr_probe_new idx ty en nm = Some p ->
    enabled p = en /\ trigger p = None.

Lemma nth_probe_bits (k : nat) :
  chan_bit (nth_probe probe_name sr_probe_new k) =
    match nth_probe probe_name sr_probe_new k with
    | Some _ => true
    | None => false
    end
  /\ trig_bit (nth_probe probe_name sr_probe_new k) = false
  /\ edge_bit (nth_probe probe_name sr_probe_new k) = false
  /\ value_bit (nth_probe probe_name sr_probe_new k) = false.
Proof.
  clear NUM_PROBES_lt_64.
  unfold nth_probe.
  destruct (sr_probe_new _ _ _ _) as [p|] eqn:E; [|repeat split].
  destruct (sr_probe_new_fields _ _ _ _ _ E) as [He Ht].
  cbn [chan_bit trig_bit edge_bit value_bit].
  unfold trigger_accepted. rewrite He, Ht. repeat split.
Qed.

(** X8.  The channel list of a scanned device always compiles: with the
    list [gen_probe_list NUM_PROBES], [configure_probes] returns [SR_OK]
    with no trigger bit, edge bit or value bit set, also when some probe
    allocations failed; when none failed every channel is enabled, and the
    channel mask is [2 ^ NUM_PROBES - 1]. *)
Theorem scanned_probe_list_compiles (sdi : sr_dev_inst)
    (devc : dev_context) :
  priv sdi = Some devc ->
  probes sdi =
    gen_probe_list probe_name sr_probe_new (Z.of_nat NUM_PROBES) ->
  exists devc',
    configure_probes NUM_PROBES sdi = Some (SR_OK, set_priv sdi devc')
    /\ trigger_mask devc' = 0
    /\ trigger_edge_mask devc' = 0
    /\ trigger_values devc' = 0
    /\ ((forall k : nat,
            (k < NUM_PROBES)%nat ->
            nth_probe probe_name sr_probe_new k <> None) ->
        channel_mask devc' = 2 ^ Z.of_nat NUM_PROBES - 1).
Proof.
  intros Hp Hprobes.
  assert (Hlist : probes sdi =
                  map (nth_probe probe_name sr_probe_new) (seq 0 NUM_PROBES)).
  { rewrite Hprobes. unfold gen_probe_list.
    rewrite gen_probe_list_loop_map, app_nil_r, Nat2Z.id. reflexivity. }
  rewrite (configure_probes_unfold NUM_PROBES sdi devc Hp).
  assert (Hok : fst (configure_probes_loop NUM_PROBES (clear_masks devc)
                       (probes sdi) 1) = SR_OK).
  { change 1 with (2 ^ Z.of_nat 0).
    apply (loop_ok NUM_PROBES NUM_PROBES_lt_64).
    - rewrite Hlist, length_map, length_seq. lia.
    - rewrite Hlist. apply Forall_forall. intros o Hin _.
      apply in_map_iff in Hin. destruct Hin as (k & <- & _).
      unfold nth_probe.
      destruct (sr_probe_new _ _ _ _) as [p|] eqn:E; [|exact I].
      destruct (sr_probe_new_fields _ _ _ _ _ E) as [_ Ht].
      cbn [trigger_well_formed]. unfold trigger_present. rewrite Ht.
      discriminate. }
  destruct (configure_probes_loop NUM_PROBES (clear_masks devc)
              (probes sdi) 1) as [ret d1] eqn:Hloop.
  cbn [fst snd] in *. subst ret.
  exists d1. split; [reflexivity|].
  change 1 with (2 ^ Z.of_nat 0) in Hloop.
  pose proof (loop_bits NUM_PROBES NUM_PROBES_lt_64 (probes sdi) _ _ 0
                ltac:(lia) Hloop) as B.
  assert (Hbit : forall (f : option sr_probe -> bool) (j : nat),
             bit_at f (probes sdi) j =
             (j <? NUM_PROBES)%nat && f (nth_probe probe_name sr_probe_new j)).
  { intros f j. unfold bit_at.
    rewrite Hlist, nth_error_map, nth_error_seq.
    destruct (Nat.ltb_spec j NUM_PROBES); reflexivity. }
  assert (Hzero : forall m : Z,
             (forall j : nat, Z.testbit m (Z.of_nat j) = false) -> m = 0).
  { intros m Hm. apply Z.bits_inj'. intros n Hn.
    rewrite Z.testbit_0_l, <- (Z2Nat.id n Hn). apply Hm. }
  split; [|split; [|split]].
  - apply Hzero. intros j. destruct (B j) as (_ & -> & _).
    rewrite Nat.sub_0_r, Hbit.
    destruct (nth_probe_bits j) as (_ & -> & _).
    cbn. now rewrite Z.testbit_0_l, andb_false_r.
  - apply Hzero. intros j. destruct (B j) as (_ & _ & -> & _).
    rewrite Nat.sub_0_r, Hbit.
    destruct (nth_probe_bits j) as (_ & _ & -> & _).
    cbn. now rewrite Z.testbit_0_l, andb_false_r.
  - apply Hzero. intros j. destruct (B j) as (_ & _ & _ & ->).
    rewrite Nat.sub_0_r, Hbit.
    destruct (nth_probe_bits j) as (_ & _ & _ & ->).
    cbn. now rewrite Z.testbit_0_l, andb_false_r.
  - intros Hall. rewrite Z.sub_1_r, <- Z.ones_equiv.
    apply Z.bits_inj'. intros n Hn.
    rewrite Z.testbit_ones_nonneg by lia.
    rewrite <- (Z2Nat.id n Hn). destruct (B (Z.to_nat n)) as (-> & _).
    rewrite Nat.sub_0_r, Hbit.
    cbn [clear_masks set_trigger_values set_trigger_edge_mask
         set_trigger_mask set_channel_mask channel_mask].
    rewrite Z.testbit_0_l. cbn [orb Nat.leb andb].
    destruct (Nat.ltb_spec (Z.to_nat n) NUM_PROBES) as [Hlt|Hge];
      destruct (Z.ltb_spec (Z.of_nat (Z.to_nat n)) (Z.of_nat NUM_PROBES));
      try lia; cbn [andb]; try reflexivity.
    destruct (nth_probe_bits (Z.to_nat n)) as (-> & _).
    specialize (Hall _ Hlt).
    destruct (nth_probe probe_name sr_probe_new (Z.to_nat n));
      [reflexivity|contradiction].
Qed.

End FreshDevice.

(** ** Further properties of the life cycle *)

Section MoreLifecycle.

Variable NUM_PROBES : nat.
Variable di_priv : option drv_context.
Variable DEFAULT_SAMPLERATE : Z.
Variable sr_usb_open : sr_usb_dev_inst -> Z * sr_usb_dev_inst.
Variable libusb_claim_interface : option libusb_device_handle -> Z.
Variable lwla_init_device : sr_dev_inst -> Z * dev_context.
Variable lwla_alloc_acquisition_state : option acquisition_state.
Variable lwla_setup_acquisition : sr_dev_inst -> Z * dev_context.
Variable lwla_start_acquisition : sr_dev_inst -> Z * dev_context.
Variable lwla_set_clock_source : sr_dev_inst -> Z * dev_context.

(** X9.  [dev_open] returns [SR_OK] only with the device in
    [SR_ST_ACTIVE]; when it returns another code the status is what it was
    or [SR_ST_INITIALIZING] (the initialisation of the hardware failed),
    so a device that was not active is active after the call exactly when
    the call returned [SR_OK].  The channel list and the fact that the
    device has a context are kept. *)
Theorem dev_open_active_iff_ok (sdi sdi' : sr_dev_inst) (ret : Z)
    (ev : list bus_event) :
  dev_open di_priv DEFAULT_SAMPLERATE sr_usb_open libusb_claim_interface
    lwla_init_device sdi = Some (ret, sdi', ev) ->
  (ret = SR_OK -> status sdi' = SR_ST_ACTIVE)
  /\ (ret <> SR_OK ->
      status sdi' = status sdi \/ status sdi' = SR_ST_INITIALIZING)
  /\ (status sdi <> SR_ST_ACTIVE ->
      (status sdi' = SR_ST_ACTIVE <-> ret = SR_OK))
  /\ probes sdi' = probes sdi
  /\ (priv sdi <> None -> priv sdi' <> None).
Proof.
  clear NUM_PROBES lwla_alloc_acquisition_state lwla_setup_acquisition
    lwla_start_acquisition lwla_set_clock_source.
  unfold dev_open. intros Hrun.
  destruct di_priv as [drvc|].
  2:{ injection Hrun as <- <- _. settle_cases. }
  destruct (sr_usb_open (conn sdi)) as [r0 usb].
  destruct (Z.eqb_spec r0 SR_OK) as [->|Hr0]; cbn [negb] in Hrun.
  2:{ injection Hrun as <- <- _. cbn [status set_conn probes priv].
      settle_cases. }
  destruct (libusb_claim_interface (devhdl usb) <? 0).
  { injection Hrun as <- <- _. cbn [status set_conn probes priv].
    settle_cases. }
  cbn [priv set_status set_conn] in Hrun.
  destruct (priv sdi) as [devc|]; [|discriminate Hrun].
  destruct (lwla_init_device _) as [r d1].
  injection Hrun as <- <- _.
  destruct (Z.eqb_spec r SR_OK) as [->|Hr];
    cbn [status set_status set_priv set_conn probes priv]; settle_cases.
Qed.

(** X10.  [dev_open] initialises the hardware only after the USB device
    is open and its interface claimed.  When the driver is not
    initialised, or one of these two steps fails, the call fails without
    calling the protocol engine and leaves the status and the context of
    the device as they were. *)
Theorem dev_open_early_failure (sdi sdi' : sr_dev_inst) (ret : Z)
    (ev : list bus_event) :
  dev_open di_priv DEFAULT_SAMPLERATE sr_usb_open libusb_claim_interface
    lwla_init_device sdi = Some (ret, sdi', ev) ->
  (In Ev_init_device ev ->
   di_priv <> None
   /\ fst (sr_usb_open (conn sdi)) = SR_OK
   /\ 0 <= libusb_claim_interface (devhdl (snd (sr_usb_open (conn sdi)))))
  /\ (~ In Ev_init_device ev ->
      ret <> SR_OK
      /\ status sdi' = status sdi
      /\ priv sdi' = priv sdi
      /\ probes sdi' = probes sdi).
Proof.
  clear NUM_PROBES lwla_alloc_acquisition_state lwla_setup_acquisition
    lwla_start_acquisition lwla_set_clock_source.
  unfold dev_open. intros Hrun.
  destruct di_priv as [drvc|].
  2:{ injection Hrun as <- <- <-. split; [intros []|].
      intros _. repeat split. discriminate. }
  destruct (sr_usb_open (conn sdi)) as [r0 usb]. cbn [fst snd].
  destruct (Z.eqb_spec r0 SR_OK) as [->|Hr0]; cbn [negb] in Hrun.
  2:{ injection Hrun as <- <- <-. split.
      - intros [E|[]]; discriminate E.
      - intros _. repeat split. exact Hr0. }
  destruct (Z.ltb_spec (libusb_claim_interface (devhdl usb)) 0) as [Hc|Hc].
  { injection Hrun as <- <- <-. split.
    - intros [E|[E|[]]]; discriminate E.
    - intros _. repeat split. discriminate. }
  cbn [priv set_status set_conn] in Hrun.
  destruct (priv sdi) as [devc|]; [|discriminate Hrun].
  destruct (lwla_init_device _) as [r d1].
  injection Hrun as <- <- <-. split.
  - intros _. repeat split; [discriminate|exact Hc].
  - intros Hn. exfalso. apply Hn. cbn. auto.
Qed.

(** X11.  Once the USB device is open and its interface claimed,
    [dev_open] hands the device to [lwla_init_device] in
    [SR_ST_INITIALIZING] with the sample rate already settled: the rate of
    the context when that is not 0, [DEFAULT_SAMPLERATE] when it is; every
    other field of the context is as it was.  The call returns what the
    initialisation returns. *)
Theorem dev_open_applies_default_rate (sdi : sr_dev_inst)
    (devc : dev_context) (drvc : drv_context) (usb : sr_usb_dev_inst) :
  di_priv = Some drvc ->
  priv sdi = Some devc ->
  sr_usb_open (conn sdi) = (SR_OK, usb) ->
  0 <= libusb_claim_interface (devhdl usb) ->
  exists seen devc_seen sdi',
    dev_open di_priv DEFAULT_SAMPLERATE sr_usb_open libusb_claim_interface
      lwla_init_device sdi =
    Some (fst (lwla_init_device seen), sdi',
          [Ev_usb_open; Ev_claim_interface (devhdl usb); Ev_init_device])
    /\ status seen = SR_ST_INITIALIZING
    /\ conn seen = usb
    /\ probes seen = probes sdi
    /\ priv seen = Some devc_seen
    /\ samplerate devc_seen =
       (if samplerate devc =? 0 then DEFAULT_SAMPLERATE else samplerate devc)
    /\ set_samplerate devc_seen (samplerate devc) = devc
    /\ priv sdi' = Some (snd (lwla_init_device seen)).
Proof.
  clear NUM_PROBES lwla_alloc_acquisition_state lwla_setup_acquisition
    lwla_start_acquisition lwla_set_clock_source.
  intros Hdrv Hp Hopen Hclaim. unfold dev_open.
  rewrite Hdrv, Hopen. cbn [Z.eqb SR_OK negb].
  destruct (Z.ltb_spec (libusb_claim_interface (devhdl usb)) 0); [lia|].
  cbn [priv set_status set_conn]. rewrite Hp.
  match goal with
  | |- context [lwla_init_device ?s] =>
      exists s; destruct (lwla_init_device s) as [r d1] eqn:E
  end.
  eexists. eexists. split; [reflexivity|].
  cbn [status conn probes priv set_priv fst snd].
  repeat split.
  - destruct (samplerate devc =? 0); reflexivity.
  - clear E Hp. destruct devc as [sr ls cs cm tm tem tv aq sp te].
    cbn [samplerate]. destruct (sr =? 0); reflexivity.
  - destruct (r =? SR_OK); reflexivity.
Qed.

(** X12.  Closing undoes opening, also an opening that failed half-way:
    when [dev_open] has returned, with whatever code, and the device holds
    a connection handle, [dev_close] returns [SR_OK], releases the
    interface and closes that handle, and leaves the device inactive
    without a handle and with its channel list. *)
Theorem open_then_close (sdi sdi1 : sr_dev_inst) (devc : dev_context)
    (drvc : drv_context) (ret : Z) (ev : list bus_event)
    (h : libusb_device_handle) :
  di_priv = Some drvc ->
  priv sdi = Some devc ->
  dev_open di_priv DEFAULT_SAMPLERATE sr_usb_open libusb_claim_interface
    lwla_init_device sdi = Some (ret, sdi1, ev) ->
  devhdl (conn sdi1) = Some h ->
  exists sdi2,
    dev_close di_priv lwla_set_clock_source sdi1 =
    Some (SR_OK, sdi2,
          [Ev_set_clock_source; Ev_release_interface h; Ev_usb_close h])
    /\ status sdi2 = SR_ST_INACTIVE
    /\ devhdl (conn sdi2) = None
    /\ probes sdi2 = probes sdi.
Proof.
  clear NUM_PROBES lwla_alloc_acquisition_state lwla_setup_acquisition
    lwla_start_acquisition.
  intros Hdrv Hp Hopen Hh.
  assert (Hkept : priv sdi1 <> None /\ probes sdi1 = probes sdi).
  { unfold dev_open in Hopen. rewrite Hdrv in Hopen.
    destruct (sr_usb_open (conn sdi)) as [r0 usb].
    destruct (negb (r0 =? SR_OK));
      [injection Hopen as _ <- _; cbn; rewrite Hp; split;
       [discriminate|reflexivity]|].
    destruct (libusb_claim_interface (devhdl usb) <? 0);
      [injection Hopen as _ <- _; cbn; rewrite Hp; split;
       [discriminate|reflexivity]|].
    cbn [priv set_status set_conn] in Hopen. rewrite Hp in Hopen.
    destruct (lwla_init_device _) as [r d1].
    injection Hopen as _ <- _.
    destruct (r =? SR_OK); cbn; split; (discriminate || reflexivity). }
  destruct Hkept as [Hp1 Hprobes].
  unfold dev_close. rewrite Hdrv, Hh.
  destruct (priv sdi1) as [devc1|]; [|contradiction].
  destruct (lwla_set_clock_source _) as [r d2].
  eexists. split; [reflexivity|]. repeat split. exact Hprobes.
Qed.

(** X13.  The shut-down of [dev_close] is best effort.  On a device with
    an open handle, whatever its status and whatever the protocol engine
    returns, the call returns [SR_OK]: the engine is called once, with the
    clock source of the context set to [CLOCK_SOURCE_NONE] and the rest of
    the device as it was; then the interface is released and the handle
    closed; the device is left inactive, without a handle, with the
    context the engine left.  No session is freed. *)
Theorem dev_close_best_effort (sdi : sr_dev_inst) (devc : dev_context)
    (drvc : drv_context) (h : libusb_device_handle) :
  di_priv = Some drvc ->
  priv sdi = Some devc ->
  devhdl (conn sdi) = Some h ->
  let seen := set_priv sdi (set_selected_clock_source devc CLOCK_SOURCE_NONE) in
  dev_close di_priv lwla_set_clock_source sdi =
  Some (SR_OK,
        {| status := SR_ST_INACTIVE;
           priv := Some (snd (lwla_set_clock_source seen));
           conn := {| devhdl := None |};
           probes := probes sdi |},
        [Ev_set_clock_source; Ev_release_interface h; Ev_usb_close h]).
Proof.
  clear NUM_PROBES lwla_alloc_acquisition_state lwla_setup_acquisition
    lwla_start_acquisition.
  intros Hdrv Hp Hh seen. unfold dev_close. rewrite Hdrv, Hp, Hh.
  fold seen. destruct (lwla_set_clock_source seen) as [r d1].
  reflexivity.
Qed.

End MoreLifecycle.

(** ** Properties of the configuration queries *)

Lemma samplerates_within_bounds :
  Forall (fun r => supported_min samplerates <= r <= supported_max samplerates)
    samplerates.
Proof. repeat constructor; cbv; discriminate. Qed.

Lemma config_set_samplerate_ok
    (lwla_set_clock_source : sr_dev_inst -> Z * dev_context)
    (sdi : sr_dev_inst) (devc : dev_context) (r : Z) :
  priv sdi = Some devc ->
  supported_min samplerates <= r <= supported_max samplerates ->
  config_set lwla_set_clock_source SR_CONF_SAMPLERATE (GV_uint64 r) sdi =
  (SR_OK, set_priv sdi (set_samplerate devc r), []).
Proof.
  intros Hp [Hlo Hhi]. unfold config_set. rewrite Hp.
  cbn [g_variant_get_uint64].
  destruct samplerates_bounds as [-> ->].
  destruct (Z.gtb_spec r (supported_max samplerates)); [lia|].
  destruct (Z.ltb_spec r (supported_min samplerates)); [lia|].
  reflexivity.
Qed.

Section MoreConfiguration.

Variable TRIGGER_TYPES : string.
Variable SR_CONF_LOGIC_ANALYZER : sr_conf_key.
Variable clock_source_rank : clock_source -> Z.
Variable lwla_set_clock_source : sr_dev_inst -> Z * dev_context.

(** X14.  What [config_set] stores, [config_get] reads back: a sample
    rate within the bounds of the table, and any sample limit (the limit
    is not validated; setting it always succeeds). *)
Theorem config_set_get_roundtrip (sdi : sr_dev_inst) (devc : dev_context) :
  priv sdi = Some devc ->
  (forall r : Z,
      supported_min samplerates <= r <= supported_max samplerates ->
      config_get clock_source_rank SR_CONF_SAMPLERATE
        (Some (snd (fst (config_set lwla_set_clock_source
                           SR_CONF_SAMPLERATE (GV_uint64 r) sdi)))) =
      Some (SR_OK, Some (GV_uint64 r)))
  /\ (forall n : Z,
         fst (fst (config_set lwla_set_clock_source
                     SR_CONF_LIMIT_SAMPLES (GV_uint64 n) sdi)) = SR_OK
         /\ config_get clock_source_rank SR_CONF_LIMIT_SAMPLES
              (Some (snd (fst (config_set lwla_set_clock_source
                                 SR_CONF_LIMIT_SAMPLES (GV_uint64 n) sdi)))) =
            Some (SR_OK, Some (GV_uint64 n))).
Proof.
  intros Hp. split.
  - intros r Hr.
    rewrite (config_set_samplerate_ok lwla_set_clock_source sdi devc r Hp Hr).
    reflexivity.
  - intros n. unfold config_set. rewrite Hp. split; reflexivity.
Qed.

(** X15.  The external clock.  With internal clock below external rising
    clock in the order of the clock sources: on a device that is not
    active, setting the external clock on or off returns [SR_OK] without a
    call to the protocol engine and [config_get] reads the same boolean
    back.  On an active device the engine is called at once with the new
    clock source in the context and its return value is the result. *)
Theorem external_clock_roundtrip (sdi : sr_dev_inst) (devc : dev_context)
    (b : bool) :
  clock_source_rank CLOCK_SOURCE_INT < clock_source_rank CLOCK_SOURCE_EXT_RISE ->
  priv sdi = Some devc ->
  let chosen := if b then CLOCK_SOURCE_EXT_RISE else CLOCK_SOURCE_INT in
  let seen := set_priv sdi (set_selected_clock_source devc chosen) in
  (status sdi <> SR_ST_ACTIVE ->
   config_set lwla_set_clock_source SR_CONF_EXTERNAL_CLOCK (GV_boolean b) sdi =
     (SR_OK, seen, [])
   /\ config_get clock_source_rank SR_CONF_EXTERNAL_CLOCK (Some seen) =
      Some (SR_OK, Some (GV_boolean b)))
  /\ (status sdi = SR_ST_ACTIVE ->
      config_set lwla_set_clock_source SR_CONF_EXTERNAL_CLOCK (GV_boolean b)
        sdi =
      (fst (lwla_set_clock_source seen),
       set_priv seen (snd (lwla_set_clock_source seen)),
       [Ev_set_clock_source])).
Proof.
  intros Hrank Hp chosen seen. unfold config_set. rewrite Hp.
  cbn [g_variant_get_boolean status set_priv]. fold chosen. fold seen.
  split.
  - intros Hst.
    destruct (sr_status_eqb (status sdi) SR_ST_ACTIVE) eqn:E;
      [apply sr_status_eqb_eq in E; contradiction|].
    split; [reflexivity|].
    unfold config_get, seen. cbn [priv set_priv selected_clock_source
      set_selected_clock_source].
    subst chosen. destruct b.
    + rewrite Z.geb_leb, Z.leb_refl. reflexivity.
    + destruct (Z.geb_spec (clock_source_rank CLOCK_SOURCE_INT)
                  (clock_source_rank CLOCK_SOURCE_EXT_RISE)); [lia|].
      reflexivity.
  - intros ->. cbn [sr_status_eqb].
    destruct (lwla_set_clock_source seen). reflexivity.
Qed.

(** X16.  A [config_set] that fails changes nothing.  It fails with
    [SR_ERR_DEV_CLOSED] (no context), [SR_ERR_SAMPLERATE] (rate out of
    bounds) or [SR_ERR_NA] (key not handled), makes no call and returns
    the device as it was; the one other failure is that of the protocol
    engine when the external clock of an active device is set. *)
Theorem config_set_failure_keeps_device (key : sr_conf_key)
    (data : GVariant) (sdi sdi' : sr_dev_inst) (ret : Z)
    (ev : list event) :
  key <> SR_CONF_EXTERNAL_CLOCK \/ status sdi <> SR_ST_ACTIVE ->
  config_set lwla_set_clock_source key data sdi = (ret, sdi', ev) ->
  ret <> SR_OK ->
  sdi' = sdi /\ ev = []
  /\ (ret = SR_ERR_DEV_CLOSED /\ priv sdi = None
      \/ ret = SR_ERR_SAMPLERATE /\ key = SR_CONF_SAMPLERATE
      \/ ret = SR_ERR_NA).
Proof.
  intros Hkey Hrun Hret. unfold config_set in Hrun.
  destruct (priv sdi) as [devc|].
  2:{ injection Hrun as <- <- <-. auto. }
  destruct key.
  - injection Hrun as <- <- <-. auto.
  - destruct (_ || _); injection Hrun as <- <- <-;
      [auto 6|contradiction].
  - injection Hrun as <- <- <-. contradiction.
  - cbn [status set_priv] in Hrun.
    destruct (sr_status_eqb (status sdi) SR_ST_ACTIVE) eqn:E.
    + apply sr_status_eqb_eq in E. destruct Hkey; contradiction.
    + injection Hrun as <- <- <-. contradiction.
  - injection Hrun as <- <- <-. auto.
  - injection Hrun as <- <- <-. auto.
Qed.

(** X17.  Setting one key does not disturb another: after [config_set]
    on a key, whether it succeeded or not, [config_get] on any other key
    answers what it answered before (the external clock of an active
    device apart, where the protocol engine rewrites the context). *)
Theorem config_set_keeps_other_keys (key1 key2 : sr_conf_key)
    (data : GVariant) (sdi : sr_dev_inst) :
  key1 <> key2 ->
  key1 <> SR_CONF_EXTERNAL_CLOCK \/ status sdi <> SR_ST_ACTIVE ->
  config_get clock_source_rank key2
    (Some (snd (fst (config_set lwla_set_clock_source key1 data sdi)))) =
  config_get clock_source_rank key2 (Some sdi).
Proof.
  intros Hne Hkey. unfold config_set.
  destruct (priv sdi) as [devc|] eqn:Hp; [|reflexivity].
  destruct key1; cbn [fst snd]; try reflexivity.
  - destruct (_ || _); cbn [fst snd]; [reflexivity|].
    destruct key2; try reflexivity; try contradiction;
      unfold config_get; cbn [priv set_priv]; rewrite Hp; reflexivity.
  - destruct key2; try reflexivity; try contradiction;
      unfold config_get; cbn [priv set_priv]; rewrite Hp; reflexivity.
  - cbn [status set_priv].
    destruct (sr_status_eqb (status sdi) SR_ST_ACTIVE) eqn:E.
    + apply sr_status_eqb_eq in E. destruct Hkey; contradiction.
    + cbn [fst snd].
      destruct key2; try reflexivity; try contradiction;
        unfold config_get; cbn [priv set_priv]; rewrite Hp; reflexivity.
Qed.

(** X18.  [config_set] never touches the status, the connection or the
    channel list of the device, and a device has a context after the call
    exactly when it had one.  Except for the external clock of an active
    device it makes no call, and the masks, the session and the two flags
    of the context are as before. *)
Theorem config_set_frame (key : sr_conf_key) (data : GVariant)
    (sdi sdi' : sr_dev_inst) (ret : Z) (ev : list event) :
  config_set lwla_set_clock_source key data sdi = (ret, sdi', ev) ->
  status sdi' = status sdi
  /\ conn sdi' = conn sdi
  /\ probes sdi' = probes sdi
  /\ (priv sdi' = None <-> priv sdi = None)
  /\ (key <> SR_CONF_EXTERNAL_CLOCK \/ status sdi <> SR_ST_ACTIVE ->
      ev = []
      /\ option_map acquisition_fields (priv sdi') =
         option_map acquisition_fields (priv sdi)).
Proof.
  intros Hrun. unfold config_set in Hrun.
  destruct (priv sdi) as [devc|] eqn:Hp.
  2:{ injection Hrun as <- <- <-. rewrite Hp. settle_cases. }
  destruct key.
  - injection Hrun as <- <- <-. rewrite Hp. settle_cases.
  - destruct (_ || _); injection Hrun as <- <- <-; cbn [priv set_priv];
      rewrite ?Hp; settle_cases.
  - injection Hrun as <- <- <-. cbn [priv set_priv]. settle_cases.
  - cbn [status set_priv] in Hrun.
    destruct (sr_status_eqb (status sdi) SR_ST_ACTIVE) eqn:E.
    + apply sr_status_eqb_eq in E.
      destruct (lwla_set_clock_source _) as [r d1].
      injection Hrun as <- <- <-. cbn [priv set_priv status conn probes].
      settle_cases;
        match goal with
        | H : _ \/ _ |- _ => destruct H; contradiction
        end.
    + injection Hrun as <- <- <-. cbn [priv set_priv status conn probes].
      settle_cases.
  - injection Hrun as <- <- <-. rewrite Hp. settle_cases.
  - injection Hrun as <- <- <-. rewrite Hp. settle_cases.
Qed.

(** X19.  Every sample rate [config_list] advertises can be set: for any
    rate of the list it gives for [SR_CONF_SAMPLERATE], [config_set]
    returns [SR_OK] and [config_get] reads that rate back. *)
Theorem advertised_rates_are_settable (sdi : sr_dev_inst)
    (devc : dev_context) :
  priv sdi = Some devc ->
  exists rates,
    config_list TRIGGER_TYPES SR_CONF_LOGIC_ANALYZER SR_CONF_SAMPLERATE =
      (SR_OK, Some (CL_samplerates rates))
    /\ rates <> []
    /\ forall r : Z,
        In r rates ->
        fst (fst (config_set lwla_set_clock_source SR_CONF_SAMPLERATE
                    (GV_uint64 r) sdi)) = SR_OK
        /\ config_get clock_source_rank SR_CONF_SAMPLERATE
             (Some (snd (fst (config_set lwla_set_clock_source
                                SR_CONF_SAMPLERATE (GV_uint64 r) sdi)))) =
           Some (SR_OK, Some (GV_uint64 r)).
Proof.
  intros Hp. exists samplerates.
  split; [reflexivity|]. split; [discriminate|].
  intros r Hin.
  pose proof (proj1 (Forall_forall _ _) samplerates_within_bounds r Hin) as Hr.
  rewrite (config_set_samplerate_ok lwla_set_clock_source sdi devc r Hp Hr).
  split; reflexivity.
Qed.

(** X20.  The options [config_list] advertises cover what the driver
    handles: every key that [config_set] or [config_get] does not answer
    with [SR_ERR_NA], and every key other than the option list itself that
    [config_list] answers, is in the list given for
    [SR_CONF_DEVICE_OPTIONS]. *)
Theorem advertised_options_cover_keys (key : sr_conf_key) :
  exists options,
    config_list TRIGGER_TYPES SR_CONF_LOGIC_ANALYZER SR_CONF_DEVICE_OPTIONS =
      (SR_OK, Some (CL_int32_array options))
    /\ (forall (data : GVariant) (sdi : sr_dev_inst),
           priv sdi <> None ->
           fst (fst (config_set lwla_set_clock_source key data sdi))
             <> SR_ERR_NA ->
           In key options)
    /\ (forall (sdi : sr_dev_inst) (ret : Z) (v : option GVariant),
           config_get clock_source_rank key (Some sdi) = Some (ret, v) ->
           ret <> SR_ERR_NA ->
           In key options)
    /\ (key <> SR_CONF_DEVICE_OPTIONS ->
        fst (config_list TRIGGER_TYPES SR_CONF_LOGIC_ANALYZER key)
          <> SR_ERR_NA ->
        In key options).
Proof.
  eexists. split; [reflexivity|]. unfold hwcaps.
  split; [|split].
  - intros data sdi Hp. unfold config_set.
    destruct (priv sdi); [|contradiction].
    destruct key; cbn; intros H; auto 6; contradiction.
  - intros sdi ret v. unfold config_get.
    destruct key; cbn; intros H Hr; auto 6;
      injection H as <- _; contradiction.
  - intros Hk. destruct key; cbn; intros H; auto 6; contradiction.
Qed.

End MoreConfiguration.

(** ** Further properties of the acquisition *)

(** The device [configure_probes] returns is the device it got with other
    masks in its context. *)
Lemma configure_probes_result (NUM_PROBES : nat) (sdi sdi' : sr_dev_inst)
    (devc : dev_context) (ret : Z) :
  priv sdi = Some devc ->
  configure_probes NUM_PROBES sdi = Some (ret, sdi') ->
  exists m, sdi' = set_priv sdi (with_masks devc m).
Proof.
  intros Hp Hrun. unfold configure_probes in Hrun. rewrite Hp in Hrun.
  change (clear_masks devc) with (with_masks devc (clear_masks devc)) in Hrun.
  rewrite loop_with_masks in Hrun.
  injection Hrun as _ <-. eexists. reflexivity.
Qed.

Lemma configure_probes_ret (NUM_PROBES : nat) (sdi sdi' : sr_dev_inst)
    (ret : Z) :
  configure_probes NUM_PROBES sdi = Some (ret, sdi') ->
  ret = SR_OK \/ ret = SR_ERR.
Proof.
  unfold configure_probes. destruct (priv sdi) as [devc|]; [|discriminate].
  pose proof (loop_ret NUM_PROBES (probes sdi) (clear_masks devc) 1) as H.
  destruct (configure_probes_loop _ _ _ _) as [r d].
  intros E. injection E as <- _. exact H.
Qed.

Section MoreAcquisition.

Variable NUM_PROBES : nat.
Variable di_priv : option drv_context.
Variable lwla_alloc_acquisition_state : option acquisition_state.
Variable lwla_setup_acquisition : sr_dev_inst -> Z * dev_context.
Variable lwla_start_acquisition : sr_dev_inst -> Z * dev_context.
Variable lwla_set_clock_source : sr_dev_inst -> Z * dev_context.

(** X21.  A start that fails leaves no trace of a session.  Whatever the
    reason of the failure, the status, the connection and the channel list
    are as before and the session slot of the context holds what it held;
    a session that was allocated is freed by the last call made; the
    device is neither registered with the event loop nor is a header sent;
    and when no session was allocated the device is returned untouched. *)
Theorem start_failure_leaves_no_session (sdi sdi' : sr_dev_inst) (ret : Z)
    (ev : list event) :
  dev_acquisition_start NUM_PROBES di_priv lwla_alloc_acquisition_state
    lwla_setup_acquisition lwla_start_acquisition sdi =
  Some (ret, sdi', ev) ->
  ret <> SR_OK ->
  status sdi' = status sdi
  /\ conn sdi' = conn sdi
  /\ probes sdi' = probes sdi
  /\ option_map acquisition (priv sdi') = option_map acquisition (priv sdi)
  /\ (forall a,
         In (Ev_alloc_acquisition_state (Some a)) ev ->
         last ev Ev_send_df_header = Ev_free_acquisition_state a)
  /\ ~ In Ev_usb_source_add ev
  /\ ~ In Ev_send_df_header ev
  /\ ((forall a, ~ In (Ev_alloc_acquisition_state (Some a)) ev) ->
      sdi' = sdi).
Proof.
  clear lwla_set_clock_source.
  intros Hrun Hret. unfold dev_acquisition_start in Hrun.
  destruct (negb _).
  { injection Hrun as _ <- <-. settle_cases. }
  destruct (priv sdi) as [devc|] eqn:Hp; [|discriminate Hrun].
  destruct (acquisition devc) eqn:Hacq.
  { injection Hrun as _ <- <-. settle_cases. }
  destruct lwla_alloc_acquisition_state as [a|].
  2:{ injection Hrun as _ <- <-. settle_cases. }
  destruct (configure_probes _ _) as [[r cfg]|] eqn:Hcfg;
    [|discriminate Hrun].
  eapply configure_probes_result in Hcfg; [|reflexivity].
  destruct Hcfg as [m ->].
  cbn [priv set_priv] in Hrun.
  assert (Hev : forall (mid : list event) (a' : acquisition_state),
             In (Ev_alloc_acquisition_state (Some a'))
               (Ev_alloc_acquisition_state (Some a) :: mid) ->
             ~ In (Ev_alloc_acquisition_state (Some a')) mid ->
             a' = a).
  { intros mid a' [E|E] Hn; [injection E as ->; reflexivity|contradiction]. }
  destruct (negb (r =? SR_OK)).
  { injection Hrun as _ <- <-. cbn [status conn probes priv set_priv].
    cbn. rewrite ?Hacq.
    repeat split; try reflexivity.
    - intros a' [E|[E|[]]]; [injection E as ->; reflexivity|discriminate E].
    - intros [E|[E|[]]]; discriminate E.
    - intros [E|[E|[]]]; discriminate E.
    - intros Hn. exfalso. apply (Hn a). left. reflexivity. }
  destruct (lwla_setup_acquisition _) as [r1 d1].
  destruct (negb (r1 =? SR_OK)).
  { injection Hrun as _ <- <-. cbn [status conn probes priv set_priv].
    cbn. rewrite ?Hacq.
    repeat split; try reflexivity.
    - intros a' [E|[E|[E|[]]]];
        [injection E as ->; reflexivity|discriminate E|discriminate E].
    - intros [E|[E|[E|[]]]]; discriminate E.
    - intros [E|[E|[E|[]]]]; discriminate E.
    - intros Hn. exfalso. apply (Hn a). left. reflexivity. }
  destruct (lwla_start_acquisition _) as [r2 d2].
  destruct (negb (r2 =? SR_OK)).
  { injection Hrun as _ <- <-. cbn [status conn probes priv set_priv].
    cbn. rewrite ?Hacq.
    repeat split; try reflexivity.
    - intros a' [E|[E|[E|[E|[]]]]];
        [injection E as ->; reflexivity|discriminate E..].
    - intros [E|[E|[E|[E|[]]]]]; discriminate E.
    - intros [E|[E|[E|[E|[]]]]]; discriminate E.
    - intros Hn. exfalso. apply (Hn a). left. reflexivity. }
  destruct di_priv; [|discriminate Hrun].
  injection Hrun as <- _ _. contradiction.
Qed.

(** X22.  A start succeeds only along one path.  When
    [dev_acquisition_start] returns [SR_OK] the device was active and
    held no session, the allocation gave a session, the channel list
    compiled, and both engine steps returned [SR_OK]; the set-up step got
    the device with that session attached, both flags cleared and the
    compiled masks; the calls made are, in this order, allocation, set-up,
    start, registration with the event loop, header; and the status is
    still [SR_ST_ACTIVE]. *)
Theorem start_success_path (sdi sdi' : sr_dev_inst) (ev : list event) :
  dev_acquisition_start NUM_PROBES di_priv lwla_alloc_acquisition_state
    lwla_setup_acquisition lwla_start_acquisition sdi =
  Some (SR_OK, sdi', ev) ->
  exists devc a cfg devc_cfg,
    status sdi = SR_ST_ACTIVE
    /\ priv sdi = Some devc
    /\ acquisition devc = None
    /\ lwla_alloc_acquisition_state = Some a
    /\ configure_probes NUM_PROBES
         (set_priv sdi
            (set_transfer_error (set_stopping_in_progress devc false) false))
       = Some (SR_OK, cfg)
    /\ priv cfg = Some devc_cfg
    /\ acquisition devc_cfg = None
    /\ stopping_in_progress devc_cfg = false
    /\ transfer_error devc_cfg = false
    /\ (let armed := set_priv cfg (set_acquisition devc_cfg (Some a)) in
        let started := set_priv cfg (snd (lwla_setup_acquisition armed)) in
        fst (lwla_setup_acquisition armed) = SR_OK
        /\ fst (lwla_start_acquisition started) = SR_OK
        /\ sdi' = set_priv cfg (snd (lwla_start_acquisition started)))
    /\ ev = [Ev_alloc_acquisition_state (Some a); Ev_setup_acquisition;
             Ev_start_acquisition; Ev_usb_source_add; Ev_send_df_header]
    /\ status sdi' = SR_ST_ACTIVE
    /\ di_priv <> None.
Proof.
  clear lwla_set_clock_source.
  intros Hrun. unfold dev_acquisition_start in Hrun.
  destruct (sr_status_eqb (status sdi) SR_ST_ACTIVE) eqn:Hst;
    cbn [negb] in Hrun; [|discriminate Hrun].
  apply sr_status_eqb_eq in Hst.
  destruct (priv sdi) as [devc|] eqn:Hp; [|discriminate Hrun].
  destruct (acquisition devc) eqn:Hacq; [discriminate Hrun|].
  destruct lwla_alloc_acquisition_state as [a|]; [|discriminate Hrun].
  destruct (configure_probes _ _) as [[r cfg]|] eqn:Hcfg;
    [|discriminate Hrun].
  destruct (Z.eqb_spec r SR_OK) as [->|Hr]; cbn [negb] in Hrun.
  2:{ injection Hrun as E _ _. contradiction. }
  pose proof Hcfg as Hres.
  eapply configure_probes_result in Hres; [|reflexivity].
  destruct Hres as [m Hres].
  assert (Hpc : priv cfg = Some
            (with_masks
               (set_transfer_error (set_stopping_in_progress devc false) false)
               m)) by (rewrite Hres; reflexivity).
  rewrite Hpc in Hrun.
  destruct (lwla_setup_acquisition _) as [r1 d1] eqn:Esetup.
  destruct (Z.eqb_spec r1 SR_OK) as [->|Hr1]; cbn [negb] in Hrun.
  2:{ injection Hrun as E _ _. contradiction. }
  destruct (lwla_start_acquisition _) as [r2 d2] eqn:Estart.
  destruct (Z.eqb_spec r2 SR_OK) as [->|Hr2]; cbn [negb] in Hrun.
  2:{ injection Hrun as E _ _. contradiction. }
  destruct di_priv as [drvc|]; [|discriminate Hrun].
  injection Hrun as <- <-.
  exists devc, a, cfg. eexists.
  split; [exact Hst|]. split; [reflexivity|]. split; [exact Hacq|].
  split; [reflexivity|]. split; [exact Hcfg|]. split; [exact Hpc|].
  split; [exact Hacq|]. split; [reflexivity|]. split; [reflexivity|].
  split.
  - cbn zeta. rewrite Esetup. cbn [fst snd]. rewrite Estart. cbn [fst snd].
    repeat split.
  - split; [reflexivity|]. split; [|discriminate].
    rewrite Hres. exact Hst.
Qed.

(** X23.  After a stop that succeeded the device is in [SR_ST_STOPPING]
    and the driver accepts neither a second stop nor a start: both return
    [SR_ERR_DEV_CLOSED], make no call and change nothing.  It can still be
    closed: [dev_close] on it returns [SR_OK] and leaves it inactive. *)
Theorem stopping_device_refuses_start_and_stop (sdi : sr_dev_inst)
    (devc : dev_context) (drvc : drv_context) (h : libusb_device_handle) :
  status sdi = SR_ST_ACTIVE ->
  di_priv = Some drvc ->
  priv sdi = Some devc ->
  devhdl (conn sdi) = Some h ->
  exists stopping,
    dev_acquisition_stop sdi = (SR_OK, stopping, [])
    /\ dev_acquisition_stop stopping = (SR_ERR_DEV_CLOSED, stopping, [])
    /\ dev_acquisition_start NUM_PROBES di_priv lwla_alloc_acquisition_state
         lwla_setup_acquisition lwla_start_acquisition stopping =
       Some (SR_ERR_DEV_CLOSED, stopping, [])
    /\ exists closed ev,
        dev_close di_priv lwla_set_clock_source stopping =
          Some (SR_OK, closed, ev)
        /\ status closed = SR_ST_INACTIVE
        /\ devhdl (conn closed) = None.
Proof.
  intros Hst Hdrv Hp Hh.
  unfold dev_acquisition_stop at 1. rewrite Hst. cbn [sr_status_eqb negb].
  eexists. split; [reflexivity|].
  split; [reflexivity|]. split; [reflexivity|].
  unfold dev_close. rewrite Hdrv. cbn [conn set_status priv]. rewrite Hh, Hp.
  destruct (lwla_set_clock_source _) as [r d1].
  eexists. eexists. split; [reflexivity|]. split; reflexivity.
Qed.

End MoreAcquisition.

Section MoreAcquisitionLimit.

Variable NUM_PROBES : nat.
Hypothesis NUM_PROBES_lt_64 : (NUM_PROBES < 64)%nat.
Variable di_priv : option drv_context.
Variable lwla_alloc_acquisition_state : option acquisition_state.
Variable lwla_setup_acquisition : sr_dev_inst -> Z * dev_context.
Variable lwla_start_acquisition : sr_dev_inst -> Z * dev_context.

(** X24.  A channel list that does not compile is rejected before the
    hardware is touched.  On an active device without a session, when the
    list has more than [NUM_PROBES] entries or an enabled entry has a
    trigger that is not a single supported symbol, the start returns
    [SR_ERR]; the only calls made are the allocation of the session and
    its release; neither engine step is called; the context holds no
    session and has both flags cleared. *)
Theorem start_rejects_bad_channel_list (sdi : sr_dev_inst)
    (devc : dev_context) (a : acquisition_state) :
  status sdi = SR_ST_ACTIVE ->
  priv sdi = Some devc ->
  acquisition devc = None ->
  lwla_alloc_acquisition_state = Some a ->
  ~ ((List.length (probes sdi) <= NUM_PROBES)%nat
     /\ Forall (fun o => chan_bit o = true -> trigger_well_formed o)
          (probes sdi)) ->
  exists sdi' devc',
    dev_acquisition_start NUM_PROBES di_priv lwla_alloc_acquisition_state
      lwla_setup_acquisition lwla_start_acquisition sdi =
    Some (SR_ERR, sdi',
          [Ev_alloc_acquisition_state (Some a); Ev_free_acquisition_state a])
    /\ priv sdi' = Some devc'
    /\ acquisition devc' = None
    /\ stopping_in_progress devc' = false
    /\ transfer_error devc' = false
    /\ status sdi' = SR_ST_ACTIVE.
Proof.
  intros Hst Hp Hacq Halloc Hbad.
  unfold dev_acquisition_start.
  rewrite Hst, Hp, Hacq, Halloc. cbn [sr_status_eqb negb].
  set (flagged := set_priv sdi
         (set_transfer_error (set_stopping_in_progress devc false) false)).
  destruct (configure_probes NUM_PROBES flagged) as [[r cfg]|] eqn:Hcfg.
  2:{ unfold configure_probes, flagged in Hcfg. cbn [priv set_priv] in Hcfg.
      destruct (configure_probes_loop _ _ _ _). discriminate Hcfg. }
  assert (Hr : r = SR_ERR).
  { destruct (configure_probes_ret _ _ _ _ Hcfg) as [-> | ->]; [|reflexivity].
    exfalso. apply Hbad.
    pose proof (proj1 (configure_probes_loop_ok_iff NUM_PROBES
                         NUM_PROBES_lt_64 (probes sdi)
                         (clear_masks
                            (set_transfer_error
                               (set_stopping_in_progress devc false) false))))
      as Hiff.
    apply Hiff.
    unfold configure_probes, flagged in Hcfg. cbn [priv set_priv probes] in Hcfg.
    destruct (configure_probes_loop _ _ _ _) as [r0 d0].
    injection Hcfg as -> _. reflexivity. }
  subst r. cbn [Z.eqb SR_ERR SR_OK negb].
  eapply configure_probes_result in Hcfg; [|reflexivity].
  destruct Hcfg as [m ->].
  eexists.
  exists (with_masks
            (set_transfer_error (set_stopping_in_progress devc false) false)
            m).
  split; [reflexivity|].
  cbn. rewrite Hacq, Hst. repeat split.
Qed.

End MoreAcquisitionLimit.

(** ** Instances of the further properties *)

Lemma configure_probes_ok_iff_witness :
  (3 < 64)%nat
  /\ exists ret sdi',
      configure_probes 3 active_sdi = Some (ret, sdi')
      /\ (ret = SR_OK \/ ret = SR_ERR)
      /\ (ret = SR_OK <->
          (List.length (probes active_sdi) <= 3)%nat
          /\ Forall (fun o => chan_bit o = true -> trigger_well_formed o)
               (probes active_sdi)).
Proof.
  assert (H64 : (3 < 64)%nat) by lia.
  split; [exact H64|].
  exact (configure_probes_ok_iff 3 H64 active_sdi fresh_devc eq_refl).
Defined.

Lemma compiled_mask_bits_witness :
  configure_probes 3 active_sdi =
    Some (SR_OK, set_priv active_sdi scenario_devc)
  /\ Z.testbit (channel_mask scenario_devc) 1 =
     bit_at chan_bit (probes active_sdi) 1
  /\ Z.testbit (trigger_mask scenario_devc) 1 =
     bit_at trig_bit (probes active_sdi) 1.
Proof.
  assert (H64 : (3 < 64)%nat) by lia.
  assert (Hrun : configure_probes 3 active_sdi =
                 Some (SR_OK, set_priv active_sdi scenario_devc))
    by reflexivity.
  split; [exact Hrun|].
  destruct (compiled_mask_bits 3 H64 active_sdi
              (set_priv active_sdi scenario_devc) scenario_devc
              Hrun eq_refl 1%nat) as (Hc & Ht & _).
  exact (conj Hc Ht).
Defined.

Lemma configure_probes_masks_nested_witness :
  configure_probes 3 over_limit_sdi =
    Some (SR_ERR, set_priv over_limit_sdi (with_masks used_devc scenario_devc))
  /\ 0 <= channel_mask (with_masks used_devc scenario_devc) < 2 ^ Z.of_nat 3
  /\ Z.land (trigger_values (with_masks used_devc scenario_devc))
       (trigger_mask (with_masks used_devc scenario_devc)) =
     trigger_values (with_masks used_devc scenario_devc).
Proof.
  assert (H64 : (3 < 64)%nat) by lia.
  assert (Hrun : configure_probes 3 over_limit_sdi =
                 Some (SR_ERR,
                       set_priv over_limit_sdi
                         (with_masks used_devc scenario_devc)))
    by reflexivity.
  split; [exact Hrun|].
  destruct (configure_probes_masks_nested 3 H64 over_limit_sdi
              (set_priv over_limit_sdi (with_masks used_devc scenario_devc))
              (with_masks used_devc scenario_devc) SR_ERR Hrun eq_refl)
    as (Hc & _ & _ & _ & _ & Hv & _).
  exact (conj Hc Hv).
Defined.

Lemma configure_probes_writes_masks_only_witness :
  exists devc',
    priv (set_priv over_limit_sdi (with_masks used_devc scenario_devc)) =
      Some devc'
    /\ samplerate devc' = samplerate used_devc
    /\ acquisition devc' = acquisition used_devc.
Proof.
  assert (Hrun : configure_probes 3 over_limit_sdi =
                 Some (SR_ERR,
                       set_priv over_limit_sdi
                         (with_masks used_devc scenario_devc)))
    by reflexivity.
  destruct (configure_probes_writes_masks_only 3 over_limit_sdi
              (set_priv over_limit_sdi (with_masks used_devc scenario_devc))
              used_devc SR_ERR eq_refl Hrun)
    as (devc' & Hp & _ & _ & _ & Hs & _ & _ & Ha & _).
  exists devc'. exact (conj Hp (conj Hs Ha)).
Defined.

Lemma gen_probe_list_in_order_witness :
  nth_error (gen_probe_list sample_probe_name sample_probe_new 34) 33 =
  Some (sample_probe_new 33 SR_PROBE_LOGIC true
          (sample_probe_name (33 + 1))).
Proof.
  apply (proj1 (proj2 (gen_probe_list_in_order sample_probe_name
                         sample_probe_new 34)) 33%nat).
  simpl. lia.
Defined.

Lemma scan_registers_found_devices_witness :
  exists devices,
    scan 3 (Some sample_drvc) sample_probe_name sample_probe_new
      sample_nodes =
    Some (devices, devices, flat_map node_released sample_nodes)
    /\ devices =
       map (fun n =>
              scanned_sdi 3 sample_probe_name sample_probe_new (node_usb n))
         (filter node_registered sample_nodes)
    /\ (List.length devices <= List.length sample_nodes)%nat.
Proof.
  exact (scan_registers_found_devices 3 (Some sample_drvc) sample_probe_name
           sample_probe_new
           sample_drvc sample_nodes eq_refl).
Defined.

Lemma scanned_device_is_closed_witness :
  status scanned_sample = SR_ST_INACTIVE
  /\ dev_acquisition_stop scanned_sample =
     (SR_ERR_DEV_CLOSED, scanned_sample, []).
Proof.
  destruct (scanned_device_is_closed 3 (Some sample_drvc) sample_probe_name
              sample_probe_new
              sample_nodes [scanned_sample] [scanned_sample]
              (flat_map node_released sample_nodes) scanned_sample
              (Some sample_acq) (engine_returns SR_OK) (engine_returns SR_OK)
              eq_refl (or_introl eq_refl))
    as (Hst & _ & _ & _ & Hstop).
  exact (conj Hst Hstop).
Defined.

Lemma scanned_probe_list_compiles_witness :
  exists devc',
    configure_probes 3 scanned_sample =
      Some (SR_OK, set_priv scanned_sample devc')
    /\ trigger_mask devc' = 0
    /\ channel_mask devc' = 2 ^ Z.of_nat 3 - 1.
Proof.
  assert (H64 : (3 < 64)%nat) by lia.
  assert (Hnew : forall (idx : Z) (ty : sr_probe_type) (en : bool)
                        (nm : string) (p : sr_probe),
             sample_probe_new idx ty en nm = Some p ->
             enabled p = en /\ trigger p = None).
  { intros idx ty en nm p E. injection E as <-. split; reflexivity. }
  destruct (scanned_probe_list_compiles 3 H64 sample_probe_name
              sample_probe_new Hnew
              scanned_sample fresh_devc eq_refl eq_refl)
    as (devc' & Hrun & Ht & _ & _ & Hc).
  exists devc'. split; [exact Hrun|]. split; [exact Ht|].
  apply Hc. intros k _. discriminate.
Defined.

Lemma dev_open_active_iff_ok_witness :
  exists sdi' ev,
    dev_open (Some sample_drvc) (SR_MHZ 125) sample_usb_open
      sample_claim_interface (engine_returns SR_OK) scanned_sample =
    Some (SR_OK, sdi', ev)
    /\ status sdi' = SR_ST_ACTIVE.
Proof.
  eexists. eexists. split; [reflexivity|].
  refine (proj1 (dev_open_active_iff_ok (Some sample_drvc) (SR_MHZ 125)
                   sample_usb_open sample_claim_interface
                   (engine_returns SR_OK) scanned_sample _ SR_OK _ eq_refl)
            eq_refl).
Defined.

Lemma dev_open_early_failure_witness :
  dev_open None (SR_MHZ 125) sample_usb_open sample_claim_interface
    (engine_returns SR_OK) scanned_sample =
  Some (SR_ERR, scanned_sample, [])
  /\ SR_ERR <> SR_OK
  /\ status scanned_sample = status scanned_sample
  /\ priv scanned_sample = priv scanned_sample
  /\ probes scanned_sample = probes scanned_sample.
Proof.
  split; [reflexivity|].
  refine (proj2 (dev_open_early_failure None (SR_MHZ 125)
                   sample_usb_open sample_claim_interface
                   (engine_returns SR_OK) scanned_sample scanned_sample
                   SR_ERR [] eq_refl) _).
  intros [].
Defined.

Lemma dev_open_applies_default_rate_witness :
  exists seen devc_seen sdi',
    dev_open (Some sample_drvc) (SR_MHZ 125) sample_usb_open
      sample_claim_interface (engine_returns SR_OK) scanned_sample =
    Some (fst (engine_returns SR_OK seen), sdi',
          [Ev_usb_open; Ev_claim_interface (Some sample_hdl); Ev_init_device])
    /\ status seen = SR_ST_INITIALIZING
    /\ priv seen = Some devc_seen
    /\ samplerate devc_seen = SR_MHZ 125.
Proof.
  destruct (dev_open_applies_default_rate (Some sample_drvc) (SR_MHZ 125)
              sample_usb_open sample_claim_interface (engine_returns SR_OK)
              scanned_sample fresh_devc sample_drvc
              {| devhdl := Some sample_hdl |} eq_refl eq_refl eq_refl
              ltac:(unfold sample_claim_interface; lia))
    as (seen & devc_seen & sdi' & Hrun & Hst & _ & _ & Hp & Hrate & _).
  exists seen, devc_seen, sdi'.
  exact (conj Hrun (conj Hst (conj Hp Hrate))).
Defined.

Lemma open_then_close_witness :
  exists sdi2,
    dev_close (Some sample_drvc) (engine_returns SR_ERR)
      (set_priv
         (set_status
            (set_conn scanned_sample {| devhdl := Some sample_hdl |})
            SR_ST_INITIALIZING)
         (set_samplerate fresh_devc (SR_MHZ 125))) =
    Some (SR_OK, sdi2,
          [Ev_set_clock_source; Ev_release_interface sample_hdl;
           Ev_usb_close sample_hdl])
    /\ status sdi2 = SR_ST_INACTIVE
    /\ devhdl (conn sdi2) = None
    /\ probes sdi2 = probes scanned_sample.
Proof.
  apply (open_then_close (Some sample_drvc) (SR_MHZ 125) sample_usb_open
           sample_claim_interface (engine_returns SR_ERR)
           (engine_returns SR_ERR) scanned_sample _ fresh_devc sample_drvc
           SR_ERR
           [Ev_usb_open; Ev_claim_interface (Some sample_hdl); Ev_init_device]
           sample_hdl eq_refl eq_refl);
    reflexivity.
Defined.

Lemma dev_close_best_effort_witness :
  dev_close (Some sample_drvc) (engine_returns SR_ERR) stopping_sdi =
  Some (SR_OK,
        {| status := SR_ST_INACTIVE;
           priv := Some (set_selected_clock_source
                           (set_acquisition fresh_devc (Some sample_acq))
                           CLOCK_SOURCE_NONE);
           conn := {| devhdl := None |};
           probes := scenario_probes |},
        [Ev_set_clock_source; Ev_release_interface sample_hdl;
         Ev_usb_close sample_hdl]).
Proof.
  exact (dev_close_best_effort (Some sample_drvc) (engine_returns SR_ERR)
           stopping_sdi (set_acquisition fresh_devc (Some sample_acq))
           sample_drvc sample_hdl eq_refl eq_refl eq_refl).
Defined.

Lemma config_set_get_roundtrip_witness :
  config_get sample_clock_rank SR_CONF_SAMPLERATE
    (Some (snd (fst (config_set (engine_returns SR_OK) SR_CONF_SAMPLERATE
                       (GV_uint64 150) closed_sdi)))) =
  Some (SR_OK, Some (GV_uint64 150)).
Proof.
  apply (proj1 (config_set_get_roundtrip sample_clock_rank
                  (engine_returns SR_OK) closed_sdi fresh_devc eq_refl) 150).
  cbv. split; discriminate.
Defined.

Lemma external_clock_roundtrip_witness :
  config_set (engine_returns SR_OK) SR_CONF_EXTERNAL_CLOCK (GV_boolean true)
    closed_sdi =
    (SR_OK,
     set_priv closed_sdi
       (set_selected_clock_source fresh_devc CLOCK_SOURCE_EXT_RISE), [])
  /\ config_get sample_clock_rank SR_CONF_EXTERNAL_CLOCK
       (Some (set_priv closed_sdi
                (set_selected_clock_source fresh_devc CLOCK_SOURCE_EXT_RISE)))
     = Some (SR_OK, Some (GV_boolean true)).
Proof.
  apply (proj1 (external_clock_roundtrip sample_clock_rank
                  (engine_returns SR_OK) closed_sdi fresh_devc true
                  ltac:(cbn; lia) eq_refl)).
  simpl. discriminate.
Defined.

Lemma config_set_failure_keeps_device_witness :
  config_set (engine_returns SR_OK) SR_CONF_SAMPLERATE (GV_uint64 99)
    active_sdi = (SR_ERR_SAMPLERATE, active_sdi, [])
  /\ active_sdi = active_sdi /\ @nil event = []
  /\ (SR_ERR_SAMPLERATE = SR_ERR_DEV_CLOSED /\ priv active_sdi = None
      \/ SR_ERR_SAMPLERATE = SR_ERR_SAMPLERATE
         /\ SR_CONF_SAMPLERATE = SR_CONF_SAMPLERATE
      \/ SR_ERR_SAMPLERATE = SR_ERR_NA).
Proof.
  split; [reflexivity|].
  apply (config_set_failure_keeps_device (engine_returns SR_OK)
           SR_CONF_SAMPLERATE (GV_uint64 99) active_sdi active_sdi
           SR_ERR_SAMPLERATE []).
  - left. discriminate.
  - reflexivity.
  - discriminate.
Defined.

Lemma config_set_keeps_other_keys_witness :
  config_get sample_clock_rank SR_CONF_LIMIT_SAMPLES
    (Some (snd (fst (config_set (engine_returns SR_OK) SR_CONF_SAMPLERATE
                       (GV_uint64 150) active_sdi)))) =
  config_get sample_clock_rank SR_CONF_LIMIT_SAMPLES (Some active_sdi).
Proof.
  apply (config_set_keeps_other_keys sample_clock_rank (engine_returns SR_OK)
           SR_CONF_SAMPLERATE SR_CONF_LIMIT_SAMPLES (GV_uint64 150) active_sdi).
  - discriminate.
  - left. discriminate.
Defined.

Lemma config_set_frame_witness :
  status (set_priv busy_sdi
            (set_limit_samples
               (set_acquisition fresh_devc (Some sample_acq)) 1000)) =
    status busy_sdi
  /\ @nil event = []
  /\ option_map acquisition_fields
       (priv (set_priv busy_sdi
                (set_limit_samples
                   (set_acquisition fresh_devc (Some sample_acq)) 1000))) =
     option_map acquisition_fields (priv busy_sdi).
Proof.
  destruct (config_set_frame (engine_returns SR_OK) SR_CONF_LIMIT_SAMPLES
              (GV_uint64 1000) busy_sdi
              (set_priv busy_sdi
                 (set_limit_samples
                    (set_acquisition fresh_devc (Some sample_acq)) 1000))
              SR_OK [] eq_refl)
    as (Hst & _ & _ & _ & Hrest).
  split; [exact Hst|].
  apply Hrest. left. discriminate.
Defined.

Lemma advertised_rates_are_settable_witness :
  exists rates,
    config_list "01fr" (SR_CONF_other 10000) SR_CONF_SAMPLERATE =
      (SR_OK, Some (CL_samplerates rates))
    /\ rates <> []
    /\ forall r : Z,
        In r rates ->
        fst (fst (config_set (engine_returns SR_OK) SR_CONF_SAMPLERATE
                    (GV_uint64 r) closed_sdi)) = SR_OK
        /\ config_get sample_clock_rank SR_CONF_SAMPLERATE
             (Some (snd (fst (config_set (engine_returns SR_OK)
                                SR_CONF_SAMPLERATE (GV_uint64 r)
                                closed_sdi)))) =
           Some (SR_OK, Some (GV_uint64 r)).
Proof.
  exact (advertised_rates_are_settable "01fr" (SR_CONF_other 10000)
           sample_clock_rank (engine_returns SR_OK) closed_sdi fresh_devc
           eq_refl).
Defined.

Lemma advertised_options_cover_keys_witness :
  In SR_CONF_LIMIT_SAMPLES (hwcaps (SR_CONF_other 10000)).
Proof.
  destruct (advertised_options_cover_keys "01fr" (SR_CONF_other 10000)
              sample_clock_rank (engine_returns SR_OK) SR_CONF_LIMIT_SAMPLES)
    as (options & Hlist & Hset & _).
  injection Hlist as <-.
  apply (Hset (GV_uint64 5) closed_sdi); discriminate.
Defined.

Lemma start_failure_leaves_no_session_witness :
  dev_acquisition_start 3 (Some sample_drvc) (Some sample_acq)
    (engine_returns SR_ERR) (engine_returns SR_OK) active_sdi =
    Some (SR_ERR, set_priv active_sdi scenario_devc,
          [Ev_alloc_acquisition_state (Some sample_acq);
           Ev_setup_acquisition; Ev_free_acquisition_state sample_acq])
  /\ option_map acquisition (priv (set_priv active_sdi scenario_devc)) =
     option_map acquisition (priv active_sdi).
Proof.
  assert (Hrun : dev_acquisition_start 3 (Some sample_drvc) (Some sample_acq)
                   (engine_returns SR_ERR) (engine_returns SR_OK) active_sdi =
                 Some (SR_ERR, set_priv active_sdi scenario_devc,
                       [Ev_alloc_acquisition_state (Some sample_acq);
                        Ev_setup_acquisition;
                        Ev_free_acquisition_state sample_acq]))
    by (vm_compute; reflexivity).
  split; [exact Hrun|].
  destruct (start_failure_leaves_no_session 3 (Some sample_drvc)
              (Some sample_acq) (engine_returns SR_ERR) (engine_returns SR_OK)
              active_sdi _ SR_ERR _ Hrun ltac:(discriminate))
    as (_ & _ & _ & Ha & _).
  exact Ha.
Defined.

Lemma start_success_path_witness :
  dev_acquisition_start 3 (Some sample_drvc) (Some sample_acq)
    (engine_returns SR_OK) (engine_returns SR_OK) active_sdi =
    Some (SR_OK,
          set_priv active_sdi (set_acquisition scenario_devc (Some sample_acq)),
          [Ev_alloc_acquisition_state (Some sample_acq); Ev_setup_acquisition;
           Ev_start_acquisition; Ev_usb_source_add; Ev_send_df_header])
  /\ status active_sdi = SR_ST_ACTIVE.
Proof.
  assert (Hrun : dev_acquisition_start 3 (Some sample_drvc) (Some sample_acq)
                   (engine_returns SR_OK) (engine_returns SR_OK) active_sdi =
                 Some (SR_OK,
                       set_priv active_sdi
                         (set_acquisition scenario_devc (Some sample_acq)),
                       [Ev_alloc_acquisition_state (Some sample_acq);
                        Ev_setup_acquisition; Ev_start_acquisition;
                        Ev_usb_source_add; Ev_send_df_header]))
    by (vm_compute; reflexivity).
  split; [exact Hrun|].
  destruct (start_success_path 3 (Some sample_drvc) (Some sample_acq)
              (engine_returns SR_OK) (engine_returns SR_OK) active_sdi _ _
              Hrun)
    as (devc & a & cfg & devc_cfg & Hst & _).
  exact Hst.
Defined.

Lemma stopping_device_refuses_start_and_stop_witness :
  exists stopping,
    dev_acquisition_stop busy_sdi = (SR_OK, stopping, [])
    /\ dev_acquisition_stop stopping = (SR_ERR_DEV_CLOSED, stopping, [])
    /\ dev_acquisition_start 3 (Some sample_drvc) (Some sample_acq)
         (engine_returns SR_OK) (engine_returns SR_OK) stopping =
       Some (SR_ERR_DEV_CLOSED, stopping, []).
Proof.
  destruct (stopping_device_refuses_start_and_stop 3 (Some sample_drvc)
              (Some sample_acq) (engine_returns SR_OK) (engine_returns SR_OK)
              (engine_returns SR_OK) busy_sdi
              (set_acquisition fresh_devc (Some sample_acq)) sample_drvc
              sample_hdl eq_refl eq_refl eq_refl eq_refl)
    as (stopping & H1 & H2 & H3 & _).
  exists stopping. exact (conj H1 (conj H2 H3)).
Defined.

Lemma start_rejects_bad_channel_list_witness :
  exists sdi' devc',
    dev_acquisition_start 3 (Some sample_drvc) (Some sample_acq)
      (engine_returns SR_OK) (engine_returns SR_OK) over_limit_sdi =
    Some (SR_ERR, sdi',
          [Ev_alloc_acquisition_state (Some sample_acq);
           Ev_free_acquisition_state sample_acq])
    /\ priv sdi' = Some devc'
    /\ acquisition devc' = None.
Proof.
  assert (H64 : (3 < 64)%nat) by lia.
  destruct (start_rejects_bad_channel_list 3 H64 (Some sample_drvc)
              (Some sample_acq) (engine_returns SR_OK) (engine_returns SR_OK)
              over_limit_sdi used_devc sample_acq
              eq_refl eq_refl eq_refl eq_refl
              ltac:(intros [Hlen _]; simpl in Hlen; lia))
    as (sdi' & devc' & Hrun & Hp & Ha & _).
  exists sdi', devc'. exact (conj Hrun (conj Hp Ha)).
Defined.

(** ** Closing twice, for every device of the driver *)

Lemma handle_invariant_open (di_priv : option drv_context)
    (DEFAULT_SAMPLERATE : Z)
    (sr_usb_open : sr_usb_dev_inst -> Z * sr_usb_dev_inst)
    (libusb_claim_interface : option libusb_device_handle -> Z)
    (lwla_init_device : sr_dev_inst -> Z * dev_context)
    (sdi sdi' : sr_dev_inst) (ret : Z) (ev : list bus_event) :
  usb_open_contract sr_usb_open ->
  handle_invariant sdi ->
  dev_open di_priv DEFAULT_SAMPLERATE sr_usb_open libusb_claim_interface
    lwla_init_device sdi = Some (ret, sdi', ev) ->
  handle_invariant sdi' /\ (priv sdi <> None -> priv sdi' <> None).
Proof.
  intros Hcontract Hinv Hrun. unfold dev_open in Hrun.
  destruct di_priv as [drvc|].
  2:{ injection Hrun as _ <- _. split; [exact Hinv|auto]. }
  destruct (Hcontract (conn sdi)) as [Hopen Hfail].
  destruct (sr_usb_open (conn sdi)) as [r0 usb]. cbn [fst snd] in *.
  destruct (Z.eqb_spec r0 SR_OK) as [Hr0|Hr0]; cbn [negb] in Hrun.
  2:{ injection Hrun as _ <- _. split; [|auto].
      unfold handle_invariant. cbn [conn status set_conn].
      rewrite (Hfail Hr0). exact Hinv. }
  specialize (Hopen Hr0).
  destruct (libusb_claim_interface (devhdl usb) <? 0).
  { injection Hrun as _ <- _. split; [|auto].
    unfold handle_invariant. cbn [conn status set_conn].
    intros E. contradiction. }
  cbn [priv set_status set_conn] in Hrun.
  destruct (priv sdi) as [devc|]; [|discriminate Hrun].
  destruct (lwla_init_device _) as [r d1].
  injection Hrun as _ <- _. split.
  - unfold handle_invariant.
    destruct (r =? SR_OK); cbn [conn status set_status set_priv set_conn];
      intros E; contradiction.
  - intros _. destruct (r =? SR_OK); cbn; discriminate.
Qed.

Lemma dev_close_keeps_context (di_priv : option drv_context)
    (lwla_set_clock_source : sr_dev_inst -> Z * dev_context)
    (sdi sdi' : sr_dev_inst) (ret : Z) (ev : list event) :
  priv sdi <> None ->
  dev_close di_priv lwla_set_clock_source sdi = Some (ret, sdi', ev) ->
  priv sdi' <> None.
Proof.
  unfold dev_close. intros Hp Hrun.
  destruct di_priv; [|injection Hrun as _ <- _; exact Hp].
  destruct (devhdl (conn sdi)); [|injection Hrun as _ <- _; exact Hp].
  destruct (priv sdi); [|discriminate Hrun].
  destruct (lwla_set_clock_source _).
  injection Hrun as _ <- _. cbn. discriminate.
Qed.

Lemma config_set_keeps_context
    (lwla_set_clock_source : sr_dev_inst -> Z * dev_context)
    (key : sr_conf_key) (data : GVariant) (sdi : sr_dev_inst) :
  priv sdi <> None ->
  priv (snd (fst (config_set lwla_set_clock_source key data sdi))) <> None.
Proof.
  unfold config_set. intros Hp.
  destruct (priv sdi) as [devc|] eqn:E; [|contradiction].
  destruct key; cbn [fst snd]; rewrite ?E; try discriminate.
  - destruct (_ || _); cbn; rewrite ?E; discriminate.
  - cbn [status set_priv].
    destruct (sr_status_eqb (status sdi) SR_ST_ACTIVE);
      [destruct (lwla_set_clock_source _)|]; cbn; discriminate.
Qed.

Lemma dev_acquisition_start_keeps_context (NUM_PROBES : nat)
    (di_priv : option drv_context)
    (lwla_alloc_acquisition_state : option acquisition_state)
    (lwla_setup_acquisition lwla_start_acquisition
       : sr_dev_inst -> Z * dev_context)
    (sdi sdi' : sr_dev_inst) (ret : Z) (ev : list event) :
  priv sdi <> None ->
  dev_acquisition_start NUM_PROBES di_priv lwla_alloc_acquisition_state
    lwla_setup_acquisition lwla_start_acquisition sdi = Some (ret, sdi', ev) ->
  priv sdi' <> None.
Proof.
  intros Hp Hrun. unfold dev_acquisition_start in Hrun.
  destruct (negb _); [injection Hrun as _ <- _; exact Hp|].
  destruct (priv sdi) as [devc|] eqn:E; [|discriminate Hrun].
  destruct (acquisition devc);
    [injection Hrun as _ <- _; rewrite E; discriminate|].
  destruct lwla_alloc_acquisition_state as [a|];
    [|injection Hrun as _ <- _; rewrite E; discriminate].
  destruct (configure_probes _ _) as [[r cfg]|] eqn:Hcfg;
    [|discriminate Hrun].
  eapply configure_probes_result in Hcfg; [|reflexivity].
  destruct Hcfg as [m ->]. cbn [priv set_priv] in Hrun.
  destruct (negb (r =? SR_OK)); [injection Hrun as _ <- _; discriminate|].
  destruct (lwla_setup_acquisition _) as [r1 d1].
  destruct (negb (r1 =? SR_OK)); [injection Hrun as _ <- _; discriminate|].
  destruct (lwla_start_acquisition _) as [r2 d2].
  destruct (negb (r2 =? SR_OK)); [injection Hrun as _ <- _; discriminate|].
  destruct di_priv; [|discriminate Hrun].
  injection Hrun as _ <- _. discriminate.
Qed.

(** Every device of the driver belongs to an initialised driver, has a
    context, and is inactive when it holds no connection handle. *)
Lemma reachable_well_formed (NUM_PROBES : nat)
    (di_priv : option drv_context) (DEFAULT_SAMPLERATE : Z)
    (sdi : sr_dev_inst) :
  reachable NUM_PROBES di_priv DEFAULT_SAMPLERATE sdi ->
  di_priv <> None /\ priv sdi <> None /\ handle_invariant sdi.
Proof.
  induction 1 as
    [ probe_name sr_probe_new usb_devices instances devices ev sdi Hscan Hin
    | sr_usb_open claim init sdi sdi' ret ev Hcontract _ IH Hrun
    | set_clock sdi sdi' ret ev _ IH Hrun
    | set_clock key data sdi sdi' ret ev _ IH Hrun
    | alloc setup start sdi sdi' ret ev _ IH Hrun
    | sdi sdi' ret ev _ IH Hrun
    | sdi ps _ IH ].
  - unfold scan in Hscan. destruct di_priv as [drvc|]; [|discriminate Hscan].
    rewrite scan_loop_map in Hscan. cbn [app] in Hscan.
    injection Hscan as _ <- _.
    apply in_map_iff in Hin. destruct Hin as (n & <- & _).
    split; [discriminate|]. split; [discriminate|].
    intros _. reflexivity.
  - destruct IH as (Hd & Hp & Hinv).
    destruct (handle_invariant_open _ _ _ _ _ _ _ _ _ Hcontract Hinv Hrun)
      as [Hinv' Hp'].
    auto.
  - destruct IH as (Hd & Hp & Hinv).
    split; [exact Hd|]. split.
    + exact (dev_close_keeps_context _ _ _ _ _ _ Hp Hrun).
    + exact (handle_invariant_close _ _ _ _ _ _ Hinv Hrun).
  - destruct IH as (Hd & Hp & Hinv).
    pose proof (config_set_keeps_context set_clock key data sdi Hp) as Hp'.
    pose proof (handle_invariant_config_set set_clock key data sdi Hinv)
      as Hinv'.
    rewrite Hrun in Hp', Hinv'. auto.
  - destruct IH as (Hd & Hp & Hinv).
    split; [exact Hd|]. split.
    + exact (dev_acquisition_start_keeps_context _ _ _ _ _ _ _ _ _ Hp Hrun).
    + exact (handle_invariant_start _ _ _ _ _ _ _ _ _ Hinv Hrun).
  - destruct IH as (Hd & Hp & Hinv).
    pose proof (handle_invariant_stop sdi Hinv) as Hinv'.
    rewrite Hrun in Hinv'. cbn [fst snd] in Hinv'.
    split; [exact Hd|]. split; [|exact Hinv'].
    unfold dev_acquisition_stop in Hrun.
    destruct (negb _); injection Hrun as _ <- _; exact Hp.
  - destruct IH as (Hd & Hp & Hinv). auto.
Qed.

(** C9.  Device close is idempotent on every device of the driver: a
    device [scan] has returned, after any sequence of calls of the entry
    points of the driver ([dev_open] with an [sr_usb_open] that keeps its
    contract, [dev_close], [config_set], acquisition start and stop) and
    edits of the channel list.  Closing it twice in a row returns [SR_OK]
    both times, whatever the protocol engine answers at each call, and
    leaves the status [SR_ST_INACTIVE] after each call; the second call
    finds no connection handle, makes no call and changes nothing. *)
Theorem close_twice_reachable (NUM_PROBES : nat)
    (di_priv : option drv_context) (DEFAULT_SAMPLERATE : Z)
    (first_shutdown second_shutdown : sr_dev_inst -> Z * dev_context)
    (sdi : sr_dev_inst) :
  reachable NUM_PROBES di_priv DEFAULT_SAMPLERATE sdi ->
  exists sdi1 ev1,
    dev_close di_priv first_shutdown sdi = Some (SR_OK, sdi1, ev1)
    /\ status sdi1 = SR_ST_INACTIVE
    /\ devhdl (conn sdi1) = None
    /\ dev_close di_priv second_shutdown sdi1 = Some (SR_OK, sdi1, [])
    /\ reachable NUM_PROBES di_priv DEFAULT_SAMPLERATE sdi1.
Proof.
  intros Hreach.
  destruct (reachable_well_formed _ _ _ _ Hreach) as (Hd & Hp & Hinv).
  destruct (dev_close di_priv first_shutdown sdi) as [[[r sdi1] ev1]|]
    eqn:Hclose.
  2:{ exfalso. unfold dev_close in Hclose.
      destruct di_priv; [|discriminate Hclose].
      destruct (devhdl (conn sdi)); [|discriminate Hclose].
      destruct (priv sdi); [|contradiction].
      destruct (first_shutdown _). discriminate Hclose. }
  pose proof (reach_close _ _ _ _ _ _ _ _ Hreach Hclose) as Hreach1.
  unfold dev_close in Hclose |- *.
  destruct di_priv as [drvc|]; [|contradiction].
  destruct (devhdl (conn sdi)) as [h|] eqn:Eh.
  - destruct (priv sdi) as [devc|]; [|contradiction].
    destruct (first_shutdown _) as [r1 d1].
    injection Hclose as <- <- <-.
    eexists. eexists. split; [reflexivity|]. repeat split. exact Hreach1.
  - injection Hclose as <- <- <-.
    exists sdi, []. split; [reflexivity|].
    split; [exact (Hinv Eh)|]. split; [exact Eh|].
    rewrite Eh. split; [reflexivity|exact Hreach1].
Qed.

(** The opened sample device is a device of the driver, and closing it
    twice ends as stated. *)
Lemma close_twice_reachable_witness :
  reachable 3 (Some sample_drvc) (SR_MHZ 125) opened_sample
  /\ exists sdi1 ev1,
      dev_close (Some sample_drvc) (engine_returns SR_ERR) opened_sample =
        Some (SR_OK, sdi1, ev1)
      /\ status sdi1 = SR_ST_INACTIVE
      /\ devhdl (conn sdi1) = None
      /\ dev_close (Some sample_drvc) (engine_returns SR_OK) sdi1 =
         Some (SR_OK, sdi1, []).
Proof.
  assert (Hscanned : reachable 3 (Some sample_drvc) (SR_MHZ 125)
                       scanned_sample).
  { apply (reach_scan 3 (Some sample_drvc) (SR_MHZ 125) sample_probe_name
             sample_probe_new sample_nodes [scanned_sample] [scanned_sample]
             (flat_map node_released sample_nodes) scanned_sample).
    - reflexivity.
    - left. reflexivity. }
  assert (Hcontract : usb_open_contract sample_usb_open).
  { intros usb. split; [discriminate|]. intros Hne. contradiction Hne.
    reflexivity. }
  assert (Hopened : reachable 3 (Some sample_drvc) (SR_MHZ 125)
                      opened_sample).
  { apply (reach_open 3 (Some sample_drvc) (SR_MHZ 125) sample_usb_open
             sample_claim_interface (engine_returns SR_OK) scanned_sample
             opened_sample SR_OK
             [Ev_usb_open; Ev_claim_interface (Some sample_hdl);
              Ev_init_device] Hcontract Hscanned).
    reflexivity. }
  split; [exact Hopened|].
  destruct (close_twice_reachable 3 (Some sample_drvc) (SR_MHZ 125)
              (engine_returns SR_ERR) (engine_returns SR_OK) opened_sample
              Hopened)
    as (sdi1 & ev1 & H1 & H2 & H3 & H4 & _).
  exists sdi1, ev1. exact (conj H1 (conj H2 (conj H3 H4))).
Defined.
